(** * NCAAFB data pipeline: the normalisation core

    A shallow embedding of [backend/utils/helpers.py] and of the
    [DataTransformer] class of [backend/data_transformer_uuid.py] (the
    transformer [backend/main.py] runs), with the properties the
    specification states about them; then the methods of the transformer
    with sequential identifiers of [backend/data_transformer.py] that key
    their dictionaries by strings, and the texts [backend/db_populator.py]
    computes, with further properties of the code.

    Conventions of the embedding.
    - A Python [str] is a [string]; every [ascii] stands for the code point
      of the same number, so the model covers the code points below 256.
    - A value decoded from JSON is a [value]; a [dict] keeps its insertion
      order and is an association list whose keys are looked up from the
      front (the keys of a decoded object are distinct).
    - An integer of a decoded document has at most 4300 digits, the most
      [json.loads] reads with the limit CPython starts with, so that
      [str] of an integer of a document always returns.
    - A function of the source that cannot raise is a plain function; one
      that can raise or that calls [uuid.uuid4] lives in the monad [prog].
*)

From Stdlib Require Import ZArith List String Ascii Bool Lia.
From Stdlib Require Import Floats.SpecFloat.
Import ListNotations.
Local Open Scope string_scope.
Local Open Scope Z_scope.

(** ** Python strings *)

Module PyStr.

Definition code (c : ascii) : Z := Z.of_N (N_of_ascii c).

(** The double quote, U+0022. *)
Definition dquote : ascii := "034"%char.

Definition is_empty (s : string) : bool :=
  match s with EmptyString => true | String _ _ => false end.

(** [str.isspace] on one character: the code points below 256 whose
    Unicode property is white space (bidirectional type WS, B or S). *)
Definition isspace (c : ascii) : bool :=
  let n := code c in
  ((9 <=? n) && (n <=? 13)) || ((28 <=? n) && (n <=? 32))
  || (n =? 133) || (n =? 160).

(** The ASCII digits: the only decimal digits (category Nd) below 256. *)
Definition isdecimal (c : ascii) : bool :=
  let n := code c in (48 <=? n) && (n <=? 57).

(** [str.isdigit] on one character: Numeric_Type Digit or Decimal, which
    adds the superscripts U+00B2, U+00B3 and U+00B9 to the ASCII digits. *)
Definition isdigit_char (c : ascii) : bool :=
  let n := code c in
  isdecimal c || (n =? 178) || (n =? 179) || (n =? 185).

Fixpoint forallb_str (p : ascii -> bool) (s : string) : bool :=
  match s with
  | EmptyString => true
  | String c r => p c && forallb_str p r
  end.

Fixpoint existsb_str (p : ascii -> bool) (s : string) : bool :=
  match s with
  | EmptyString => false
  | String c r => p c || existsb_str p r
  end.

(** [s.isdigit()]: false on the empty string. *)
Definition isdigit (s : string) : bool :=
  negb (is_empty s) && forallb_str isdigit_char s.

(** [c in s] for a one-character [c]. *)
Definition contains (c : ascii) (s : string) : bool :=
  existsb_str (Ascii.eqb c) s.

Fixpoint lstrip_by (p : ascii -> bool) (s : string) : string :=
  match s with
  | EmptyString => EmptyString
  | String c r => if p c then lstrip_by p r else s
  end.

Fixpoint rstrip_by (p : ascii -> bool) (s : string) : string :=
  match s with
  | EmptyString => EmptyString
  | String c r =>
      let r' := rstrip_by p r in
      if is_empty r' && p c then EmptyString else String c r'
  end.

Definition strip_by (p : ascii -> bool) (s : string) : string :=
  rstrip_by p (lstrip_by p s).

(** [s.strip()] *)
Definition strip (s : string) : string := strip_by isspace s.

(** [s.split()]: the maximal runs of characters that are not white
    space; [tok] is the run being read. *)
Fixpoint split_ws (s tok : string) : list string :=
  match s with
  | EmptyString => if is_empty tok then [] else [tok]
  | String c r =>
      if isspace c
      then (if is_empty tok then split_ws r "" else tok :: split_ws r "")
      else split_ws r (tok ++ String c "")
  end.

Definition split (s : string) : list string := split_ws s "".

(** [s.split(sep)] for a one-character separator: never the empty list. *)
Fixpoint split_on (sep : ascii) (s : string) : list string :=
  match s with
  | EmptyString => [""]
  | String c r =>
      if Ascii.eqb c sep then "" :: split_on sep r
      else match split_on sep r with
           | h :: t => String c h :: t
           | [] => [String c ""]
           end
  end.

(** [sep.join(parts)] *)
Fixpoint join (sep : string) (parts : list string) : string :=
  match parts with
  | [] => ""
  | [p] => p
  | p :: rest => p ++ sep ++ join sep rest
  end.

(** [s.replace(old, '')] *)
Fixpoint remove_prefix (old s : string) : option string :=
  match old, s with
  | EmptyString, _ => Some s
  | String a old', String b s' =>
      if Ascii.eqb a b then remove_prefix old' s' else None
  | String _ _, EmptyString => None
  end.

Fixpoint remove_all_fuel (fuel : nat) (old s : string) : string :=
  match fuel with
  | O => s
  | S fuel' =>
      match s with
      | EmptyString => EmptyString
      | String c r =>
          match remove_prefix old s with
          | Some rest => remove_all_fuel fuel' old rest
          | None => String c (remove_all_fuel fuel' old r)
          end
      end
  end.

(** Each step consumes at least one character when [old] is not empty. *)
Definition remove_all (old s : string) : string :=
  remove_all_fuel (String.length s) old s.

End PyStr.

(** ** Python integers: [int(s)], [int(s, 16)] and [str(n)] *)

Module PyInt.
Import PyStr.

(** The white space [int] and [float] skip around a literal: the ASCII
    white space of C, and the two white-space code points above 127,
    which CPython turns into blanks before it parses. *)
Definition isspace_num (c : ascii) : bool :=
  let n := code c in
  ((9 <=? n) && (n <=? 13)) || (n =? 32) || (n =? 133) || (n =? 160).

Definition digit_value (c : ascii) : option Z :=
  let n := code c in
  if (48 <=? n) && (n <=? 57) then Some (n - 48)
  else if (97 <=? n) && (n <=? 122) then Some (n - 87)
  else if (65 <=? n) && (n <=? 90) then Some (n - 55)
  else None.

Definition is_underscore (c : ascii) : bool := Ascii.eqb c "_".

(** The digits of a literal, single underscores allowed between them;
    returns the value read and the text left. *)
Fixpoint scan (base : Z) (s : string) (acc : Z) (seen prev_us : bool)
  : option (Z * string) :=
  let finish := if prev_us then None
                else if seen then Some (acc, s) else None in
  match s with
  | EmptyString => finish
  | String c r =>
      if is_underscore c
      then (if prev_us then None else scan base r acc seen true)
      else match digit_value c with
           | Some d => if d <? base
                       then scan base r (acc * base + d) true false
                       else finish
           | None => finish
           end
  end.

Definition skip_base_prefix (base : Z) (s : string) : string :=
  match s with
  | String "0" (String x r) =>
      if (base =? 16) && (Ascii.eqb x "x" || Ascii.eqb x "X")
      then match r with
           | String "_" r' => r'
           | _ => r
           end
      else s
  | _ => s
  end.

(** The digits [int] counts while it checks a literal: those of the run
    of digits and underscores the literal starts with. *)
Fixpoint count_digits (base : Z) (s : string) : Z :=
  match s with
  | EmptyString => 0
  | String c r =>
      if is_underscore c then count_digits base r
      else match digit_value c with
           | Some d => if d <? base then 1 + count_digits base r else 0
           | None => 0
           end
  end.

(** [sys.int_max_str_digits] as CPython sets it when it starts. *)
Definition max_str_digits : Z := 4300.

(** A base that is a power of two is read in linear time and is exempt
    from the limit on the digits. *)
Definition is_binary_base (base : Z) : bool :=
  Z.land base (base - 1) =? 0.

(** [int(s, base)] for base 10 or 16; [None] is ValueError, which [int]
    also raises for a literal of more than [max_str_digits] digits in a
    base that is not a power of two. *)
Definition parse (base : Z) (s : string) : option Z :=
  let s1 := lstrip_by isspace_num s in
  let '(neg, s2) :=
    match s1 with
    | String "+" r => (false, r)
    | String "-" r => (true, r)
    | _ => (false, s1)
    end in
  let s3 := skip_base_prefix base s2 in
  match s3 with
  | String "_" _ => None
  | _ =>
      match scan base s3 0 false false with
      | Some (n, rest) =>
          if is_empty (lstrip_by isspace_num rest)
          then if is_binary_base base
                  || (count_digits base s3 <=? max_str_digits)
               then Some (if neg then - n else n)
               else None
          else None
      | None => None
      end
  end.

Fixpoint digits_fuel (fuel : nat) (n : Z) (acc : string) : string :=
  match fuel with
  | O => acc
  | S fuel' =>
      let acc' := String (ascii_of_N (Z.to_N (48 + n mod 10))) acc in
      if n <? 10 then acc' else digits_fuel fuel' (n / 10) acc'
  end.

(** A number has at most [log2 n + 1] decimal digits. *)
Definition str_nonneg (n : Z) : string :=
  digits_fuel (S (Z.to_nat (Z.log2 n))) n "".

(** [str(n)] *)
Definition str (n : Z) : string :=
  if n <? 0 then "-" ++ str_nonneg (- n) else str_nonneg n.

End PyInt.

(** ** Python floats: binary64, as [spec_float] *)

Module PyFloat.
Import PyStr.

Definition t : Type := spec_float.
Definition prec : Z := 53.
Definition emax : Z := 1024.

Definition is_zero (f : t) : bool :=
  match f with S754_zero _ => true | _ => false end.

Definition eqb (a b : t) : bool :=
  match SFcompare a b with Some Eq => true | _ => false end.

(** [float(n)] for an integer; [None] is OverflowError. *)
Definition of_int (n : Z) : option t :=
  match binary_normalize prec emax n 0 false with
  | S754_infinity _ => None
  | f => Some f
  end.

Variant truncation : Type :=
| Trunc (n : Z)
| TruncInfinity
| TruncNan.

(** [int(f)]: towards zero; OverflowError on an infinity and ValueError
    on a NaN are left to the caller. *)
Definition to_int (f : t) : truncation :=
  match f with
  | S754_zero _ => Trunc 0
  | S754_finite s m e =>
      let a := if 0 <=? e then Zpos m * 2 ^ e else Zpos m / 2 ^ (- e) in
      Trunc (if s then - a else a)
  | S754_infinity _ => TruncInfinity
  | S754_nan => TruncNan
  end.

(** The float nearest to [m * 10 ^ e10], ties to even. *)
Definition of_decimal (neg : bool) (m e10 : Z) : t :=
  match m with
  | Zpos _ =>
      if 0 <=? e10
      then binary_normalize prec emax
             (if neg then - (m * 10 ^ e10) else m * 10 ^ e10) 0 false
      else
        let d := 10 ^ (- e10) in
        let k := Z.max 0 (Z.log2 d + 56 - Z.log2 m) in
        let n := m * 2 ^ k in
        let r := n mod d in
        binary_round_aux prec emax neg (n / d) (- k)
          (if r =? 0 then loc_Exact else loc_Inexact (2 * r ?= d))
  | _ => S754_zero neg
  end.

(** Underscores of a literal stand between two digits; the result is the
    literal without them. *)
Fixpoint strip_underscores (s : string) (prev : ascii) : option string :=
  match s with
  | EmptyString => if Ascii.eqb prev "_" then None else Some ""
  | String c r =>
      if Ascii.eqb c "_"
      then (if isdecimal prev then strip_underscores r c else None)
      else if Ascii.eqb prev "_" && negb (isdecimal c) then None
      else option_map (String c) (strip_underscores r c)
  end.

Fixpoint read_digits (s : string) (acc count : Z) : Z * Z * string :=
  match s with
  | EmptyString => (acc, count, s)
  | String c r =>
      if isdecimal c
      then read_digits r (acc * 10 + (code c - 48)) (count + 1)
      else (acc, count, s)
  end.

Definition read_sign (s : string) : bool * string :=
  match s with
  | String "+" r => (false, r)
  | String "-" r => (true, r)
  | _ => (false, s)
  end.

Definition lower_char (c : ascii) : ascii :=
  let n := code c in
  if (65 <=? n) && (n <=? 90) then ascii_of_N (Z.to_N (n + 32)) else c.

Fixpoint lower (s : string) : string :=
  match s with
  | EmptyString => EmptyString
  | String c r => String (lower_char c) (lower r)
  end.

(** [float(s)]; [None] is ValueError. *)
Definition parse (s : string) : option t :=
  match strip_underscores (strip_by PyInt.isspace_num s) "000" with
  | None => None
  | Some s1 =>
      let '(neg, s2) := read_sign s1 in
      let low := lower s2 in
      if String.eqb low "inf" || String.eqb low "infinity"
      then Some (S754_infinity neg)
      else if String.eqb low "nan" then Some S754_nan
      else
        let '(ip, ni, r1) := read_digits s2 0 0 in
        let '(fp, nf, r2) :=
          match r1 with
          | String "." r => read_digits r ip 0
          | _ => (ip, 0, r1)
          end in
        if ni + nf =? 0 then None
        else match r2 with
             | EmptyString => Some (of_decimal neg fp (- nf))
             | String c r3 =>
                 if Ascii.eqb (lower_char c) "e"
                 then
                   let '(eneg, r4) := read_sign r3 in
                   let '(ev, ne, r5) := read_digits r4 0 0 in
                   if (ne =? 0) || negb (is_empty r5) then None
                   else Some (of_decimal neg fp
                                ((if eneg then - ev else ev) - nf))
                 else None
             end
  end.

(** The decimal exponent [p] of [num / den > 0]:
    [10 ^ p <= num / den < 10 ^ (p + 1)]. *)
Fixpoint exponent_up (fuel : nat) (num den p : Z) : Z :=
  match fuel with
  | O => p
  | S fuel' => if 10 * den <=? num
               then exponent_up fuel' num (10 * den) (p + 1) else p
  end.

Fixpoint exponent_down (fuel : nat) (num den p : Z) : Z :=
  match fuel with
  | O => p
  | S fuel' => if num <? den
               then exponent_down fuel' (10 * num) den (p - 1) else p
  end.

Definition decimal_exponent (num den : Z) : Z :=
  if den <=? num then exponent_up 400 num den 0
  else exponent_down 400 num den 0.

(** The shortest decimal [d * 10 ^ q] that reads back as [f]; of two of
    one length the nearer one. [n] counts the digits tried. *)
Fixpoint shortest (fuel : nat) (n : Z) (f : t) (num den p : Z) : Z * Z :=
  let q := p - n + 1 in
  let '(a, b) := if 0 <=? q then (num, den * 10 ^ q)
                 else (num * 10 ^ (- q), den) in
  let lo := a / b in
  let rem := a mod b in
  let near_lo := (2 * rem <? b) || ((2 * rem =? b) && Z.even lo) in
  match fuel with
  | O => (if near_lo then lo else lo + 1, q)
  | S fuel' =>
      let ok_lo := eqb (of_decimal false lo q) f in
      let ok_hi := eqb (of_decimal false (lo + 1) q) f in
      if ok_lo && (near_lo || negb ok_hi) then (lo, q)
      else if ok_hi then (lo + 1, q)
      else shortest fuel' (n + 1) f num den p
  end.

Fixpoint drop_zeros (fuel : nat) (d q : Z) : Z * Z :=
  match fuel with
  | O => (d, q)
  | S fuel' => if (d mod 10 =? 0) && (0 <? d)
               then drop_zeros fuel' (d / 10) (q + 1) else (d, q)
  end.

Fixpoint zeros (n : nat) : string :=
  match n with O => "" | S n' => String "0" (zeros n') end.

Definition len (s : string) : Z := Z.of_nat (String.length s).

(** The text of [repr] from the digits and the place of the point. *)
Definition format_repr (ds : string) (decpt : Z) : string :=
  if (decpt <=? -4) || (16 <? decpt)
  then
    let mant := match ds with
                | String c EmptyString => ds
                | String c r => String c ("." ++ r)
                | EmptyString => ds
                end in
    let e := decpt - 1 in
    let es := PyInt.str_nonneg (Z.abs e) in
    mant ++ "e" ++ (if e <? 0 then "-" else "+")
         ++ (if len es <? 2 then "0" ++ es else es)
  else if decpt <=? 0
  then "0." ++ zeros (Z.to_nat (- decpt)) ++ ds
  else if len ds <=? decpt
  then ds ++ zeros (Z.to_nat (decpt - len ds)) ++ ".0"
  else substring 0 (Z.to_nat decpt) ds ++ "."
       ++ substring (Z.to_nat decpt) (Z.to_nat (len ds - decpt)) ds.

(** [repr(f)], which is also [str(f)]. *)
Definition repr (f : t) : string :=
  match f with
  | S754_nan => "nan"
  | S754_infinity s => if s then "-inf" else "inf"
  | S754_zero s => if s then "-0.0" else "0.0"
  | S754_finite s m e =>
      let num := if 0 <=? e then Zpos m * 2 ^ e else Zpos m in
      let den := if 0 <=? e then 1 else 2 ^ (- e) in
      let p := decimal_exponent num den in
      let '(d0, q0) := shortest 16 1 (S754_finite false m e) num den p in
      let '(d, q) := drop_zeros 20 d0 q0 in
      let ds := PyInt.str_nonneg d in
      (if s then "-" else "") ++ format_repr ds (len ds + q)
  end.

End PyFloat.

(** ** Values decoded from JSON *)

#[local] Set Warnings "-register-all".


Inductive value : Type :=
| VNone
| VBool (b : bool)
| VInt (n : Z)
| VFloat (f : PyFloat.t)
| VStr (s : string)
| VList (items : list value)
| VDict (entries : list (string * value)).

(** ** Python dictionaries: insertion-ordered association lists *)

Section PyDict.
Context {K V : Type} (eqb : K -> K -> bool).

(** [d.get(k)] *)
Fixpoint dict_get (k : K) (d : list (K * V)) : option V :=
  match d with
  | [] => None
  | (k', v) :: rest => if eqb k k' then Some v else dict_get k rest
  end.

(** [k in d] *)
Definition dict_mem (k : K) (d : list (K * V)) : bool :=
  match dict_get k d with Some _ => true | None => false end.

(** [d[k] = v]: a key already present keeps its place. *)
Fixpoint dict_set (k : K) (v : V) (d : list (K * V)) : list (K * V) :=
  match d with
  | [] => [(k, v)]
  | (k', v') :: rest =>
      if eqb k k' then (k', v) :: rest else (k', v') :: dict_set k v rest
  end.
End PyDict.

(** ** Exceptions and [uuid.uuid4] *)

Variant exn : Type :=
| ValueError
| TypeError
| AttributeError
| OverflowError.

(** A computation returns, raises, or asks for the text of a fresh random
    UUID and goes on with it. *)
Inductive prog (A : Type) : Type :=
| Ret (a : A)
| Raise (e : exn)
| Uuid4 (k : string -> prog A).

Arguments Ret {A} a.
Arguments Raise {A} e.
Arguments Uuid4 {A} k.

Fixpoint bind {A B : Type} (p : prog A) (f : A -> prog B) : prog B :=
  match p with
  | Ret a => f a
  | Raise e => Raise e
  | Uuid4 k => Uuid4 (fun u => bind (k u) f)
  end.

Notation "x <- c ;; k" := (bind c (fun x => k))
  (at level 61, c at next level, right associativity).

(** [str(uuid.uuid4())] *)
Definition uuid4_str : prog string := Uuid4 (fun u => Ret u).

(** [for x in items: body], the state threaded through the iterations. *)
Fixpoint for_each {A S : Type} (items : list A) (body : A -> S -> prog S)
  (s : S) : prog S :=
  match items with
  | [] => Ret s
  | x :: rest => s' <- body x s ;; for_each rest body s'
  end.

Variant outcome (A : Type) : Type :=
| Returned (a : A)
| Raised (e : exn).

Arguments Returned {A} a.
Arguments Raised {A} e.

(** One run: [source] is what the random generator yields, call after
    call, and [n] counts the calls made so far. *)
Fixpoint run {A : Type} (p : prog A) (source : nat -> string) (n : nat)
  : outcome A * nat :=
  match p with
  | Ret a => (Returned a, n)
  | Raise e => (Raised e, n)
  | Uuid4 k => run (k (source n)) source (S n)
  end.

(** ** Builtins on values *)

Module Py.
Import PyStr.

(** [bool(v)] *)
Definition truthy (v : value) : bool :=
  match v with
  | VNone => false
  | VBool b => b
  | VInt n => negb (n =? 0)
  | VFloat f => negb (PyFloat.is_zero f)
  | VStr s => negb (is_empty s)
  | VList l => match l with [] => false | _ => true end
  | VDict d => match d with [] => false | _ => true end
  end.

(** [a or b] *)
Definition or (a b : value) : value := if truthy a then a else b.

Definition hex_digit (n : Z) : ascii :=
  ascii_of_N (Z.to_N (if n <? 10 then 48 + n else 87 + n)).

Definition printable (c : ascii) : bool :=
  let n := code c in
  ((32 <=? n) && (n <=? 126)) || ((161 <=? n) && negb (n =? 173)).

Fixpoint escape (quote : ascii) (s : string) : string :=
  match s with
  | EmptyString => EmptyString
  | String c r =>
      let n := code c in
      (if Ascii.eqb c quote || Ascii.eqb c "\" then String "\" (String c "")
       else if n =? 9 then "\t"
       else if n =? 10 then "\n"
       else if n =? 13 then "\r"
       else if printable c then String c ""
       else String "\" (String "x"
              (String (hex_digit (n / 16)) (String (hex_digit (n mod 16)) ""))))
      ++ escape quote r
  end.

(** [repr(s)] of a string: double quotes only when it holds a single
    quote and no double quote. *)
Definition repr_str (s : string) : string :=
  let quote : ascii :=
    if contains "'" s && negb (contains dquote s) then dquote else "'"%char in
  String quote (escape quote s) ++ String quote "".

(** [repr(v)] *)
Fixpoint repr (v : value) : string :=
  match v with
  | VNone => "None"
  | VBool b => if b then "True" else "False"
  | VInt n => PyInt.str n
  | VFloat f => PyFloat.repr f
  | VStr s => repr_str s
  | VList l => "[" ++ join ", " (map repr l) ++ "]"
  | VDict d =>
      "{" ++ join ", " (map (fun kv => repr_str (fst kv) ++ ": "
                                        ++ repr (snd kv)) d) ++ "}"
  end.

(** [str(v)] *)
Definition str (v : value) : string :=
  match v with
  | VStr s => s
  | _ => repr v
  end.

Fixpoint chars (s : string) : list value :=
  match s with
  | EmptyString => []
  | String c r => VStr (String c "") :: chars r
  end.

(** What [for x in v] goes through; TypeError when [v] is not iterable. *)
Definition iter (v : value) : prog (list value) :=
  match v with
  | VList l => Ret l
  | VDict d => Ret (map (fun kv => VStr (fst kv)) d)
  | VStr s => Ret (chars s)
  | VNone | VBool _ | VInt _ | VFloat _ => Raise TypeError
  end.

(** [v.items()]; AttributeError when [v] is not a dict. *)
Definition items (v : value) : prog (list (string * value)) :=
  match v with
  | VDict d => Ret d
  | _ => Raise AttributeError
  end.

(** [d.get(key)] on the entries of a dict. *)
Definition lookup (d : list (string * value)) (key : string) : value :=
  match dict_get String.eqb key d with
  | Some x => x
  | None => VNone
  end.

(** [v.get(key)]; AttributeError when [v] is not a dict. *)
Definition get (v : value) (key : string) : prog value :=
  match v with
  | VDict d => Ret (lookup d key)
  | _ => Raise AttributeError
  end.

(** Whether [uuid.UUID(s)] accepts [s]. *)
Definition is_brace (c : ascii) : bool :=
  Ascii.eqb c "{" || Ascii.eqb c "}".

Definition uuid_ok (s : string) : bool :=
  let hex := remove_all "uuid:" (remove_all "urn:" s) in
  let hex := remove_all "-" (strip_by is_brace hex) in
  Nat.eqb (String.length hex) 32
  && match PyInt.parse 16 hex with
     | Some n => (0 <=? n) && (n <? 2 ^ 128)
     | None => false
     end.

End Py.

(** ** [backend/utils/helpers.py] *)

Module Helpers.
Import PyStr.

(** [safe_get(data, *keys, default=default)]. Nothing in its body can
    raise: the membership test and the subscript are guarded by
    [isinstance(current, dict)], so it is a plain function. *)
Fixpoint safe_get (data : value) (keys : list string) (default : value)
  : value :=
  match keys with
  | [] => match data with VNone => default | _ => data end
  | key :: keys' =>
      match data with
      | VDict d =>
          match dict_get String.eqb key d with
          | Some current => safe_get current keys' default
          | None => default
          end
      | _ => default
      end
  end.

Definition nonempty (s : string) : option string :=
  if is_empty s then None else Some s.

Definition normalize_string (v : value) : option string :=
  match v with
  | VNone => None
  | VStr s => nonempty (strip s)
  | _ => nonempty (strip (Py.str v))
  end.

(** [int(value)] raises OverflowError, which is not caught, on an
    infinite float. *)
Definition normalize_int (v : value) : prog (option Z) :=
  match v with
  | VNone => Ret None
  | VBool b => Ret (Some (if b then 1 else 0))
  | VInt n => Ret (Some n)
  | VFloat f =>
      match PyFloat.to_int f with
      | PyFloat.Trunc n => Ret (Some n)
      | PyFloat.TruncInfinity => Raise OverflowError
      | PyFloat.TruncNan => Ret None
      end
  | VStr s => Ret (PyInt.parse 10 s)
  | VList _ | VDict _ => Ret None
  end.

(** [float(value)] raises OverflowError, which is not caught, on an
    integer beyond the range of a float. *)
Definition normalize_float (v : value) : prog (option PyFloat.t) :=
  match v with
  | VNone => Ret None
  | VBool b => Ret (PyFloat.of_int (if b then 1 else 0))
  | VInt n =>
      match PyFloat.of_int n with
      | Some f => Ret (Some f)
      | None => Raise OverflowError
      end
  | VFloat f => Ret (Some f)
  | VStr s => Ret (PyFloat.parse s)
  | VList _ | VDict _ => Ret None
  end.

(** No decoded JSON value is a [datetime]. *)
Definition normalize_date (v : value) : option string :=
  match v with
  | VStr s => nonempty (strip s)
  | _ => None
  end.

Definition normalize_uuid (v : value) : option string :=
  match v with
  | VStr s => if Py.uuid_ok s then Some s else None
  | _ => None
  end.

Fixpoint take_digits (s : string) : string * string :=
  match s with
  | EmptyString => ("", "")
  | String c r =>
      if isdecimal c
      then let '(ds, rest) := take_digits r in (String c ds, rest)
      else ("", s)
  end.

(** The [re.match] of the source: a run of decimal digits, one single
    or double quote, a run of decimal digits, from the start of [s];
    the two groups. *)
Definition match_feet_inches (s : string) : option (string * string) :=
  let '(feet, r) := take_digits s in
  if is_empty feet then None
  else match r with
       | String q r' =>
           if Ascii.eqb q "'" || Ascii.eqb q dquote
           then let '(inches, _) := take_digits r' in
                if is_empty inches then None else Some (feet, inches)
           else None
       | EmptyString => None
       end.

(** [feet * 12 + inches] inside [try ... except ValueError: return None] *)
Definition feet_inches (feet inches : string) : value :=
  match PyInt.parse 10 feet, PyInt.parse 10 inches with
  | Some f, Some i => VInt (f * 12 + i)
  | _, _ => VNone
  end.

(** A [bool] is an [int] for [isinstance]; the [int(height_str)] of the
    digit-only branch stands outside every [try]. *)
Definition convert_height_to_inches (height_str : value) : prog value :=
  match height_str with
  | VNone => Ret VNone
  | VBool _ | VInt _ => Ret height_str
  | VStr raw =>
      let s := strip raw in
      if isdigit s
      then match PyInt.parse 10 s with
           | Some n => Ret (VInt n)
           | None => Raise ValueError
           end
      else
        let dashed :=
          if contains "-" s
          then match split_on "-" s with
               | [a; b] => Some (a, b)
               | _ => None
               end
          else None in
        match dashed with
        | Some (a, b) => Ret (feet_inches (strip a) (strip b))
        | None =>
            if contains "'" s || contains dquote s
            then match match_feet_inches s with
                 | Some (a, b) => Ret (feet_inches a b)
                 | None => Ret VNone
                 end
            else Ret VNone
        end
  | VFloat _ | VList _ | VDict _ => Ret VNone
  end.

End Helpers.

(** ** The records of the entity tables

    One module per table; the fields carry the keys of the Python dict the
    transformer appends. A field that the source always fills with a
    string is a [string], one that may be [None] an [option]. *)

Module Conference.
Record t : Type := mk
  { conference_id : string; name : string; alias : option string }.
End Conference.

Module Division.
Record t : Type := mk
  { division_id : string; name : string; alias : option string;
    conference_id : option string }.
End Division.

Module Venue.
Record t : Type := mk
  { venue_id : string; name : option string; city : option string;
    state : option string; country : option string; zip : option string;
    address : option string; capacity : option Z;
    surface : option string; roof_type : option string;
    latitude : option PyFloat.t; longitude : option PyFloat.t }.
End Venue.

Module Team.
Record t : Type := mk
  { team_id : string; market : option string; name : option string;
    alias : option string; founded : option Z; mascot : option string;
    fight_song : option string; championships_won : option Z;
    conference_id : option string; division_id : option string;
    venue_id : option string }.
End Team.

Module Season.
Record t : Type := mk
  { season_id : string; year : Z; start_date : option string;
    end_date : option string; status : option string;
    type_code : string }.
End Season.

Module Player.
Record t : Type := mk
  { player_id : string; first_name : option string; last_name : string;
    abbr_name : option string; birth_place : option string;
    position : option string; height : value; weight : option Z;
    status : option string; eligibility : option string;
    team_id : string }.
End Player.

Module Coach.
Record t : Type := mk
  { coach_id : string; full_name : string; position : option string;
    team_id : string }.
End Coach.

Module PlayerStatistic.
Record t : Type := mk
  { stat_id : Z; player_id : string; team_id : string;
    season_id : string; games_played : option Z;
    games_started : option Z; rushing_yards : option Z;
    rushing_touchdowns : option Z; receiving_yards : option Z;
    receiving_touchdowns : option Z; kick_return_yards : option Z;
    fumbles : option Z }.
End PlayerStatistic.

Module Ranking.
Record t : Type := mk
  { ranking_id : Z; poll_id : string; poll_name : option string;
    season_id : option string; week : option Z;
    effective_time : option string; team_id : string;
    rank : option Z; prev_rank : option Z; points : option Z;
    fp_votes : option Z; wins : option Z; losses : option Z;
    ties : option Z }.
End Ranking.

Module Game.
Record t : Type := mk
  { game_id : Z; home_team_api_id : option string;
    away_team_api_id : option string; scheduled : value;
    venue_name : option string }.
End Game.

(** ** [backend/data_transformer_uuid.py]: class [DataTransformer] *)

Module DataTransformer.
Import PyStr Helpers.

(** The attributes [__init__] creates. [clean_schedule] stands for the
    file [season_schedule_<year>.json] that [transform_schedule] writes:
    the games last saved there. *)
Record t : Type := mk
  { conferences : list Conference.t;
    divisions : list Division.t;
    venues : list Venue.t;
    teams : list Team.t;
    seasons : list Season.t;
    players : list Player.t;
    player_statistics : list PlayerStatistic.t;
    rankings : list Ranking.t;
    coaches : list Coach.t;
    conference_id_map : list (string * string);
    division_id_map : list ((option string * string) * string);
    venue_id_map : list (string * string);
    team_id_map : list (string * string);
    season_id_map : list ((Z * string) * string);
    player_id_map : list (string * string);
    clean_schedule : list Game.t }.

Definition init : t := mk [] [] [] [] [] [] [] [] [] [] [] [] [] [] [] [].

Definition set_conferences (x : list Conference.t) (s : t) : t :=
  mk x (divisions s) (venues s) (teams s) (seasons s) (players s)
     (player_statistics s) (rankings s) (coaches s) (conference_id_map s)
     (division_id_map s) (venue_id_map s) (team_id_map s)
     (season_id_map s) (player_id_map s) (clean_schedule s).
Definition set_divisions (x : list Division.t) (s : t) : t :=
  mk (conferences s) x (venues s) (teams s) (seasons s) (players s)
     (player_statistics s) (rankings s) (coaches s) (conference_id_map s)
     (division_id_map s) (venue_id_map s) (team_id_map s)
     (season_id_map s) (player_id_map s) (clean_schedule s).
Definition set_venues (x : list Venue.t) (s : t) : t :=
  mk (conferences s) (divisions s) x (teams s) (seasons s) (players s)
     (player_statistics s) (rankings s) (coaches s) (conference_id_map s)
     (division_id_map s) (venue_id_map s) (team_id_map s)
     (season_id_map s) (player_id_map s) (clean_schedule s).
Definition set_teams (x : list Team.t) (s : t) : t :=
  mk (conferences s) (divisions s) (venues s) x (seasons s) (players s)
     (player_statistics s) (rankings s) (coaches s) (conference_id_map s)
     (division_id_map s) (venue_id_map s) (team_id_map s)
     (season_id_map s) (player_id_map s) (clean_schedule s).
Definition set_seasons (x : list Season.t) (s : t) : t :=
  mk (conferences s) (divisions s) (venues s) (teams s) x (players s)
     (player_statistics s) (rankings s) (coaches s) (conference_id_map s)
     (division_id_map s) (venue_id_map s) (team_id_map s)
     (season_id_map s) (player_id_map s) (clean_schedule s).
Definition set_players (x : list Player.t) (s : t) : t :=
  mk (conferences s) (divisions s) (venues s) (teams s) (seasons s) x
     (player_statistics s) (rankings s) (coaches s) (conference_id_map s)
     (division_id_map s) (venue_id_map s) (team_id_map s)
     (season_id_map s) (player_id_map s) (clean_schedule s).
Definition set_player_statistics (x : list PlayerStatistic.t) (s : t) : t :=
  mk (conferences s) (divisions s) (venues s) (teams s) (seasons s)
     (players s) x (rankings s) (coaches s) (conference_id_map s)
     (division_id_map s) (venue_id_map s) (team_id_map s)
     (season_id_map s) (player_id_map s) (clean_schedule s).
Definition set_rankings (x : list Ranking.t) (s : t) : t :=
  mk (conferences s) (divisions s) (venues s) (teams s) (seasons s)
     (players s) (player_statistics s) x (coaches s) (conference_id_map s)
     (division_id_map s) (venue_id_map s) (team_id_map s)
     (season_id_map s) (player_id_map s) (clean_schedule s).
Definition set_coaches (x : list Coach.t) (s : t) : t :=
  mk (conferences s) (divisions s) (venues s) (teams s) (seasons s)
     (players s) (player_statistics s) (rankings s) x (conference_id_map s)
     (division_id_map s) (venue_id_map s) (team_id_map s)
     (season_id_map s) (player_id_map s) (clean_schedule s).
Definition set_conference_id_map (x : list (string * string)) (s : t) : t :=
  mk (conferences s) (divisions s) (venues s) (teams s) (seasons s)
     (players s) (player_statistics s) (rankings s) (coaches s) x
     (division_id_map s) (venue_id_map s) (team_id_map s)
     (season_id_map s) (player_id_map s) (clean_schedule s).
Definition set_division_id_map
  (x : list ((option string * string) * string)) (s : t) : t :=
  mk (conferences s) (divisions s) (venues s) (teams s) (seasons s)
     (players s) (player_statistics s) (rankings s) (coaches s)
     (conference_id_map s) x (venue_id_map s) (team_id_map s)
     (season_id_map s) (player_id_map s) (clean_schedule s).
Definition set_venue_id_map (x : list (string * string)) (s : t) : t :=
  mk (conferences s) (divisions s) (venues s) (teams s) (seasons s)
     (players s) (player_statistics s) (rankings s) (coaches s)
     (conference_id_map s) (division_id_map s) x (team_id_map s)
     (season_id_map s) (player_id_map s) (clean_schedule s).
Definition set_team_id_map (x : list (string * string)) (s : t) : t :=
  mk (conferences s) (divisions s) (venues s) (teams s) (seasons s)
     (players s) (player_statistics s) (rankings s) (coaches s)
     (conference_id_map s) (division_id_map s) (venue_id_map s) x
     (season_id_map s) (player_id_map s) (clean_schedule s).
Definition set_season_id_map (x : list ((Z * string) * string)) (s : t) : t :=
  mk (conferences s) (divisions s) (venues s) (teams s) (seasons s)
     (players s) (player_statistics s) (rankings s) (coaches s)
     (conference_id_map s) (division_id_map s) (venue_id_map s)
     (team_id_map s) x (player_id_map s) (clean_schedule s).
Definition set_player_id_map (x : list (string * string)) (s : t) : t :=
  mk (conferences s) (divisions s) (venues s) (teams s) (seasons s)
     (players s) (player_statistics s) (rankings s) (coaches s)
     (conference_id_map s) (division_id_map s) (venue_id_map s)
     (team_id_map s) (season_id_map s) x (clean_schedule s).
Definition set_clean_schedule (x : list Game.t) (s : t) : t :=
  mk (conferences s) (divisions s) (venues s) (teams s) (seasons s)
     (players s) (player_statistics s) (rankings s) (coaches s)
     (conference_id_map s) (division_id_map s) (venue_id_map s)
     (team_id_map s) (season_id_map s) (player_id_map s) x.

(** *** Truth values and keys *)

(** [if x:] on an optional string: the string when it is truthy. *)
Definition truthy_str (x : option string) : option string :=
  match x with
  | Some s => if is_empty s then None else Some s
  | None => None
  end.

(** [if n:] on an optional integer: the integer when it is truthy. *)
Definition truthy_int (x : option Z) : option Z :=
  match x with
  | Some n => if n =? 0 then None else Some n
  | None => None
  end.

(** [a or b] on optional strings. *)
Definition str_or (a b : option string) : option string :=
  match truthy_str a with Some _ => a | None => b end.

Definition opt_str_eqb (a b : option string) : bool :=
  match a, b with
  | Some x, Some y => String.eqb x y
  | None, None => true
  | _, _ => false
  end.

Definition division_key_eqb (a b : option string * string) : bool :=
  opt_str_eqb (fst a) (fst b) && String.eqb (snd a) (snd b).

Definition season_key_eqb (a b : Z * string) : bool :=
  (fst a =? fst b) && String.eqb (snd a) (snd b).

Definition get_str (k : string) (d : list (string * string))
  : option string := dict_get String.eqb k d.

Definition set_str (k v : string) (d : list (string * string))
  : list (string * string) := dict_set String.eqb k v d.

Definition field (v : value) (key : string) : value :=
  safe_get v [key] VNone.

(** *** [_extract_venue]

    No caller uses the identifier it returns, so the model returns the
    transformer alone. *)
Definition _extract_venue (venue : value) (self : t) : prog t :=
  if negb (Py.truthy venue) then Ret self
  else
    let venue_api_id := normalize_uuid (field venue "id") in
    let venue_name := normalize_string (field venue "name") in
    match truthy_str venue_api_id with
    | None => Ret self
    | Some venue_api_id =>
        if dict_mem String.eqb venue_api_id (venue_id_map self)
        then Ret self
        else
          let self := set_venue_id_map
                        (set_str venue_api_id venue_api_id
                           (venue_id_map self)) self in
          let location := safe_get venue ["location"] (VDict []) in
          lat <- normalize_float (field location "lat") ;;
          lng <- normalize_float (field location "lng") ;;
          capacity <- normalize_int (field venue "capacity") ;;
          Ret (set_venues
                 (venues self ++
                  [Venue.mk venue_api_id venue_name
                     (normalize_string (field venue "city"))
                     (normalize_string (field venue "state"))
                     (normalize_string
                        (safe_get venue ["country"] (VStr "USA")))
                     (normalize_string (field venue "zip"))
                     (normalize_string (field venue "address"))
                     capacity
                     (normalize_string (field venue "surface"))
                     (normalize_string (field venue "roof_type"))
                     lat lng]) self)
    end.

(** The venue of one team document: the body shared by the innermost
    loop of [transform_hierarchy] and the loop of [transform_venues]. *)
Definition team_venue (team : value) (self : t) : prog t :=
  let venue := field team "venue" in
  if Py.truthy venue then _extract_venue venue self else Ret self.

(** *** [transform_hierarchy] *)

(** The body of the loop over the conferences of one division. *)
Definition hierarchy_conference (div_name : string)
  (div_alias : option string) (div_uuid : string) (conf : value)
  (self : t) : prog t :=
  let conf_name := normalize_string (field conf "name") in
  let conf_alias := normalize_string (field conf "alias") in
  let conf_api_id := normalize_uuid (field conf "id") in
  match truthy_str conf_name with
  | None => Ret self
  | Some conf_name =>
      conf_uuid <- match truthy_str conf_api_id with
                   | Some u => Ret u
                   | None => uuid4_str
                   end ;;
      let self := set_conference_id_map
                    (set_str conf_name conf_uuid (conference_id_map self))
                    self in
      let self :=
        if existsb (fun c => String.eqb (Conference.conference_id c)
                               conf_uuid) (conferences self)
        then self
        else set_conferences
               (conferences self ++
                [Conference.mk conf_uuid conf_name conf_alias]) self in
      let division_key := (Some conf_uuid, div_name) in
      let self := set_division_id_map
                    (dict_set division_key_eqb division_key div_uuid
                       (division_id_map self)) self in
      let self :=
        if existsb (fun d => String.eqb (Division.division_id d) div_uuid)
             (divisions self)
        then self
        else set_divisions
               (divisions self ++
                [Division.mk div_uuid div_name div_alias (Some conf_uuid)])
               self in
      teams_list <- Py.iter (safe_get conf ["teams"] (VList [])) ;;
      for_each teams_list team_venue self
  end.

(** The body of the loop over the divisions. *)
Definition hierarchy_division (div : value) (self : t) : prog t :=
  let div_name := normalize_string (field div "name") in
  let div_alias := normalize_string (field div "alias") in
  let div_api_id := normalize_uuid (field div "id") in
  match truthy_str div_name with
  | None => Ret self
  | Some div_name =>
      div_uuid <- match truthy_str div_api_id with
                  | Some u => Ret u
                  | None => uuid4_str
                  end ;;
      conferences_list <-
        Py.iter (safe_get div ["conferences"] (VList [])) ;;
      for_each conferences_list
        (hierarchy_conference div_name div_alias div_uuid) self
  end.

Definition transform_hierarchy (hierarchy_data : value) (self : t)
  : prog t :=
  if negb (Py.truthy hierarchy_data) then Ret self
  else
    let divisions_list :=
      safe_get hierarchy_data ["divisions"] (VList []) in
    if negb (Py.truthy divisions_list) then Ret self
    else
      divisions_list <- Py.iter divisions_list ;;
      for_each divisions_list hierarchy_division self.

(** *** [transform_venues] *)

Definition transform_venues (teams_data : value) (self : t) : prog t :=
  if negb (Py.truthy teams_data) then Ret self
  else
    teams_list <- Py.iter (safe_get teams_data ["teams"] (VList [])) ;;
    for_each teams_list team_venue self.

(** *** [transform_teams] *)

(** The loop over [division_id_map.items()] with its [break]: the first
    entry whose key is the pair. *)
Definition find_division (conference_id : option string)
  (division_name : string)
  (m : list ((option string * string) * string)) : option string :=
  option_map snd
    (find (fun kv => opt_str_eqb (fst (fst kv)) conference_id
                     && String.eqb (snd (fst kv)) division_name) m).

(** The body of the loop over the teams. *)
Definition teams_team (team : value) (self : t) : prog t :=
  match truthy_str (normalize_uuid (field team "id")) with
  | None => Ret self
  | Some api_team_id =>
      let self := set_team_id_map
                    (set_str api_team_id api_team_id (team_id_map self))
                    self in
      let conference_name :=
        normalize_string (safe_get team ["conference"; "name"] VNone) in
      let division_name :=
        normalize_string (safe_get team ["division"; "name"] VNone) in
      let conference_id :=
        match truthy_str conference_name with
        | Some n => get_str n (conference_id_map self)
        | None => None
        end in
      let division_id :=
        match truthy_str conference_name, truthy_str division_name with
        | Some _, Some dn =>
            find_division conference_id dn (division_id_map self)
        | _, _ => None
        end in
      let venue := field team "venue" in
      let venue_id :=
        if Py.truthy venue
        then match truthy_str (normalize_uuid (field venue "id")) with
             | Some venue_api_id => get_str venue_api_id (venue_id_map self)
             | None => None
             end
        else None in
      founded <- normalize_int (field team "founded") ;;
      championships_won <-
        normalize_int (safe_get team ["championships_won"] (VInt 0)) ;;
      Ret (set_teams
             (teams self ++
              [Team.mk api_team_id
                 (normalize_string (field team "market"))
                 (normalize_string (field team "name"))
                 (normalize_string (field team "alias"))
                 founded
                 (normalize_string (field team "mascot"))
                 (normalize_string (field team "fight_song"))
                 championships_won conference_id division_id venue_id])
             self)
  end.

(** [hierarchy_data] is not used by the body of the source. *)
Definition transform_teams (teams_data hierarchy_data : value) (self : t)
  : prog t :=
  if negb (Py.truthy teams_data) then Ret self
  else
    teams_list <- Py.iter (safe_get teams_data ["teams"] (VList [])) ;;
    for_each teams_list teams_team self.

(** *** [transform_seasons] *)

(** The body of the loop over the seasons. *)
Definition seasons_season (season : value) (self : t) : prog t :=
  year <- normalize_int (field season "year") ;;
  let type_code := normalize_string (safe_get season ["type"; "code"] VNone) in
  let season_api_id := normalize_uuid (field season "id") in
  match truthy_int year, truthy_str type_code with
  | Some year, Some type_code =>
      let key := (year, type_code) in
      if dict_mem season_key_eqb key (season_id_map self) then Ret self
      else
        season_uuid <- match truthy_str season_api_id with
                       | Some u => Ret u
                       | None => uuid4_str
                       end ;;
        let self :=
          set_seasons
            (seasons self ++
             [Season.mk season_uuid year
                (normalize_date (field season "start_date"))
                (normalize_date (field season "end_date"))
                (normalize_string (field season "status"))
                type_code]) self in
        Ret (set_season_id_map
               (dict_set season_key_eqb key season_uuid
                  (season_id_map self)) self)
  | _, _ => Ret self
  end.

Definition transform_seasons (seasons_data : value) (self : t) : prog t :=
  if negb (Py.truthy seasons_data) then Ret self
  else
    seasons_list <-
      Py.iter (safe_get seasons_data ["seasons"] (VList [])) ;;
    for_each seasons_list seasons_season self.

(** *** [transform_players] *)

(** The conference block of one roster. *)
Definition roster_conference (conf_data : value) (self : t) : t :=
  if Py.truthy conf_data
  then
    let conf_name := normalize_string (field conf_data "name") in
    let conf_api_id := normalize_uuid (field conf_data "id") in
    let conf_alias := normalize_string (field conf_data "alias") in
    match truthy_str conf_name, truthy_str conf_api_id with
    | Some conf_name, Some conf_api_id =>
        if existsb (String.eqb conf_api_id)
             (map Conference.conference_id (conferences self))
        then self
        else
          let self := set_conference_id_map
                        (set_str conf_name conf_api_id
                           (conference_id_map self)) self in
          set_conferences
            (conferences self ++
             [Conference.mk conf_api_id conf_name conf_alias]) self
    | _, _ => self
    end
  else self.

(** The division block of one roster. *)
Definition roster_division (div_data conf_data : value) (self : t) : t :=
  if Py.truthy div_data && Py.truthy conf_data
  then
    let div_name := normalize_string (field div_data "name") in
    let div_api_id := normalize_uuid (field div_data "id") in
    let div_alias := normalize_string (field div_data "alias") in
    let conf_api_id := normalize_uuid (field conf_data "id") in
    match truthy_str div_name, truthy_str div_api_id with
    | Some div_name, Some div_api_id =>
        if existsb (String.eqb div_api_id)
             (map Division.division_id (divisions self))
        then self
        else
          let division_key := (conf_api_id, div_name) in
          let self := set_division_id_map
                        (dict_set division_key_eqb division_key div_api_id
                           (division_id_map self)) self in
          set_divisions
            (divisions self ++
             [Division.mk div_api_id div_name div_alias conf_api_id]) self
    | _, _ => self
    end
  else self.

(** The first and last name of one player. [normalize_string] yields a
    [str] or [None], so of the two [isinstance] tests on [full_name] the
    one for [dict] never holds. *)
Definition player_names (player : value) : option string * string :=
  let last_name :=
    str_or (normalize_string (field player "last_name"))
           (normalize_string (safe_get player ["name"; "last"] VNone)) in
  let first_name :=
    str_or (normalize_string (field player "first_name"))
           (normalize_string (safe_get player ["name"; "first"] VNone)) in
  let '(first_name, last_name) :=
    match truthy_str last_name with
    | Some _ => (first_name, last_name)
    | None =>
        match normalize_string (field player "name") with
        | Some full_name =>
            let name_parts := split (strip full_name) in
            match name_parts with
            | [] => (first_name, last_name)
            | _ :: rest =>
                let last_name := Some (last name_parts "") in
                match truthy_str first_name, rest with
                | None, _ :: _ =>
                    (Some (join " " (removelast name_parts)), last_name)
                | _, _ => (first_name, last_name)
                end
            end
        | None => (first_name, last_name)
        end
    end in
  match truthy_str last_name with
  | Some l => (first_name, l)
  | None => (first_name, "Unknown")
  end.

(** The body of the loop over the players of one roster. *)
Definition players_player (team_db_id : string) (player : value)
  (self : t) : prog t :=
  match truthy_str (normalize_uuid (field player "id")) with
  | None => Ret self
  | Some api_player_id =>
      let '(first_name, last_name) := player_names player in
      if dict_mem String.eqb api_player_id (player_id_map self)
      then Ret self
      else
        let self := set_player_id_map
                      (set_str api_player_id api_player_id
                         (player_id_map self)) self in
        let position := field player "position" in
        let position :=
          match position with
          | VDict _ => Py.or (field position "name") (field position "abbr")
          | _ => position
          end in
        let position := normalize_string position in
        height <- convert_height_to_inches (field player "height") ;;
        weight <- normalize_int (field player "weight") ;;
        Ret (set_players
               (players self ++
                [Player.mk api_player_id first_name last_name
                   (str_or (normalize_string (field player "abbr_name"))
                      (normalize_string
                         (safe_get player ["name"; "abbr"] VNone)))
                   (normalize_string (field player "birth_place"))
                   position height weight
                   (normalize_string (field player "status"))
                   (normalize_string (field player "eligibility"))
                   team_db_id]) self)
  end.

(** The body of the loop over [rosters_data.items()]. *)
Definition players_roster (entry : string * value) (self : t) : prog t :=
  let '(team_api_id, roster_data) := entry in
  let venue := field roster_data "venue" in
  self <- (if Py.truthy venue then _extract_venue venue self
           else Ret self) ;;
  let conf_data := field roster_data "conference" in
  let self := roster_conference conf_data self in
  let div_data := field roster_data "division" in
  let self := roster_division div_data conf_data self in
  match truthy_str (get_str team_api_id (team_id_map self)) with
  | None => Ret self
  | Some team_db_id =>
      players_list <-
        Py.iter (safe_get roster_data ["players"] (VList [])) ;;
      for_each players_list (players_player team_db_id) self
  end.

Definition transform_players (rosters_data : value) (self : t) : prog t :=
  if negb (Py.truthy rosters_data) then Ret self
  else
    rosters <- Py.items rosters_data ;;
    for_each rosters players_roster self.

(** *** [transform_coaches] *)

(** The body of the loop over the coaches of one roster. *)
Definition coaches_coach (team_db_id : string) (coach : value) (self : t)
  : prog t :=
  let coach_api_id := normalize_uuid (field coach "id") in
  let full_name := normalize_string (field coach "full_name") in
  let full_name :=
    match truthy_str full_name with
    | Some _ => full_name
    | None =>
        let first := normalize_string (field coach "first_name") in
        let last := normalize_string (field coach "last_name") in
        match truthy_str first, truthy_str last with
        | Some f, Some l => Some (f ++ " " ++ l)
        | None, Some l => Some l
        | _, None => full_name
        end
    end in
  match truthy_str full_name with
  | None => Ret self
  | Some full_name =>
      coach_uuid <- match truthy_str coach_api_id with
                    | Some u => Ret u
                    | None => uuid4_str
                    end ;;
      Ret (set_coaches
             (coaches self ++
              [Coach.mk coach_uuid full_name
                 (normalize_string (field coach "position")) team_db_id])
             self)
  end.

(** The body of the loop over [rosters_data.items()]. *)
Definition coaches_roster (entry : string * value) (self : t) : prog t :=
  let '(team_api_id, roster_data) := entry in
  match truthy_str (get_str team_api_id (team_id_map self)) with
  | None => Ret self
  | Some team_db_id =>
      coaches_list <-
        Py.iter (safe_get roster_data ["coaches"] (VList [])) ;;
      for_each coaches_list (coaches_coach team_db_id) self
  end.

Definition transform_coaches (rosters_data : value) (self : t) : prog t :=
  if negb (Py.truthy rosters_data) then Ret self
  else
    rosters <- Py.items rosters_data ;;
    for_each rosters coaches_roster self.

(** *** [transform_player_statistics] *)

(** The body of the loop over the players of one team; the loops carry
    the counter [stat_id] along with the transformer. *)
Definition statistics_player (team_db_id season_db_id : string)
  (player_stat : value) (acc : t * Z) : prog (t * Z) :=
  let '(self, stat_id) := acc in
  match truthy_str (normalize_uuid (field player_stat "id")) with
  | None => Ret acc
  | Some api_player_id =>
      match truthy_str (get_str api_player_id (player_id_map self)) with
      | None => Ret acc
      | Some player_db_id =>
          let stats := safe_get player_stat ["statistics"] (VDict []) in
          games_played <- normalize_int (field stats "games_played") ;;
          games_started <- normalize_int (field stats "games_started") ;;
          rushing_yards <-
            normalize_int (safe_get stats ["rushing"; "yards"] VNone) ;;
          rushing_touchdowns <-
            normalize_int (safe_get stats ["rushing"; "touchdowns"] VNone) ;;
          receiving_yards <-
            normalize_int (safe_get stats ["receiving"; "yards"] VNone) ;;
          receiving_touchdowns <-
            normalize_int
              (safe_get stats ["receiving"; "touchdowns"] VNone) ;;
          kick_return_yards <-
            normalize_int (safe_get stats ["kick_returns"; "yards"] VNone) ;;
          fumbles <-
            normalize_int (safe_get stats ["fumbles"; "total"] VNone) ;;
          Ret (set_player_statistics
                 (player_statistics self ++
                  [PlayerStatistic.mk stat_id player_db_id team_db_id
                     season_db_id games_played games_started rushing_yards
                     rushing_touchdowns receiving_yards
                     receiving_touchdowns kick_return_yards fumbles]) self,
               stat_id + 1)
      end
  end.

(** The body of the loop over [season_stats_data.items()]. *)
Definition statistics_team (season_db_id : string)
  (entry : string * value) (acc : t * Z) : prog (t * Z) :=
  let '(team_api_id, stats_data) := entry in
  match truthy_str (get_str team_api_id (team_id_map (fst acc))) with
  | None => Ret acc
  | Some team_db_id =>
      players_stats <-
        Py.iter (safe_get stats_data ["players"] (VList [])) ;;
      for_each players_stats (statistics_player team_db_id season_db_id)
        acc
  end.

Definition transform_player_statistics (season_stats_data : value)
  (year : Z) (season_type : string) (self : t) : prog t :=
  if negb (Py.truthy season_stats_data) then Ret self
  else
    let season_key := (year, season_type) in
    match truthy_str
            (dict_get season_key_eqb season_key (season_id_map self)) with
    | None => Ret self
    | Some season_db_id =>
        let stat_id := 1 in
        teams_stats <- Py.items season_stats_data ;;
        acc <- for_each teams_stats (statistics_team season_db_id)
                 (self, stat_id) ;;
        Ret (fst acc)
    end.

(** *** [transform_rankings] *)

(** The body of the loop over the ranked teams. *)
Definition rankings_item (rankings_data : value) (poll_id : string)
  (poll_name season_db_id : option string) (week : option Z)
  (rank_item : value) (acc : t * Z) : prog (t * Z) :=
  let '(self, ranking_id) := acc in
  match truthy_str (normalize_uuid (field rank_item "id")) with
  | None => Ret acc
  | Some team_api_id =>
      match truthy_str (get_str team_api_id (team_id_map self)) with
      | None => Ret acc
      | Some team_db_id =>
          rank <- normalize_int (field rank_item "rank") ;;
          prev_rank <- normalize_int (field rank_item "prev_rank") ;;
          points <- normalize_int (field rank_item "points") ;;
          fp_votes <- normalize_int (field rank_item "fp_votes") ;;
          wins <- normalize_int (field rank_item "wins") ;;
          losses <- normalize_int (field rank_item "losses") ;;
          ties <- normalize_int (field rank_item "ties") ;;
          Ret (set_rankings
                 (rankings self ++
                  [Ranking.mk ranking_id poll_id poll_name season_db_id
                     (truthy_int week)
                     (normalize_date (field rankings_data "effective_time"))
                     team_db_id rank prev_rank points fp_votes wins losses
                     ties]) self,
               ranking_id + 1)
      end
  end.

(** [rankings_type] is not used by the body of the source; the season
    is always looked up under the type ["REG"]. *)
Definition transform_rankings (rankings_data : value)
  (rankings_type : string) (year : Z) (week : option Z) (self : t)
  : prog t :=
  if negb (Py.truthy rankings_data) then Ret self
  else
    poll_id <-
      match truthy_str
              (normalize_uuid (safe_get rankings_data ["poll"; "id"] VNone))
      with
      | Some u => Ret u
      | None => uuid4_str
      end ;;
    let poll_name :=
      normalize_string (safe_get rankings_data ["poll"; "name"] VNone) in
    week <- match week with
            | None => normalize_int (field rankings_data "week")
            | Some _ => Ret week
            end ;;
    let season_key := (year, "REG") in
    let season_db_id :=
      dict_get season_key_eqb season_key (season_id_map self) in
    rankings_list <-
      Py.iter (safe_get rankings_data ["rankings"] (VList [])) ;;
    let ranking_id := Z.of_nat (List.length (rankings self)) + 1 in
    acc <- for_each rankings_list
             (rankings_item rankings_data poll_id poll_name season_db_id
                week) (self, ranking_id) ;;
    Ret (fst acc).

(** *** [transform_schedule] *)

(** [normalize_uuid(x.get('id')) if isinstance(x, dict) else None] *)
Definition id_of (x : value) : option string :=
  match x with
  | VDict d => normalize_uuid (Py.lookup d "id")
  | _ => None
  end.

(** [normalize_string(x.get('name')) if isinstance(x, dict) else None] *)
Definition name_of (x : value) : option string :=
  match x with
  | VDict d => normalize_string (Py.lookup d "name")
  | _ => None
  end.

(** The body of the loop over the schedule: the game of one entry. *)
Definition schedule_game (game_id : Z) (item : value) : prog Game.t :=
  home1 <- Py.get item "home" ;;
  home2 <- Py.get item "home_team" ;;
  let home := Py.or (Py.or home1 home2) (VDict []) in
  away1 <- Py.get item "away" ;;
  away2 <- Py.get item "away_team" ;;
  let away := Py.or (Py.or away1 away2) (VDict []) in
  venue1 <- Py.get item "venue" ;;
  let venue := Py.or venue1 (VDict []) in
  time1 <- Py.get item "scheduled" ;;
  time2 <- Py.get item "date" ;;
  time3 <- Py.get item "start_time" ;;
  let event_time := Py.or (Py.or time1 time2) time3 in
  Ret (Game.mk game_id (id_of home) (id_of away) event_time
         (name_of venue)).

Definition schedule_item (item : value) (acc : list Game.t * Z)
  : prog (list Game.t * Z) :=
  let '(games, game_id) := acc in
  game <- schedule_game game_id item ;;
  Ret ((games ++ [game])%list, game_id + 1).

Definition transform_schedule (schedule_data : value) (year : Z)
  (self : t) : prog t :=
  if negb (Py.truthy schedule_data) then Ret self
  else
    list1 <- Py.get schedule_data "schedule" ;;
    list2 <- Py.get schedule_data "games" ;;
    let schedule_list := Py.or (Py.or list1 list2) (VList []) in
    items <- Py.iter schedule_list ;;
    acc <- for_each items schedule_item ([], 1) ;;
    Ret (set_clean_schedule (fst acc) self).

(** *** [transform_all_data] *)

(** [if all_api_data.get(key): stage(all_api_data[key])] *)
Definition stage (all_api_data : value) (key : string)
  (f : value -> t -> prog t) (self : t) : prog t :=
  data <- Py.get all_api_data key ;;
  if Py.truthy data then f data self else Ret self.

(** The nine tables of the dictionary [transform_all_data] returns. *)
Record transformed_data : Type := mk_data
  { out_conferences : list Conference.t;
    out_divisions : list Division.t;
    out_venues : list Venue.t;
    out_teams : list Team.t;
    out_seasons : list Season.t;
    out_players : list Player.t;
    out_player_statistics : list PlayerStatistic.t;
    out_rankings : list Ranking.t;
    out_coaches : list Coach.t }.

Definition tables (self : t) : transformed_data :=
  mk_data (conferences self) (divisions self) (venues self) (teams self)
    (seasons self) (players self) (player_statistics self)
    (rankings self) (coaches self).

(** The stages in the order of the source; the transformer at the end
    holds the tables that are returned. *)
Definition run_stages (all_api_data : value) (year : Z)
  (season_type : string) (self : t) : prog t :=
  self <- stage all_api_data "hierarchy" transform_hierarchy self ;;
  self <- stage all_api_data "teams"
            (fun teams_data self =>
               self <- transform_venues teams_data self ;;
               hierarchy <- Py.get all_api_data "hierarchy" ;;
               transform_teams teams_data hierarchy self) self ;;
  self <- stage all_api_data "seasons" transform_seasons self ;;
  self <- stage all_api_data "rosters"
            (fun rosters self =>
               self <- transform_players rosters self ;;
               transform_coaches rosters self) self ;;
  self <- stage all_api_data "season_stats"
            (fun d => transform_player_statistics d year season_type)
            self ;;
  self <- stage all_api_data "rankings_current"
            (fun d => transform_rankings d "current" year None) self ;;
  self <- stage all_api_data "rankings_week1"
            (fun d => transform_rankings d "week" year (Some 1)) self ;;
  stage all_api_data "season_schedule"
    (fun d => transform_schedule d year) self.

Definition transform_all_data (all_api_data : value) (year : Z)
  (season_type : string) (self : t) : prog transformed_data :=
  self <- run_stages all_api_data year season_type self ;;
  Ret (tables self).

End DataTransformer.

(** ** [backend/data_transformer.py]: class [DataTransformer]

    The transformer with sequential identifiers, which [backend/main.py]
    falls back to. The model holds the methods whose dictionaries are keyed
    by strings or by pairs of a year and a type code, and the attributes
    those methods use: [transform_hierarchy], [transform_venues],
    [transform_seasons] and [transform_schedule]. *)

Module Sequential.
Import PyStr Helpers.

Module Conference.
Record t : Type := mk
  { conference_id : Z; name : string; alias : option string }.
End Conference.

Module Venue.
Record t : Type := mk
  { venue_id : Z; name : string; city : option string;
    state : option string; country : option string; zip : option string;
    address : option string; capacity : option Z;
    surface : option string; roof_type : option string;
    latitude : option PyFloat.t; longitude : option PyFloat.t }.
End Venue.

Module Season.
Record t : Type := mk
  { season_id : Z; year : Z; start_date : option string;
    end_date : option string; status : option string;
    type_code : string }.
End Season.

(** The identifiers and the venue name of a game are stored as they are
    read. *)
Module Game.
Record t : Type := mk
  { game_id : Z; home_team_api_id : value; away_team_api_id : value;
    scheduled : value; venue_name : value }.
End Game.

Record t : Type := mk
  { conferences : list Conference.t;
    venues : list Venue.t;
    seasons : list Season.t;
    conference_id_map : list (string * Z);
    division_id_map : list (string * Z);
    venue_id_map : list (string * Z);
    season_id_map : list ((Z * string) * Z);
    clean_schedule : list Game.t }.

Definition init : t := mk [] [] [] [] [] [] [] [].

Definition set_conferences (x : list Conference.t) (s : t) : t :=
  mk x (venues s) (seasons s) (conference_id_map s) (division_id_map s)
     (venue_id_map s) (season_id_map s) (clean_schedule s).
Definition set_venues (x : list Venue.t) (s : t) : t :=
  mk (conferences s) x (seasons s) (conference_id_map s) (division_id_map s)
     (venue_id_map s) (season_id_map s) (clean_schedule s).
Definition set_seasons (x : list Season.t) (s : t) : t :=
  mk (conferences s) (venues s) x (conference_id_map s) (division_id_map s)
     (venue_id_map s) (season_id_map s) (clean_schedule s).
Definition set_conference_id_map (x : list (string * Z)) (s : t) : t :=
  mk (conferences s) (venues s) (seasons s) x (division_id_map s)
     (venue_id_map s) (season_id_map s) (clean_schedule s).
Definition set_division_id_map (x : list (string * Z)) (s : t) : t :=
  mk (conferences s) (venues s) (seasons s) (conference_id_map s) x
     (venue_id_map s) (season_id_map s) (clean_schedule s).
Definition set_venue_id_map (x : list (string * Z)) (s : t) : t :=
  mk (conferences s) (venues s) (seasons s) (conference_id_map s)
     (division_id_map s) x (season_id_map s) (clean_schedule s).
Definition set_season_id_map (x : list ((Z * string) * Z)) (s : t) : t :=
  mk (conferences s) (venues s) (seasons s) (conference_id_map s)
     (division_id_map s) (venue_id_map s) x (clean_schedule s).
Definition set_clean_schedule (x : list Game.t) (s : t) : t :=
  mk (conferences s) (venues s) (seasons s) (conference_id_map s)
     (division_id_map s) (venue_id_map s) (season_id_map s) x.

Definition field (v : value) (key : string) : value :=
  safe_get v [key] VNone.

(** *** [transform_hierarchy] *)

(** The key of a division: the names of the conference and of the
    division with an underscore between them. *)
Definition division_key (conf_name div_name : string) : string :=
  conf_name ++ "_" ++ div_name.

(** The body of the loop over the divisions of one conference; the loop
    carries the counter [division_id]. *)
Definition hierarchy_division (conf_name : string) (div : value)
  (acc : t * Z) : prog (t * Z) :=
  let '(self, division_id) := acc in
  match DataTransformer.truthy_str (normalize_string (field div "name")) with
  | Some div_name =>
      Ret (set_division_id_map
             (dict_set String.eqb (division_key conf_name div_name)
                division_id (division_id_map self)) self,
           division_id + 1)
  | None => Ret acc
  end.

(** The body of the loop over the conferences; the loop carries the
    counters [conference_id] and [division_id]. *)
Definition hierarchy_conference (conf : value) (acc : t * Z * Z)
  : prog (t * Z * Z) :=
  let '(self, conference_id, division_id) := acc in
  let conf_name := normalize_string (field conf "name") in
  let conf_alias := normalize_string (field conf "alias") in
  match DataTransformer.truthy_str conf_name with
  | None => Ret acc
  | Some conf_name =>
      let self := set_conference_id_map
                    (dict_set String.eqb conf_name conference_id
                       (conference_id_map self)) self in
      let self := set_conferences
                    (conferences self ++
                     [Conference.mk conference_id conf_name conf_alias])
                    self in
      divisions_list <- Py.iter (safe_get conf ["divisions"] (VList [])) ;;
      acc' <- for_each divisions_list (hierarchy_division conf_name)
                (self, division_id) ;;
      Ret (fst acc', conference_id + 1, snd acc')
  end.

Definition transform_hierarchy (hierarchy_data : value) (self : t)
  : prog t :=
  if negb (Py.truthy hierarchy_data) then Ret self
  else
    let conferences_list :=
      safe_get hierarchy_data ["conferences"] (VList []) in
    if negb (Py.truthy conferences_list) then Ret self
    else
      conferences_list <- Py.iter conferences_list ;;
      acc <- for_each conferences_list hierarchy_conference (self, 1, 1) ;;
      Ret (fst (fst acc)).

(** *** [transform_venues] *)

(** The body of the loop over the teams; the loop carries the counter
    [venue_id]. *)
Definition venues_team (team : value) (acc : t * Z) : prog (t * Z) :=
  let '(self, venue_id) := acc in
  let venue := field team "venue" in
  if Py.truthy venue
  then
    match DataTransformer.truthy_str (normalize_string (field venue "name"))
    with
    | None => Ret acc
    | Some venue_name =>
        if dict_mem String.eqb venue_name (venue_id_map self) then Ret acc
        else
          let self := set_venue_id_map
                        (dict_set String.eqb venue_name venue_id
                           (venue_id_map self)) self in
          capacity <- normalize_int (field venue "capacity") ;;
          latitude <-
            normalize_float (safe_get venue ["location"; "latitude"] VNone) ;;
          longitude <-
            normalize_float (safe_get venue ["location"; "longitude"] VNone) ;;
          Ret (set_venues
                 (venues self ++
                  [Venue.mk venue_id venue_name
                     (normalize_string (field venue "city"))
                     (normalize_string (field venue "state"))
                     (normalize_string
                        (safe_get venue ["country"] (VStr "USA")))
                     (normalize_string (field venue "zip"))
                     (normalize_string (field venue "address"))
                     capacity
                     (normalize_string (field venue "surface"))
                     (normalize_string (field venue "roof_type"))
                     latitude longitude]) self,
               venue_id + 1)
    end
  else Ret acc.

Definition transform_venues (teams_data : value) (self : t) : prog t :=
  if negb (Py.truthy teams_data) then Ret self
  else
    teams_list <- Py.iter (safe_get teams_data ["teams"] (VList [])) ;;
    acc <- for_each teams_list venues_team (self, 1) ;;
    Ret (fst acc).

(** *** [transform_seasons] *)

(** The body of the loop over the seasons; the loop carries the counter
    [season_id]. *)
Definition seasons_season (season : value) (acc : t * Z) : prog (t * Z) :=
  let '(self, season_id) := acc in
  year <- normalize_int (field season "year") ;;
  let type_code := normalize_string (safe_get season ["type"; "code"] VNone) in
  match DataTransformer.truthy_int year,
        DataTransformer.truthy_str type_code with
  | Some year, Some type_code =>
      let key := (year, type_code) in
      if dict_mem DataTransformer.season_key_eqb key (season_id_map self)
      then Ret acc
      else
        let self := set_season_id_map
                      (dict_set DataTransformer.season_key_eqb key season_id
                         (season_id_map self)) self in
        Ret (set_seasons
               (seasons self ++
                [Season.mk season_id year
                   (normalize_date (field season "start_date"))
                   (normalize_date (field season "end_date"))
                   (normalize_string (field season "status"))
                   type_code]) self,
             season_id + 1)
  | _, _ => Ret acc
  end.

Definition transform_seasons (seasons_data : value) (self : t) : prog t :=
  if negb (Py.truthy seasons_data) then Ret self
  else
    seasons_list <-
      Py.iter (safe_get seasons_data ["seasons"] (VList [])) ;;
    acc <- for_each seasons_list seasons_season (self, 1) ;;
    Ret (fst acc).

(** *** [transform_schedule] *)

(** [x.get(key) if isinstance(x, dict) else None] *)
Definition get_of (x : value) (key : string) : value :=
  match x with
  | VDict d => Py.lookup d key
  | _ => VNone
  end.

(** The body of the loop over the schedule: the game of one entry. *)
Definition schedule_game (game_id : Z) (item : value) : prog Game.t :=
  home1 <- Py.get item "home" ;;
  home2 <- Py.get item "home_team" ;;
  let home := Py.or (Py.or home1 home2) (VDict []) in
  away1 <- Py.get item "away" ;;
  away2 <- Py.get item "away_team" ;;
  let away := Py.or (Py.or away1 away2) (VDict []) in
  venue1 <- Py.get item "venue" ;;
  let venue := Py.or venue1 (VDict []) in
  time1 <- Py.get item "scheduled" ;;
  time2 <- Py.get item "date" ;;
  time3 <- Py.get item "start_time" ;;
  let event_time := Py.or (Py.or time1 time2) time3 in
  Ret (Game.mk game_id (get_of home "id") (get_of away "id") event_time
         (get_of venue "name")).

Definition schedule_item (item : value) (acc : list Game.t * Z)
  : prog (list Game.t * Z) :=
  let '(games, game_id) := acc in
  game <- schedule_game game_id item ;;
  Ret ((games ++ [game])%list, game_id + 1).

Definition transform_schedule (schedule_data : value) (year : Z)
  (self : t) : prog t :=
  if negb (Py.truthy schedule_data) then Ret self
  else
    list1 <- Py.get schedule_data "schedule" ;;
    list2 <- Py.get schedule_data "games" ;;
    let schedule_list := Py.or (Py.or list1 list2) (VList []) in
    items <- Py.iter schedule_list ;;
    acc <- for_each items schedule_item ([], 1) ;;
    Ret (set_clean_schedule (fst acc) self).

End Sequential.

(** ** [backend/db_populator.py]: class [DatabasePopulator]

    The parts that compute text: the INSERT statement of a record and the
    choice of the key column of an upsert. *)

Module DatabasePopulator.
Import PyStr.

(** [val.replace]: every single quote is written twice. *)
Fixpoint double_quotes (s : string) : string :=
  match s with
  | EmptyString => EmptyString
  | String c r =>
      if Ascii.eqb c "'" then String "'" (String "'" (double_quotes r))
      else String c (double_quotes r)
  end.

(** The text of one value of a record. *)
Definition format_value (val : value) : string :=
  match val with
  | VNone => "NULL"
  | VStr s => "'" ++ double_quotes s ++ "'"
  | VBool b => if b then "TRUE" else "FALSE"
  | _ => Py.str val
  end.

Definition _generate_insert_statement (table_name : string)
  (record : list (string * value)) : string :=
  let columns := map fst record in
  let formatted_values := map (fun kv => format_value (snd kv)) record in
  "INSERT INTO " ++ table_name ++ " (" ++ join ", " columns
    ++ ") VALUES (" ++ join ", " formatted_values ++ ");".

(** [s[:-1]] *)
Fixpoint drop_last (s : string) : string :=
  match s with
  | EmptyString => EmptyString
  | String c EmptyString => EmptyString
  | String c r => String c (drop_last r)
  end.

Definition mem (x : string) (l : list string) : bool :=
  existsb (String.eqb x) l.

(** The key column [_insert_table] settles on for the upsert of a table,
    from the columns of its first record. *)
Definition pk_column (table_name : string) (columns : list string)
  : option string :=
  if mem (drop_last table_name ++ "_id") columns
  then Some (drop_last table_name ++ "_id")
  else if mem "id" columns then Some "id"
  else if mem (table_name ++ "_id") columns
  then Some (table_name ++ "_id")
  else None.

(** The SET clause of the upsert: every column but the key, joined by
    commas. *)
Definition update_clause (pk : string) (columns : list string) : string :=
  join ", "
    (map (fun col => col ++ " = EXCLUDED." ++ col)
       (filter (fun col => negb (String.eqb col pk)) columns)).

(** The tables in the order [populate_all_tables] inserts them. *)
Definition insertion_order : list string :=
  ["conferences"; "divisions"; "venues"; "seasons"; "teams"; "players";
   "coaches"; "player_statistics"; "rankings"].

End DatabasePopulator.

(** ** Notions the properties are stated with *)

(** The path [keys] cannot be followed in [data]: at some segment the
    value reached is not a mapping, or it is one without the key. *)
Inductive path_breaks : value -> list string -> Prop :=
| breaks_not_mapping (data : value) (key : string) (keys : list string) :
    (forall d, data <> VDict d) -> path_breaks data (key :: keys)
| breaks_absent (d : list (string * value)) (key : string)
    (keys : list string) :
    dict_get String.eqb key d = None -> path_breaks (VDict d) (key :: keys)
| breaks_deeper (d : list (string * value)) (key : string)
    (keys : list string) (inner : value) :
    dict_get String.eqb key d = Some inner ->
    path_breaks inner keys -> path_breaks (VDict d) (key :: keys).

(** Every segment of [keys] is present in [data] and leads to [v]. *)
Inductive path_value : value -> list string -> value -> Prop :=
| value_here (v : value) : path_value v [] v
| value_deeper (d : list (string * value)) (key : string)
    (keys : list string) (inner v : value) :
    dict_get String.eqb key d = Some inner ->
    path_value inner keys v -> path_value (VDict d) (key :: keys) v.

(** What a computation is guaranteed to do, whatever the random generator
    yields: a result it returns is in [Q], an exception it raises in
    [on_raise]. *)
Fixpoint sat {A : Type} (on_raise : exn -> Prop) (p : prog A)
  (Q : A -> Prop) : Prop :=
  match p with
  | Ret a => Q a
  | Raise e => on_raise e
  | Uuid4 k => forall u, sat on_raise (k u) Q
  end.

(** Partial correctness: when [p] returns, the result is in [Q]. *)
Definition wp {A : Type} (p : prog A) (Q : A -> Prop) : Prop :=
  sat (fun _ => True) p Q.

(** Total correctness: [p] returns, and the result is in [Q]. *)
Definition twp {A : Type} (p : prog A) (Q : A -> Prop) : Prop :=
  sat (fun _ => False) p Q.

(** No number of the document makes [int] or [float] overflow: no float
    is infinite and every integer is in the range of a float. *)
Fixpoint tame (v : value) : bool :=
  match v with
  | VInt n => match PyFloat.of_int n with Some _ => true | None => false end
  | VFloat f => match f with S754_infinity _ => false | _ => true end
  | VList l => forallb tame l
  | VDict d => forallb (fun kv => tame (snd kv)) d
  | VNone | VBool _ | VStr _ => true
  end.

(** The sample identifiers of the examples. *)
Definition uuid_a : string := "11111111-1111-1111-1111-111111111111".
Definition uuid_b : string := "22222222-2222-2222-2222-222222222222".
Definition uuid_c : string := "33333333-3333-3333-3333-333333333333".
Definition uuid_d : string := "44444444-4444-4444-4444-444444444444".

(** The one-character string of the superscript two, U+00B2. *)
Definition superscript_two : string := String "178" "".

(** The roster entry of a player whose name is an empty object. *)
Definition player_empty_name : value :=
  VDict [("id", VStr uuid_a); ("name", VDict [])].





(** A transformer that knows the team [uuid_a] and no season. *)
Definition one_team : DataTransformer.t :=
  DataTransformer.set_team_id_map [(uuid_a, uuid_a)] DataTransformer.init.

(** A rankings document: one team that is known, one that is not. *)
Definition sample_rankings : value :=
  VDict [("poll", VDict [("id", VStr uuid_d); ("name", VStr "AP Top 25")]);
         ("week", VInt 3);
         ("rankings",
          VList [VDict [("id", VStr uuid_a); ("rank", VInt 1)];
                 VDict [("id", VStr uuid_b); ("rank", VInt 2)]])].


(** A snapshot whose only conference has no identifier of its own. *)
Definition snapshot_without_conference_id : value :=
  VDict [("hierarchy",
          VDict [("divisions",
                  VList [VDict [("id", VStr uuid_a); ("name", VStr "FBS");
                                ("conferences",
                                 VList [VDict [("name", VStr "SEC")]])]])])].

(** A snapshot in which every entity carries an identifier. *)
Definition snapshot_with_ids : value :=
  VDict [("hierarchy",
          VDict [("divisions",
                  VList [VDict [("id", VStr uuid_a); ("name", VStr "FBS");
                                ("conferences",
                                 VList [VDict [("id", VStr uuid_b);
                                               ("name", VStr "SEC")]])]])]);
         ("teams",
          VDict [("teams",
                  VList [VDict [("id", VStr uuid_c); ("name", VStr "Tide");
                                ("conference", VDict [("name", VStr "SEC")]);
                                ("division", VDict [("name", VStr "FBS")])]])]);
         ("seasons",
          VDict [("seasons",
                  VList [VDict [("id", VStr uuid_d); ("year", VInt 2025);
                                ("type", VDict [("code", VStr "REG")])]])])].

(** Two random generators. *)
Definition source_b : nat -> string := fun _ => uuid_b.
Definition source_c : nat -> string := fun _ => uuid_c.

(** An identity map and its table agree: a key that is registered has
    exactly one record in the table, the one whose identity the map gives,
    and a key that is not registered has none. *)
Section Registry.
Context {R K : Type} (eqb : K -> K -> bool) (key : R -> K)
  (ident : R -> string).

Definition records_of (k : K) (table : list R) : list R :=
  filter (fun r => eqb (key r) k) table.

Definition registry_ok (table : list R) (m : list (K * string)) : Prop :=
  forall k,
    match dict_get eqb k m with
    | Some id => exists r, records_of k table = [r] /\ ident r = id
    | None => records_of k table = []
    end.
End Registry.

Definition season_key (r : Season.t) : Z * string :=
  (Season.year r, Season.type_code r).

(** Seasons, players and venues are resolved once. *)
Definition resolved_once (self : DataTransformer.t) : Prop :=
  registry_ok DataTransformer.season_key_eqb season_key Season.season_id
    (DataTransformer.seasons self) (DataTransformer.season_id_map self)
  /\ registry_ok String.eqb Player.player_id Player.player_id
       (DataTransformer.players self) (DataTransformer.player_id_map self)
  /\ registry_ok String.eqb Venue.venue_id Venue.venue_id
       (DataTransformer.venues self) (DataTransformer.venue_id_map self).

(** A teams document that lists the team [uuid_a] twice. *)
Definition team_listed_twice : value :=
  VDict [("teams",
          VList [VDict [("id", VStr uuid_a); ("name", VStr "Tide")];
                 VDict [("id", VStr uuid_a); ("name", VStr "Crimson Tide")]])].

(** A transformer in which the player [uuid_a] is registered. *)
Definition one_player : DataTransformer.t :=
  DataTransformer.set_player_id_map [(uuid_a, uuid_a)]
    (DataTransformer.set_players
       [Player.mk uuid_a (Some "Bo") "Jackson" None None None VNone None
          None None uuid_c] DataTransformer.init).

(** Whether the table holds a division with the identifier [id]. *)
Definition has_division (id : string) (table : list Division.t) : bool :=
  existsb (fun d => String.eqb (Division.division_id d) id) table.



(** The conferences [uuid_b] and [uuid_c]. *)
Definition conference_b : value :=
  VDict [("id", VStr uuid_b); ("name", VStr "Big Ten")].
Definition conference_c : value :=
  VDict [("id", VStr uuid_c); ("name", VStr "SEC")].



(** Two division entries named East under different conferences, with
    different identifiers. *)
Definition east_twice : value :=
  VDict [("divisions",
          VList [VDict [("id", VStr uuid_a); ("name", VStr "East");
                        ("conferences", VList [conference_b])];
                 VDict [("id", VStr uuid_d); ("name", VStr "East");
                        ("conferences", VList [conference_c])]])].

(** A roster snapshot: a conference with an identifier and no name, and
    a division of that conference. *)
Definition roster_with_unnamed_conference : value :=
  VDict [("rosters",
          VDict [(uuid_c,
                  VDict [("conference", VDict [("id", VStr uuid_a)]);
                         ("division",
                          VDict [("id", VStr uuid_b);
                                 ("name", VStr "East")])])])].

(** ** References between the tables *)

(** Every identity the map yields is one of [ids]. *)
Definition values_in {K : Type} (m : list (K * string)) (ids : list string)
  : Prop :=
  forall k v, In (k, v) m -> In v ids.

(** A reference is null or one of [ids]. *)
Definition opt_in (x : option string) (ids : list string) : Prop :=
  match x with
  | Some v => In v ids
  | None => True
  end.

Module Ids.
Import DataTransformer.
Definition conference (self : t) : list string :=
  map Conference.conference_id (conferences self).
Definition division (self : t) : list string :=
  map Division.division_id (divisions self).
Definition venue (self : t) : list string :=
  map Venue.venue_id (venues self).
Definition team (self : t) : list string :=
  map Team.team_id (teams self).
Definition season (self : t) : list string :=
  map Season.season_id (seasons self).
Definition player (self : t) : list string :=
  map Player.player_id (players self).
End Ids.

(** The identities of the maps are in the tables. *)
Definition maps_resolve (self : DataTransformer.t) : Prop :=
  values_in (DataTransformer.conference_id_map self) (Ids.conference self)
  /\ values_in (DataTransformer.division_id_map self) (Ids.division self)
  /\ values_in (DataTransformer.venue_id_map self) (Ids.venue self)
  /\ values_in (DataTransformer.team_id_map self) (Ids.team self)
  /\ values_in (DataTransformer.season_id_map self) (Ids.season self)
  /\ values_in (DataTransformer.player_id_map self) (Ids.player self).

Definition team_refs (self : DataTransformer.t) (r : Team.t) : Prop :=
  opt_in (Team.conference_id r) (Ids.conference self)
  /\ opt_in (Team.division_id r) (Ids.division self)
  /\ opt_in (Team.venue_id r) (Ids.venue self).

Definition statistic_refs (self : DataTransformer.t)
  (r : PlayerStatistic.t) : Prop :=
  In (PlayerStatistic.player_id r) (Ids.player self)
  /\ In (PlayerStatistic.team_id r) (Ids.team self)
  /\ In (PlayerStatistic.season_id r) (Ids.season self).

Definition ranking_refs (self : DataTransformer.t) (r : Ranking.t) : Prop :=
  In (Ranking.team_id r) (Ids.team self)
  /\ opt_in (Ranking.season_id r) (Ids.season self).

(** The foreign keys of teams, players, coaches, statistics and rankings
    are null or identities of their tables. *)
Definition references_resolve (self : DataTransformer.t) : Prop :=
  maps_resolve self
  /\ Forall (team_refs self) (DataTransformer.teams self)
  /\ Forall (fun r => In (Player.team_id r) (Ids.team self))
       (DataTransformer.players self)
  /\ Forall (fun r => In (Coach.team_id r) (Ids.team self))
       (DataTransformer.coaches self)
  /\ Forall (statistic_refs self) (DataTransformer.player_statistics self)
  /\ Forall (ranking_refs self) (DataTransformer.rankings self).

(** The conference field of every division is null or the identity of a
    conference. *)
Definition divisions_linked (self : DataTransformer.t) : Prop :=
  Forall (fun d => opt_in (Division.conference_id d) (Ids.conference self))
    (DataTransformer.divisions self).

(** The tables of [self'] hold the identities of [self]. *)
Definition extends (self self' : DataTransformer.t) : Prop :=
  incl (Ids.conference self) (Ids.conference self')
  /\ incl (Ids.division self) (Ids.division self')
  /\ incl (Ids.venue self) (Ids.venue self')
  /\ incl (Ids.team self) (Ids.team self')
  /\ incl (Ids.season self) (Ids.season self')
  /\ incl (Ids.player self) (Ids.player self').

(** A table after a step: as it was, or with one record more that is in
    [P]. *)
Definition grown {R : Type} (P : R -> Prop) (before after : list R) : Prop :=
  after = before \/ exists r, after = (before ++ [r])%list /\ P r.

(** ** Numerals and identifiers as texts *)

Fixpoint digits_value (s : string) (acc : Z) : Z :=
  match s with
  | EmptyString => acc
  | String c r => digits_value r (acc * 10 + (PyStr.code c - 48))
  end.

(** The number a run of ASCII digits reads as. *)
Definition decimal_value (s : string) : Z := digits_value s 0.

(** A run of ASCII digits that is not empty. *)
Definition numeral (s : string) : bool :=
  negb (PyStr.is_empty s) && PyStr.forallb_str PyStr.isdecimal s.

(** What may follow the inches of a height written with quotes: no white
    space, no hyphen, and no further digit at once. *)
Definition trailing (tail : string) : bool :=
  negb (PyStr.existsb_str
          (fun c => PyStr.isspace c || Ascii.eqb c "-") tail)
  && match tail with
     | String c _ => negb (PyStr.isdecimal c)
     | EmptyString => true
     end.

(** What feet and inches written as numerals come to. *)
Definition height_total (feet inches : string) : value :=
  if (Z.of_nat (String.length feet) <=? PyInt.max_str_digits)
     && (Z.of_nat (String.length inches) <=? PyInt.max_str_digits)
  then VInt (decimal_value feet * 12 + decimal_value inches)
  else VNone.

(** The text of [n] characters [c]. *)
Fixpoint repeat_char (c : ascii) (n : nat) : string :=
  match n with
  | O => EmptyString
  | S n' => String c (repeat_char c n')
  end.

(** A hexadecimal digit: [0-9a-fA-F]. *)
Definition is_hex (c : ascii) : bool :=
  let n := PyStr.code c in
  ((48 <=? n) && (n <=? 57)) || ((97 <=? n) && (n <=? 102))
  || ((65 <=? n) && (n <=? 70)).

(** What is left of [s] after [n] hexadecimal digits. *)
Fixpoint hex_run (n : nat) (s : string) : option string :=
  match n with
  | O => Some s
  | S n' =>
      match s with
      | String c r => if is_hex c then hex_run n' r else None
      | EmptyString => None
      end
  end.

(** What is left of [s] after a hyphen. *)
Definition hyphen (s : string) : option string :=
  match s with
  | String c r => if Ascii.eqb c "-" then Some r else None
  | EmptyString => None
  end.

Definition and_then {A B : Type} (x : option A) (f : A -> option B)
  : option B :=
  match x with Some a => f a | None => None end.

(** The text [str(uuid.uuid4())] has and the API sends: groups of 8, 4, 4,
    4 and 12 hexadecimal digits with hyphens between them. *)
Definition canonical_uuid (s : string) : bool :=
  match and_then (hex_run 8 s) (fun s =>
        and_then (hyphen s) (fun s =>
        and_then (hex_run 4 s) (fun s =>
        and_then (hyphen s) (fun s =>
        and_then (hex_run 4 s) (fun s =>
        and_then (hyphen s) (fun s =>
        and_then (hex_run 4 s) (fun s =>
        and_then (hyphen s) (fun s => hex_run 12 s)))))))) with
  | Some EmptyString => true
  | _ => false
  end.

Definition hex_or_hyphen (c : ascii) : bool := is_hex c || Ascii.eqb "-" c.

(** [s] without its hyphens. *)
Fixpoint unhyphened (s : string) : string :=
  match s with
  | EmptyString => EmptyString
  | String c r => if Ascii.eqb "-" c then unhyphened r
                  else String c (unhyphened r)
  end.

(** ** Invariants of the transformer *)

(** The transformer of [hierarchy_conference] once the conference and the
    division of the entry are registered, before the venues of the teams
    are gone through. *)
Definition register_conference (div_name : string)
  (div_alias : option string) (div_uuid conf_name : string)
  (conf_alias : option string) (conf_uuid : string)
  (self : DataTransformer.t) : DataTransformer.t :=
  let self := DataTransformer.set_conference_id_map
                (DataTransformer.set_str conf_name conf_uuid
                   (DataTransformer.conference_id_map self)) self in
  let self :=
    if existsb (fun c => String.eqb (Conference.conference_id c) conf_uuid)
         (DataTransformer.conferences self)
    then self
    else DataTransformer.set_conferences
           (DataTransformer.conferences self ++
            [Conference.mk conf_uuid conf_name conf_alias]) self in
  let self := DataTransformer.set_division_id_map
                (dict_set DataTransformer.division_key_eqb
                   (Some conf_uuid, div_name) div_uuid
                   (DataTransformer.division_id_map self)) self in
  if existsb (fun d => String.eqb (Division.division_id d) div_uuid)
       (DataTransformer.divisions self)
  then self
  else DataTransformer.set_divisions
         (DataTransformer.divisions self ++
          [Division.mk div_uuid div_name div_alias (Some conf_uuid)]) self.

(** What an invariant of the transformer has to get through: the bodies
    of the loops of the methods, one by one. *)
Record step_invariant (Inv : DataTransformer.t -> Prop) : Prop :=
  { venue_step :
      forall venue self,
        Inv self -> wp (DataTransformer._extract_venue venue self) Inv;
    conference_step :
      forall div_name div_alias div_uuid conf_name conf_alias conf_uuid self,
        div_name <> "" -> conf_name <> "" -> Inv self ->
        Inv (register_conference div_name div_alias div_uuid conf_name
               conf_alias conf_uuid self);
    roster_conference_step :
      forall conf_data self,
        Inv self -> Inv (DataTransformer.roster_conference conf_data self);
    roster_division_step :
      forall div_data conf_data self,
        Inv self ->
        Inv (DataTransformer.roster_division div_data conf_data self);
    team_step :
      forall team self,
        Inv self -> wp (DataTransformer.teams_team team self) Inv;
    season_step :
      forall season self,
        Inv self -> wp (DataTransformer.seasons_season season self) Inv;
    player_step :
      forall team_db_id player self,
        Inv self ->
        wp (DataTransformer.players_player team_db_id player self) Inv;
    coach_step :
      forall team_db_id coach self,
        Inv self ->
        wp (DataTransformer.coaches_coach team_db_id coach self) Inv;
    statistic_step :
      forall team_db_id season_db_id player_stat acc,
        Inv (fst acc) ->
        wp (DataTransformer.statistics_player team_db_id season_db_id
              player_stat acc)
          (fun acc' => Inv (fst acc'));
    ranking_step :
      forall rankings_data poll_id poll_name season_db_id week rank_item acc,
        Inv (fst acc) ->
        wp (DataTransformer.rankings_item rankings_data poll_id poll_name
              season_db_id week rank_item acc)
          (fun acc' => Inv (fst acc'));
    schedule_step :
      forall games self,
        Inv self -> Inv (DataTransformer.set_clean_schedule games self) }.

(** [l'] is [l] with records added at the end. *)
Definition prefix_of {A : Type} (l l' : list A) : Prop :=
  exists more, l' = (l ++ more)%list.

(** Every table of [self'] is the table of [self] with records added at
    the end. *)
Definition tables_grow (self self' : DataTransformer.t) : Prop :=
  prefix_of (DataTransformer.conferences self)
    (DataTransformer.conferences self')
  /\ prefix_of (DataTransformer.divisions self)
       (DataTransformer.divisions self')
  /\ prefix_of (DataTransformer.venues self) (DataTransformer.venues self')
  /\ prefix_of (DataTransformer.teams self) (DataTransformer.teams self')
  /\ prefix_of (DataTransformer.seasons self) (DataTransformer.seasons self')
  /\ prefix_of (DataTransformer.players self) (DataTransformer.players self')
  /\ prefix_of (DataTransformer.player_statistics self)
       (DataTransformer.player_statistics self')
  /\ prefix_of (DataTransformer.rankings self)
       (DataTransformer.rankings self')
  /\ prefix_of (DataTransformer.coaches self) (DataTransformer.coaches self').

(** An identity map of identifiers the API gave: every key has the shape
    of a UUID and stands for itself. *)
Definition passes_through (m : list (string * string)) : Prop :=
  forall k v, In (k, v) m -> v = k /\ Py.uuid_ok k = true.

(** Venues, teams and players are known by the identifier of the API. *)
Definition api_identified (self : DataTransformer.t) : Prop :=
  passes_through (DataTransformer.venue_id_map self)
  /\ passes_through (DataTransformer.team_id_map self)
  /\ passes_through (DataTransformer.player_id_map self)
  /\ Forall (fun r => Py.uuid_ok (Venue.venue_id r) = true)
       (DataTransformer.venues self)
  /\ Forall (fun r => Py.uuid_ok (Team.team_id r) = true)
       (DataTransformer.teams self)
  /\ Forall (fun r => Py.uuid_ok (Player.player_id r) = true)
       (DataTransformer.players self).

(** The names a record cannot do without are not empty. *)
Definition names_filled (self : DataTransformer.t) : Prop :=
  Forall (fun r => Conference.name r <> "") (DataTransformer.conferences self)
  /\ Forall (fun r => Division.name r <> "") (DataTransformer.divisions self)
  /\ Forall (fun r => Season.type_code r <> "" /\ Season.year r <> 0)
       (DataTransformer.seasons self)
  /\ Forall (fun r => Player.last_name r <> "") (DataTransformer.players self)
  /\ Forall (fun r => Coach.full_name r <> "") (DataTransformer.coaches self).

(** The records of [table] carry the numbers 1, 2, ... in their order. *)
Definition numbered {R : Type} (id : R -> Z) (table : list R) : Prop :=
  map id table = map Z.of_nat (seq 1 (List.length table)).

(** The identifiers of the entries of a teams document that have the shape
    of a UUID, in the order of the entries. *)
Definition listed_teams (items : list value) : list string :=
  flat_map (fun item =>
              match Helpers.normalize_uuid (DataTransformer.field item "id")
              with
              | Some u => [u]
              | None => []
              end) items.

(** Every division belongs to a conference of the table. *)
Definition divisions_owned (self : DataTransformer.t) : Prop :=
  Forall (fun d => exists c, Division.conference_id d = Some c
                             /\ In c (Ids.conference self))
    (DataTransformer.divisions self).

(** In the tables [transform_all_data] returns, the foreign keys of teams,
    players, coaches, statistics and rankings are null or the identity of
    a record of the table they refer to. *)
Definition tables_reference (d : DataTransformer.transformed_data) : Prop :=
  let conference_ids :=
    map Conference.conference_id (DataTransformer.out_conferences d) in
  let division_ids :=
    map Division.division_id (DataTransformer.out_divisions d) in
  let venue_ids := map Venue.venue_id (DataTransformer.out_venues d) in
  let team_ids := map Team.team_id (DataTransformer.out_teams d) in
  let season_ids := map Season.season_id (DataTransformer.out_seasons d) in
  let player_ids := map Player.player_id (DataTransformer.out_players d) in
  Forall (fun r => opt_in (Team.conference_id r) conference_ids
                   /\ opt_in (Team.division_id r) division_ids
                   /\ opt_in (Team.venue_id r) venue_ids)
    (DataTransformer.out_teams d)
  /\ Forall (fun r => In (Player.team_id r) team_ids)
       (DataTransformer.out_players d)
  /\ Forall (fun r => In (Coach.team_id r) team_ids)
       (DataTransformer.out_coaches d)
  /\ Forall (fun r => In (PlayerStatistic.player_id r) player_ids
                      /\ In (PlayerStatistic.team_id r) team_ids
                      /\ In (PlayerStatistic.season_id r) season_ids)
       (DataTransformer.out_player_statistics d)
  /\ Forall (fun r => In (Ranking.team_id r) team_ids
                      /\ opt_in (Ranking.season_id r) season_ids)
       (DataTransformer.out_rankings d).

(** A teams document with a team that names a conference, a division and
    a venue no table holds. *)
Definition team_without_links : value :=
  VDict [("teams",
          VList [VDict [("id", VStr uuid_a); ("name", VStr "Tide");
                        ("conference", VDict [("name", VStr "SEC")]);
                        ("division", VDict [("name", VStr "FBS")]);
                        ("venue", VDict [("id", VStr uuid_b)])];
                 VDict [("name", VStr "No identifier")]])].

(** The exceptions a document of the wrong shape raises: a value that
    cannot be iterated, or one that is no object where one is read. *)
Definition shape_error (e : exn) : Prop :=
  e = TypeError \/ e = AttributeError.

(** The superscript digits U+00B2, U+00B3 and U+00B9. *)
Definition is_superscript (c : ascii) : bool :=
  let n := PyStr.code c in (n =? 178) || (n =? 179) || (n =? 185).

(** A text [int] reads when it is made of digits: it holds no
    superscript digit and is not longer than the digits [int] accepts. *)
Definition plain_text (s : string) : bool :=
  negb (PyStr.existsb_str is_superscript s)
  && (Z.of_nat (String.length s) <=? PyInt.max_str_digits).

(** Every string of the document, key or value, is such a text. *)
Fixpoint plain (v : value) : bool :=
  match v with
  | VStr s => plain_text s
  | VList l => forallb plain l
  | VDict d => forallb (fun kv => plain_text (fst kv) && plain (snd kv)) d
  | VNone | VBool _ | VInt _ | VFloat _ => true
  end.

(** A document whose numbers convert and whose strings are plain. *)
Definition benign (v : value) : bool := tame v && plain v.

(** The computation returns or raises an exception of the shape. *)
Definition harmless {A : Type} (p : prog A) : Prop :=
  sat shape_error p (fun _ => True).

(** ** The two transformers and the populator *)

(** The keys of the dictionaries [backend/data_transformer_uuid.py]
    appends to each table, in the order of the literal. *)
Definition columns_of (table_name : string) : list string :=
  if String.eqb table_name "conferences"
  then ["conference_id"; "name"; "alias"]
  else if String.eqb table_name "divisions"
  then ["division_id"; "name"; "alias"; "conference_id"]
  else if String.eqb table_name "venues"
  then ["venue_id"; "name"; "city"; "state"; "country"; "zip"; "address";
        "capacity"; "surface"; "roof_type"; "latitude"; "longitude"]
  else if String.eqb table_name "seasons"
  then ["season_id"; "year"; "start_date"; "end_date"; "status";
        "type_code"]
  else if String.eqb table_name "teams"
  then ["team_id"; "market"; "name"; "alias"; "founded"; "mascot";
        "fight_song"; "championships_won"; "conference_id"; "division_id";
        "venue_id"]
  else if String.eqb table_name "players"
  then ["player_id"; "first_name"; "last_name"; "abbr_name"; "birth_place";
        "position"; "height"; "weight"; "status"; "eligibility"; "team_id"]
  else if String.eqb table_name "coaches"
  then ["coach_id"; "full_name"; "position"; "team_id"]
  else if String.eqb table_name "player_statistics"
  then ["stat_id"; "player_id"; "team_id"; "season_id"; "games_played";
        "games_started"; "rushing_yards"; "rushing_touchdowns";
        "receiving_yards"; "receiving_touchdowns"; "kick_return_yards";
        "fumbles"]
  else if String.eqb table_name "rankings"
  then ["ranking_id"; "poll_id"; "poll_name"; "season_id"; "week";
        "effective_time"; "team_id"; "rank"; "prev_rank"; "points";
        "fp_votes"; "wins"; "losses"; "ties"]
  else [].

(** What a quoted SQL literal stands for: the text between the quotes,
    a doubled quote read as one. *)
Fixpoint unquote_body (s : string) : option string :=
  match s with
  | EmptyString => None
  | String c r =>
      if Ascii.eqb c "'"
      then match r with
           | EmptyString => Some EmptyString
           | String c' r' =>
               if Ascii.eqb c' "'"
               then option_map (String "'") (unquote_body r')
               else None
           end
      else option_map (String c) (unquote_body r)
  end.

Definition sql_unquote (s : string) : option string :=
  match s with
  | String c r => if Ascii.eqb c "'" then unquote_body r else None
  | EmptyString => None
  end.

(** The game of the transformer with UUIDs that a game of the transformer
    with sequential identifiers stands for. *)
Definition normalized_game (g : Sequential.Game.t) : Game.t :=
  Game.mk (Sequential.Game.game_id g)
    (Helpers.normalize_uuid (Sequential.Game.home_team_api_id g))
    (Helpers.normalize_uuid (Sequential.Game.away_team_api_id g))
    (Sequential.Game.scheduled g)
    (Helpers.normalize_string (Sequential.Game.venue_name g)).

(** A hierarchy in the shape the sequential transformer reads: two
    conferences whose names, joined to the name of their division, give
    one text. *)
Definition underscore_hierarchy : value :=
  VDict [("conferences",
          VList [VDict [("name", VStr "Big_Ten");
                        ("divisions", VList [VDict [("name", VStr "East")]])];
                 VDict [("name", VStr "Big");
                        ("divisions",
                         VList [VDict [("name", VStr "Ten_East")]])]])].

(** The records a call has added so far, and the counter that numbers the
    next one. *)
Definition counted {R : Type} (id : R -> Z) (base table : list R)
  (counter : Z) : Prop :=
  exists recs,
    table = (base ++ recs)%list /\ numbered id recs
    /\ counter = Z.of_nat (List.length recs) + 1.

(** A roster entry that names its player in the three accepted shapes at
    once. *)
Definition player_named_thrice : value :=
  VDict [("id", VStr uuid_a); ("last_name", VStr "Jackson");
         ("name", VDict [("last", VStr "Nested"); ("first", VStr "Bo")])].

(** ** Further notions of the claims *)














(** ** Snapshots whose entities carry their identifiers *)

(** The computation ends without a call of the generator. *)
Definition quiet {A : Type} (p : prog A) : Prop :=
  match p with
  | Ret _ | Raise _ => True
  | Uuid4 _ => False
  end.

(** What [for x in v] goes through; nothing when [v] cannot be iterated. *)
Definition elements (v : value) : list value :=
  match v with
  | VList l => l
  | VDict d => map (fun kv => VStr (fst kv)) d
  | VStr s => Py.chars s
  | VNone | VBool _ | VInt _ | VFloat _ => []
  end.

(** The values of a dict; nothing when [v] is no dict. *)
Definition entries_of (v : value) : list value :=
  match v with
  | VDict d => map snd d
  | _ => []
  end.

(** The entry carries an identifier that has the shape of a UUID. *)
Definition carries_id (entry : value) : bool :=
  match Helpers.normalize_uuid (DataTransformer.field entry "id") with
  | Some _ => true
  | None => false
  end.

(** The entry has a name. *)
Definition has_name (entry : value) : bool :=
  match Helpers.normalize_string (DataTransformer.field entry "name") with
  | Some _ => true
  | None => false
  end.

(** Every division of the hierarchy that has a name carries an
    identifier, and so does every conference with a name listed under
    it. *)
Definition hierarchy_identified (hierarchy_data : value) : bool :=
  forallb
    (fun div =>
       negb (has_name div)
       || (carries_id div
           && forallb (fun conf => negb (has_name conf) || carries_id conf)
                (elements (Helpers.safe_get div ["conferences"] (VList [])))))
    (elements (Helpers.safe_get hierarchy_data ["divisions"] (VList []))).

(** The season entry has a key: a year that is not zero and a type code. *)
Definition season_keyed (season : value) : bool :=
  match Helpers.normalize_int (DataTransformer.field season "year"),
        Helpers.normalize_string
          (Helpers.safe_get season ["type"; "code"] VNone) with
  | Ret (Some year), Some _ => negb (year =? 0)
  | _, _ => false
  end.

(** Every season that has a key carries an identifier. *)
Definition seasons_identified (seasons_data : value) : bool :=
  forallb (fun season => negb (season_keyed season) || carries_id season)
    (elements (Helpers.safe_get seasons_data ["seasons"] (VList []))).

(** The coach entry has a name: a full name, or a last name. *)
Definition coach_named (coach : value) : bool :=
  match Helpers.normalize_string (DataTransformer.field coach "full_name"),
        Helpers.normalize_string (DataTransformer.field coach "last_name")
  with
  | None, None => false
  | _, _ => true
  end.

(** Every coach of every roster that has a name carries an identifier. *)
Definition coaches_identified (rosters_data : value) : bool :=
  forallb
    (fun roster =>
       forallb (fun coach => negb (coach_named coach) || carries_id coach)
         (elements (Helpers.safe_get roster ["coaches"] (VList []))))
    (entries_of rosters_data).

(** The poll of a rankings document carries an identifier, unless the
    document is empty. *)
Definition poll_identified (rankings_data : value) : bool :=
  negb (Py.truthy rankings_data)
  || match Helpers.normalize_uuid
             (Helpers.safe_get rankings_data ["poll"; "id"] VNone) with
     | Some _ => true
     | None => false
     end.

(** Every entity of the snapshot for which the transformer would
    otherwise generate an identifier carries one of the API. *)
Definition identified (all_api_data : value) : bool :=
  hierarchy_identified (DataTransformer.field all_api_data "hierarchy")
  && seasons_identified (DataTransformer.field all_api_data "seasons")
  && coaches_identified (DataTransformer.field all_api_data "rosters")
  && poll_identified (DataTransformer.field all_api_data "rankings_current")
  && poll_identified (DataTransformer.field all_api_data "rankings_week1").

(** A generator that yields [uuid_b] first and [uuid_c] ever after. *)
Definition source_bc : nat -> string :=
  fun n => match n with O => uuid_b | S _ => uuid_c end.

(** The division record [d] is the one of an entry of the hierarchy: it
    bears the name and the alias of the entry and the identifier the
    entry carries, if it carries one; and it is linked to the first
    conference with a name that the entry lists, by the identifier that
    conference carries, if it carries one. *)
Definition listed_under (hierarchy_data : value) (d : Division.t) : Prop :=
  exists div conf c,
    In div (elements
              (Helpers.safe_get hierarchy_data ["divisions"] (VList [])))
    /\ Helpers.normalize_string (DataTransformer.field div "name")
       = Some (Division.name d)
    /\ Division.alias d
       = Helpers.normalize_string (DataTransformer.field div "alias")
    /\ (forall k,
           Helpers.normalize_uuid (DataTransformer.field div "id") = Some k ->
           Division.division_id d = k)
    /\ find has_name
         (elements (Helpers.safe_get div ["conferences"] (VList [])))
       = Some conf
    /\ Division.conference_id d = Some c
    /\ (forall k,
           Helpers.normalize_uuid (DataTransformer.field conf "id") = Some k ->
           c = k).

(** A transformer that holds the conference [uuid_b] and a division of
    it. *)
Definition one_division : DataTransformer.t :=
  DataTransformer.set_conferences [Conference.mk uuid_b "Big Ten" None]
    (DataTransformer.set_divisions
       [Division.mk uuid_a "East" None (Some uuid_b)] DataTransformer.init).

(** * Field Accessor *)

Section SafeGet.
Import Helpers.

Lemma safe_get_not_mapping (data : value) (key : string)
  (keys : list string) (default : value) :
  (forall d, data <> VDict d) -> safe_get data (key :: keys) default = default.
Proof.
  intros Hnot. destruct data; simpl; try reflexivity.
  exfalso. exact (Hnot entries eq_refl).
Qed.

Lemma safe_get_breaks (data : value) (keys : list string)
  (default : value) :
  path_breaks data keys -> safe_get data keys default = default.
Proof.
  induction 1 as [data key keys Hnot | d key keys Habsent
                 | d key keys inner Hget _ IH].
  - now apply safe_get_not_mapping.
  - simpl. now rewrite Habsent.
  - simpl. now rewrite Hget.
Qed.

(** C8. A path that breaks — a segment is absent, or the value reached
    is not a mapping — makes [safe_get] return the default of the caller.
    [safe_get] is a total function of the model, no statement of its body
    can raise; on every document and every path it returns the default or
    the value, not null, that the path leads to. *)
Theorem safe_get_missing_default (data : value) (keys : list string)
  (default : value) :
  (path_breaks data keys -> safe_get data keys default = default)
  /\ (safe_get data keys default = default
      \/ (path_value data keys (safe_get data keys default)
          /\ safe_get data keys default <> VNone)).
Proof.
  split; [apply safe_get_breaks |].
  revert data. induction keys as [| key keys IH]; intros data.
  - destruct data; simpl; auto; right; (split; [constructor | discriminate]).
  - destruct data; simpl; auto.
    destruct (dict_get String.eqb key entries) as [inner |] eqn:Hget; auto.
    destruct (IH inner) as [Hdef | [Hpath Hnot]]; auto.
    right. split; [| exact Hnot]. now apply value_deeper with inner.
Qed.

Lemma safe_get_missing_default_witness :
  path_breaks (VDict [("venue", VStr "Bryant-Denny")]) ["venue"; "name"]
  /\ safe_get (VDict [("venue", VStr "Bryant-Denny")]) ["venue"; "name"]
       (VStr "n/a") = VStr "n/a".
Proof.
  assert (H : path_breaks (VDict [("venue", VStr "Bryant-Denny")])
                ["venue"; "name"]).
  { apply breaks_deeper with (inner := VStr "Bryant-Denny").
    - reflexivity.
    - apply breaks_not_mapping. discriminate. }
  split; [exact H |].
  exact (proj1 (safe_get_missing_default _ _ (VStr "n/a")) H).
Defined.

(** C10. When the whole path exists and the value stored at its end is
    an explicit null, [safe_get] returns the default of the caller: the
    answer is the one a document without the field gets. *)
Theorem safe_get_null_is_default (data : value) (keys : list string)
  (default : value) :
  path_value data keys VNone ->
  safe_get data keys default = default
  /\ forall other, path_breaks other keys ->
                   safe_get other keys default = safe_get data keys default.
Proof.
  intros Hpath.
  assert (Hdef : safe_get data keys default = default).
  { remember VNone as v eqn:Hv.
    induction Hpath as [v | d key keys inner v Hget _ IH]; subst.
    - reflexivity.
    - simpl. rewrite Hget. now apply IH. }
  split; [exact Hdef |].
  intros other Hbreak. rewrite Hdef. now apply safe_get_breaks.
Qed.

Lemma safe_get_null_is_default_witness :
  path_value (VDict [("poll", VDict [("id", VNone)])]) ["poll"; "id"] VNone
  /\ safe_get (VDict [("poll", VDict [("id", VNone)])]) ["poll"; "id"]
       (VInt 7) = VInt 7.
Proof.
  assert (H : path_value (VDict [("poll", VDict [("id", VNone)])])
                ["poll"; "id"] VNone).
  { eapply value_deeper; [reflexivity |].
    eapply value_deeper; [reflexivity |]. apply value_here. }
  split; [exact H |].
  exact (proj1 (safe_get_null_is_default _ _ (VInt 7) H)).
Defined.

End SafeGet.

(** * Height coercion *)

Section Height.
Import Helpers.

(** The five conversions the specification lists. *)
Lemma convert_height_examples :
  convert_height_to_inches (VStr "75") = Ret (VInt 75)
  /\ convert_height_to_inches (VStr "6-3") = Ret (VInt 75)
  /\ convert_height_to_inches
       (VStr ("6'3" ++ String PyStr.dquote "")) = Ret (VInt 75)
  /\ convert_height_to_inches (VInt 190) = Ret (VInt 190)
  /\ convert_height_to_inches (VStr "tall") = Ret VNone.
Proof. repeat split; reflexivity. Qed.

(** C7 (defect). [convert_height_to_inches] is not total: on the string of
    the single character U+00B2, which [str.isdigit] accepts and [int]
    rejects, it raises ValueError instead of returning null. *)
Theorem convert_height_superscript_raises :
  convert_height_to_inches (VStr superscript_two) = Raise ValueError.
Proof. reflexivity. Qed.

End Height.

(** * Player names *)

Section PlayerNames.
Import Helpers DataTransformer.

(** A name given only as the string ["Bo Jackson"]. *)
Lemma player_names_bo_jackson :
  player_names (VDict [("id", VStr uuid_a); ("name", VStr "Bo Jackson")])
  = (Some "Bo", "Jackson").
Proof. reflexivity. Qed.

Lemma safe_get_under_string (player : value) (s key : string) :
  field player "name" = VStr s ->
  safe_get player ["name"; key] VNone = VNone.
Proof.
  unfold field. destruct player; simpl; try discriminate; try reflexivity.
  destruct (dict_get String.eqb "name" entries) as [v |]; [| reflexivity].
  destruct v; simpl; try discriminate; reflexivity.
Qed.

Lemma split_ws_no_empty_token (s tok : string) :
  ~ In "" (PyStr.split_ws s tok).
Proof.
  revert tok. induction s as [| c r IH]; intros tok; simpl.
  - destruct tok; simpl; [tauto |]. intros [H | []]. discriminate.
  - destruct (PyStr.isspace c); [| apply IH].
    destruct tok; simpl; [apply IH |].
    intros [H | H]; [discriminate | exact (IH _ H)].
Qed.

(** [s.split()] yields no empty token. *)
Lemma split_no_empty_token (s : string) : ~ In "" (PyStr.split s).
Proof. apply split_ws_no_empty_token. Qed.

Lemma last_in (l : list string) : l <> [] -> In (last l "") l.
Proof.
  intros Hne. destruct (exists_last Hne) as (l' & a & ->).
  rewrite last_last. apply in_or_app. right. now left.
Qed.

(** A name given only as one string: the last token is the last name,
    the tokens before it, joined by blanks, the first name. *)
Lemma player_names_single_string (player : value) (s full : string)
  (parts : list string) :
  normalize_string (field player "last_name") = None ->
  normalize_string (field player "first_name") = None ->
  field player "name" = VStr s ->
  normalize_string (VStr s) = Some full ->
  PyStr.split (PyStr.strip full) = parts ->
  parts <> [] ->
  player_names player
  = (match parts with
     | _ :: _ :: _ => Some (PyStr.join " " (removelast parts))
     | _ => None
     end, last parts "").
Proof.
  intros Hlast Hfirst Hname Hfull Hparts Hne.
  assert (Hl : last parts "" <> "").
  { intros Hl. apply (split_no_empty_token (PyStr.strip full)).
    rewrite Hparts, <- Hl. now apply last_in. }
  unfold player_names.
  rewrite Hlast, Hfirst, !(safe_get_under_string player s) by exact Hname.
  rewrite Hname, Hfull, Hparts.
  cbn [normalize_string str_or truthy_str].
  destruct parts as [| p1 [| p2 rest]]; [congruence | |].
  - cbn [truthy_str str_or].
    destruct (last [p1] "") eqn:E; [congruence | reflexivity].
  - cbn [truthy_str str_or].
    destruct (last (p1 :: p2 :: rest) "") eqn:E; [congruence | reflexivity].
Qed.
End PlayerNames.


(** * Reasoning about computations *)

Section ProgramLogic.
Context {A B : Type} (E : exn -> Prop).

Lemma sat_bind (p : prog A) (f : A -> prog B) (Q : B -> Prop) :
  sat E p (fun a => sat E (f a) Q) -> sat E (bind p f) Q.
Proof.
  induction p as [a | e | k IH]; simpl; intros H; auto.
Qed.


Lemma sat_mono (p : prog A) (P Q : A -> Prop) :
  (forall a, P a -> Q a) -> sat E p P -> sat E p Q.
Proof.
  intros HPQ. induction p as [a | e | k IH]; simpl; intros H; auto.
Qed.


(** What [sat] says of one run. *)
Lemma sat_run (p : prog A) (Q : A -> Prop) (source : nat -> string)
  (n : nat) :
  sat E p Q ->
  match fst (run p source n) with
  | Returned a => Q a
  | Raised e => E e
  end.
Proof.
  revert n. induction p as [a | e | k IH]; simpl; intros n H; auto.
  apply IH, H.
Qed.
End ProgramLogic.

(** A loop keeps an invariant that each iteration keeps. *)
Lemma sat_for_each {A B : Type} (E : exn -> Prop) (items : list B)
  (body : B -> A -> prog A) (I : A -> Prop) (s : A) :
  I s ->
  (forall x s', In x items -> I s' -> sat E (body x s') I) ->
  sat E (for_each items body s) I.
Proof.
  revert s. induction items as [| x rest IH]; intros s Hs Hbody; simpl.
  - exact Hs.
  - apply sat_bind.
    apply sat_mono with (P := I); [| apply Hbody; [now left | exact Hs]].
    intros s' Hs'. apply IH; [exact Hs' |].
    intros y s'' Hy. apply Hbody. now right.
Qed.



Lemma wp_returned {A : Type} (p : prog A) (Q : A -> Prop)
  (source : nat -> string) (n m : nat) (a : A) :
  wp p Q -> run p source n = (Returned a, m) -> Q a.
Proof.
  intros H Hrun. apply (sat_run _ p Q source n) in H.
  now rewrite Hrun in H.
Qed.


(** The order of the runs of [p] does not matter to the generator: a run
    that meets the same values gives the same outcome. *)
Lemma run_agree {A : Type} (p : prog A) (source1 source2 : nat -> string)
  (n : nat) :
  (forall i, (n <= i < snd (run p source1 n))%nat -> source1 i = source2 i) ->
  run p source2 n = run p source1 n.
Proof.
  revert n. induction p as [a | e | k IH]; simpl; intros n Hagree; auto.
  assert (Hmono : forall (q : prog A) m, (m <= snd (run q source1 m))%nat).
  { clear. induction q as [a | e | k IH]; simpl; intros m; auto.
    specialize (IH (source1 m) (S m)). lia. }
  assert (Hn : source1 n = source2 n).
  { apply Hagree. specialize (Hmono (k (source1 n)) (S n)). lia. }
  rewrite <- Hn. apply IH. intros i Hi. apply Hagree. lia.
Qed.




(** ** The helpers inside [prog] *)

Section HelperRules.
Import Helpers.
Context (E : exn -> Prop).

Lemma sat_normalize_int (v : value) (Q : option Z -> Prop) :
  E OverflowError -> (forall r, Q r) -> sat E (normalize_int v) Q.
Proof.
  intros HE HQ. destruct v; simpl; auto.
  destruct (PyFloat.to_int f); simpl; auto.
Qed.

Lemma sat_normalize_float (v : value) (Q : option PyFloat.t -> Prop) :
  E OverflowError -> (forall r, Q r) -> sat E (normalize_float v) Q.
Proof.
  intros HE HQ. destruct v; simpl; auto.
  destruct (PyFloat.of_int n); simpl; auto.
Qed.

Lemma sat_convert_height (v : value) (Q : value -> Prop) :
  E ValueError -> (forall r, Q r) ->
  sat E (convert_height_to_inches v) Q.
Proof.
  intros HE HQ. destruct v; simpl; auto.
  destruct (PyStr.isdigit (PyStr.strip s)).
  - destruct (PyInt.parse 10 (PyStr.strip s)); simpl; auto.
  - destruct (if PyStr.contains "-" (PyStr.strip s) then _ else _)
      as [[a b] |]; simpl; auto.
    destruct (_ || _); simpl; auto.
    destruct (match_feet_inches (PyStr.strip s)) as [[a b] |]; simpl; auto.
Qed.

Lemma sat_iter (v : value) (Q : list value -> Prop) :
  E TypeError -> (forall l, Q l) -> sat E (Py.iter v) Q.
Proof. intros HE HQ. destruct v; simpl; auto. Qed.

Lemma sat_items (v : value) (Q : list (string * value) -> Prop) :
  E AttributeError -> (forall l, Q l) -> sat E (Py.items v) Q.
Proof. intros HE HQ. destruct v; simpl; auto. Qed.

Lemma sat_get (v : value) (key : string) (Q : value -> Prop) :
  E AttributeError -> (forall x, Q x) -> sat E (Py.get v key) Q.
Proof. intros HE HQ. destruct v; simpl; auto. Qed.
End HelperRules.

(** * Player records *)

Section PlayerRecords.
Import Helpers DataTransformer.

(** No name field at all: the placeholder. *)
Lemma player_names_absent (player : value) :
  field player "last_name" = VNone ->
  field player "first_name" = VNone ->
  field player "name" = VNone ->
  player_names player = (None, "Unknown").
Proof.
  intros Hlast Hfirst Hname. unfold player_names.
  assert (Hsub : forall key, safe_get player ["name"; key] VNone = VNone).
  { intros key. unfold field in Hname.
    destruct player; simpl in *; try reflexivity.
    destruct (dict_get String.eqb "name" entries) as [v |]; [| reflexivity].
    destruct v; simpl in *; try discriminate; reflexivity. }
  rewrite Hlast, Hfirst, Hname, !Hsub. reflexivity.
Qed.

Lemma normalize_uuid_truthy (v : value) (u : string) :
  normalize_uuid v = Some u -> truthy_str (Some u) = Some u.
Proof.
  destruct v; simpl; try discriminate.
  destruct (Py.uuid_ok s) eqn:Hok; [| discriminate].
  intros [= <-]. destruct s; [discriminate | reflexivity].
Qed.

(** A player with a valid identifier that is not registered yet gets one
    record, whatever the name fields are: the names are those
    [player_names] computes. *)
Lemma players_player_appends (team_db_id api_player_id : string)
  (player : value) (self : t) :
  normalize_uuid (field player "id") = Some api_player_id ->
  dict_mem String.eqb api_player_id (player_id_map self) = false ->
  wp (players_player team_db_id player self)
     (fun self' =>
        exists r, players self' = (players self ++ [r])%list
                  /\ Player.player_id r = api_player_id
                  /\ Player.team_id r = team_db_id
                  /\ (Player.first_name r, Player.last_name r)
                     = player_names player).
Proof.
  intros Hid Hnew. unfold players_player, wp.
  rewrite Hid, (normalize_uuid_truthy _ _ Hid).
  destruct (player_names player) as [first_name last_name].
  rewrite Hnew.
  apply sat_bind, sat_convert_height; [exact I | intros height].
  apply sat_bind, sat_normalize_int; [exact I | intros weight].
  simpl. eexists. repeat split.
Qed.

(** C6 (defect). A player whose [name] is an empty object carries no name
    in any accepted shape, yet the record gets the text of the object as
    last name, not the placeholder: [normalize_string] turns the object
    into the string of its Python representation, which the branch for
    strings then splits. *)
Theorem player_empty_name_not_placeholder :
  player_names player_empty_name = (None, "{}")
  /\ exists self',
      players_player uuid_c player_empty_name init = Ret self'
      /\ map Player.last_name (players self') = ["{}"].
Proof.
  split; [reflexivity |]. eexists. split; reflexivity.
Qed.

End PlayerRecords.

(** * Schedule *)

Section Schedule.
Import Helpers DataTransformer.




(** The game of an entry that is a dict. *)
Lemma schedule_game_dict (game_id : Z) (d : list (string * value)) :
  schedule_game game_id (VDict d)
  = Ret (Game.mk game_id
           (id_of (Py.or (Py.or (Py.lookup d "home")
                            (Py.lookup d "home_team")) (VDict [])))
           (id_of (Py.or (Py.or (Py.lookup d "away")
                            (Py.lookup d "away_team")) (VDict [])))
           (Py.or (Py.or (Py.lookup d "scheduled") (Py.lookup d "date"))
              (Py.lookup d "start_time"))
           (name_of (Py.or (Py.lookup d "venue") (VDict [])))).
Proof. reflexivity. Qed.












End Schedule.

(** * Documents whose numbers convert *)

Section Tame.
Import Helpers.

Lemma tame_dict_get (d : list (string * value)) (key : string) (v : value) :
  tame (VDict d) = true -> dict_get String.eqb key d = Some v ->
  tame v = true.
Proof.
  simpl. induction d as [| [k x] rest IH]; simpl; [discriminate |].
  intros Hd. apply andb_prop in Hd as [Hx Hrest].
  destruct (String.eqb key k).
  - now intros [= <-].
  - now apply IH.
Qed.

Lemma tame_safe_get (data : value) (keys : list string) (default : value) :
  tame data = true -> tame default = true ->
  tame (safe_get data keys default) = true.
Proof.
  revert data. induction keys as [| key keys IH]; intros data Hdata Hdef.
  - destruct data; simpl; assumption.
  - destruct data; simpl; try assumption.
    destruct (dict_get String.eqb key entries) as [v |] eqn:Hget;
      [| assumption].
    apply IH; [| assumption]. exact (tame_dict_get _ _ _ Hdata Hget).
Qed.

Lemma tame_field (data : value) (key : string) :
  tame data = true -> tame (DataTransformer.field data key) = true.
Proof. intros H. now apply tame_safe_get. Qed.

Lemma tame_iter (v : value) (l : list value) :
  tame v = true -> Py.iter v = Ret l -> forallb tame l = true.
Proof.
  destruct v; simpl; try discriminate; intros Hv [= <-].
  - clear. induction s as [| c r IH]; simpl; auto.
  - exact Hv.
  - clear. induction entries as [| kv rest IH]; simpl; auto.
Qed.

(** On a tame value [normalize_int] returns. *)
Lemma sat_normalize_int_tame (E : exn -> Prop) (v : value)
  (Q : option Z -> Prop) :
  tame v = true -> (forall r, Q r) -> sat E (normalize_int v) Q.
Proof.
  intros Hv HQ. destruct v; simpl; auto.
  destruct f; simpl in *; auto. discriminate.
Qed.

(** On a tame value [normalize_float] returns. *)
Lemma sat_normalize_float_tame (E : exn -> Prop) (v : value)
  (Q : option PyFloat.t -> Prop) :
  tame v = true -> (forall r, Q r) -> sat E (normalize_float v) Q.
Proof.
  intros Hv HQ. destruct v; simpl; auto.
  simpl in Hv. destruct (PyFloat.of_int n); simpl; auto. discriminate.
Qed.
End Tame.

(** * Statistics and rankings without a season *)

Section SeasonLinkage.
Import Helpers DataTransformer.

Lemma truthy_uuid (v : value) :
  truthy_str (normalize_uuid v) = normalize_uuid v.
Proof.
  destruct (normalize_uuid v) as [u |] eqn:Hu; [| reflexivity].
  exact (normalize_uuid_truthy _ _ Hu).
Qed.





(** A falsy document has no field. *)
Lemma safe_get_falsy (data : value) (key : string) (default : value) :
  Py.truthy data = false -> safe_get data [key] default = default.
Proof.
  destruct data; simpl; try reflexivity.
  destruct entries; [reflexivity | discriminate].
Qed.




(** The ranking that is emitted without a season. *)
Example rankings_without_season :
  exists self',
    transform_rankings sample_rankings "current" 2025 None one_team = Ret self'
    /\ rankings self'
       = [Ranking.mk 1 uuid_d (Some "AP Top 25") None (Some 3) None uuid_a
            (Some 1) None None None None None None].
Proof. eexists. split; reflexivity. Qed.
End SeasonLinkage.

(** * Identity maps *)

Section DictFacts.
Context {K V : Type} (eqb : K -> K -> bool).
Hypothesis eqb_eq : forall a b, eqb a b = true <-> a = b.

Lemma eqb_same (k : K) : eqb k k = true.
Proof. now apply eqb_eq. Qed.

Lemma dict_get_set_same (k : K) (v : V) (m : list (K * V)) :
  dict_get eqb k (dict_set eqb k v m) = Some v.
Proof.
  induction m as [| [k' v'] rest IH]; simpl.
  - now rewrite eqb_same.
  - destruct (eqb k k') eqn:Hk; simpl; rewrite Hk; [reflexivity | exact IH].
Qed.

Lemma dict_get_set_other (k k' : K) (v : V) (m : list (K * V)) :
  k' <> k -> dict_get eqb k' (dict_set eqb k v m) = dict_get eqb k' m.
Proof.
  intros Hne.
  assert (Hkk : eqb k' k = false).
  { destruct (eqb k' k) eqn:H; [| reflexivity]. now apply eqb_eq in H. }
  induction m as [| [k0 v0] rest IH]; simpl.
  - now rewrite Hkk.
  - destruct (eqb k k0) eqn:Hk; simpl.
    + apply eqb_eq in Hk. subst k0. now rewrite Hkk.
    + destruct (eqb k' k0); [reflexivity | exact IH].
Qed.
End DictFacts.

Section RegistryFacts.
Context {R K : Type} (eqb : K -> K -> bool) (key : R -> K)
  (ident : R -> string).
Hypothesis eqb_eq : forall a b, eqb a b = true <-> a = b.

Lemma registry_ok_empty : registry_ok eqb key ident [] [].
Proof. intros k. reflexivity. Qed.

(** Registering a new key together with its record keeps the agreement. *)
Lemma registry_ok_add (table : list R) (m : list (K * string)) (r : R) :
  registry_ok eqb key ident table m ->
  dict_mem eqb (key r) m = false ->
  registry_ok eqb key ident (table ++ [r])
    (dict_set eqb (key r) (ident r) m).
Proof.
  intros Hok Hnew k. unfold records_of. rewrite filter_app. simpl.
  destruct (eqb (key r) k) eqn:Hk.
  - apply eqb_eq in Hk. subst k.
    rewrite (dict_get_set_same eqb eqb_eq).
    specialize (Hok (key r)). unfold dict_mem in Hnew.
    destruct (dict_get eqb (key r) m); [discriminate |].
    unfold records_of in Hok. rewrite Hok. now exists r.
  - rewrite (dict_get_set_other eqb eqb_eq).
    + rewrite app_nil_r. apply Hok.
    + intros ->. now rewrite (eqb_same eqb eqb_eq) in Hk.
Qed.
End RegistryFacts.

Lemma season_key_eqb_eq (a b : Z * string) :
  DataTransformer.season_key_eqb a b = true <-> a = b.
Proof.
  destruct a as [y1 t1], b as [y2 t2].
  unfold DataTransformer.season_key_eqb. simpl.
  rewrite andb_true_iff, Z.eqb_eq, String.eqb_eq.
  split; [intros [-> ->]; reflexivity | intros [= -> ->]; now split].
Qed.

(** * Walking through a computation *)

Ltac wp_step :=
  match goal with
  | |- wp _ _ => unfold wp
  | |- sat _ (Ret _) _ => cbn [sat]
  | |- sat _ (Raise _) _ => exact I
  | |- sat _ (bind _ _) _ => apply sat_bind
  | |- sat _ (Helpers.normalize_int _) _ =>
      apply sat_normalize_int; [exact I | intros ?]
  | |- sat _ (Helpers.normalize_float _) _ =>
      apply sat_normalize_float; [exact I | intros ?]
  | |- sat _ (Helpers.convert_height_to_inches _) _ =>
      apply sat_convert_height; [exact I | intros ?]
  | |- sat _ (Py.iter _) _ => apply sat_iter; [exact I | intros ?]
  | |- sat _ (Py.items _) _ => apply sat_items; [exact I | intros ?]
  | |- sat _ (Py.get _ _) _ => apply sat_get; [exact I | intros ?]
  | |- sat _ uuid4_str _ => unfold uuid4_str; cbn [sat]; intros ?
  | |- sat _ (if ?c then _ else _) _ => destruct c eqn:?
  | |- sat _ (match ?x with _ => _ end) _ => destruct x eqn:?
  end.

Ltac wp_walk := repeat wp_step.

(** Closes a goal about a transformer built by conditional updates that
    leave the fields of the goal alone. *)
Ltac frame H :=
  repeat match goal with
         | |- context [if ?c then _ else _] => destruct c
         end;
  exact H.

(** * Seasons, players and venues are resolved once *)

Section ResolvedOnce.
Import Helpers DataTransformer.

Lemma resolved_once_init : resolved_once init.
Proof. repeat split; intros k; reflexivity. Qed.

Lemma extract_venue_once (venue : value) (self : t) :
  resolved_once self -> wp (_extract_venue venue self) resolved_once.
Proof.
  intros Hinv. unfold _extract_venue. wp_walk; try exact Hinv.
  destruct Hinv as (Hs & Hp & Hv). repeat split; try assumption.
  cbn. unfold set_str.
  match goal with
  | |- registry_ok _ _ _ (_ ++ [?r])%list _ =>
      apply (registry_ok_add String.eqb Venue.venue_id Venue.venue_id
               String.eqb_eq (venues self) (venue_id_map self) r Hv)
  end.
  assumption.
Qed.

Lemma team_venue_once (team : value) (self : t) :
  resolved_once self -> wp (team_venue team self) resolved_once.
Proof.
  intros Hinv. unfold team_venue. wp_walk; try exact Hinv.
  now apply extract_venue_once.
Qed.

Lemma hierarchy_conference_once (div_name : string)
  (div_alias : option string) (div_uuid : string) (conf : value) (self : t) :
  resolved_once self ->
  wp (hierarchy_conference div_name div_alias div_uuid conf self)
    resolved_once.
Proof.
  intros Hinv. unfold hierarchy_conference. wp_walk; try exact Hinv;
    (apply sat_for_each; [frame Hinv |];
     intros team s' _ Hs'; now apply team_venue_once).
Qed.

Lemma hierarchy_division_once (div : value) (self : t) :
  resolved_once self -> wp (hierarchy_division div self) resolved_once.
Proof.
  intros Hinv. unfold hierarchy_division. wp_walk; try exact Hinv;
    (apply sat_for_each; [exact Hinv |];
     intros conf s' _ Hs'; now apply hierarchy_conference_once).
Qed.

Lemma transform_hierarchy_once (hierarchy_data : value) (self : t) :
  resolved_once self ->
  wp (transform_hierarchy hierarchy_data self) resolved_once.
Proof.
  intros Hinv. unfold transform_hierarchy. wp_walk; try exact Hinv.
  apply sat_for_each; [exact Hinv |].
  intros div s' _ Hs'. now apply hierarchy_division_once.
Qed.

Lemma transform_venues_once (teams_data : value) (self : t) :
  resolved_once self -> wp (transform_venues teams_data self) resolved_once.
Proof.
  intros Hinv. unfold transform_venues. wp_walk; try exact Hinv.
  apply sat_for_each; [exact Hinv |].
  intros team s' _ Hs'. now apply team_venue_once.
Qed.

Lemma teams_team_once (team : value) (self : t) :
  resolved_once self -> wp (teams_team team self) resolved_once.
Proof. intros Hinv. unfold teams_team. wp_walk; exact Hinv. Qed.

Lemma transform_teams_once (teams_data hierarchy_data : value) (self : t) :
  resolved_once self ->
  wp (transform_teams teams_data hierarchy_data self) resolved_once.
Proof.
  intros Hinv. unfold transform_teams. wp_walk; try exact Hinv.
  apply sat_for_each; [exact Hinv |].
  intros team s' _ Hs'. now apply teams_team_once.
Qed.

Lemma seasons_season_once (season : value) (self : t) :
  resolved_once self -> wp (seasons_season season self) resolved_once.
Proof.
  intros Hinv. unfold seasons_season. wp_walk; try exact Hinv;
    destruct Hinv as (Hs & Hp & Hv); (repeat split; try assumption); cbn;
    match goal with
    | |- registry_ok _ _ _ (_ ++ [?r])%list _ =>
        apply (registry_ok_add season_key_eqb season_key Season.season_id
                 season_key_eqb_eq (seasons self) (season_id_map self) r Hs)
    end; assumption.
Qed.

Lemma transform_seasons_once (seasons_data : value) (self : t) :
  resolved_once self ->
  wp (transform_seasons seasons_data self) resolved_once.
Proof.
  intros Hinv. unfold transform_seasons. wp_walk; try exact Hinv.
  apply sat_for_each; [exact Hinv |].
  intros season s' _ Hs'. now apply seasons_season_once.
Qed.

Lemma roster_conference_once (conf_data : value) (self : t) :
  resolved_once self -> resolved_once (roster_conference conf_data self).
Proof.
  intros Hinv. unfold roster_conference.
  repeat match goal with
         | |- context [if ?c then _ else _] => destruct c
         | |- context [match ?x with _ => _ end] => destruct x
         end; exact Hinv.
Qed.

Lemma roster_division_once (div_data conf_data : value) (self : t) :
  resolved_once self ->
  resolved_once (roster_division div_data conf_data self).
Proof.
  intros Hinv. unfold roster_division.
  repeat match goal with
         | |- context [if ?c then _ else _] => destruct c
         | |- context [match ?x with _ => _ end] => destruct x
         end; exact Hinv.
Qed.

Lemma players_player_once (team_db_id : string) (player : value) (self : t) :
  resolved_once self ->
  wp (players_player team_db_id player self) resolved_once.
Proof.
  intros Hinv. unfold players_player. wp_walk; try exact Hinv.
  destruct Hinv as (Hs & Hp & Hv). repeat split; try assumption.
  cbn. unfold set_str.
  match goal with
  | |- registry_ok _ _ _ (_ ++ [?r])%list _ =>
      apply (registry_ok_add String.eqb Player.player_id Player.player_id
               String.eqb_eq (players self) (player_id_map self) r Hp)
  end.
  assumption.
Qed.

Lemma players_roster_once (entry : string * value) (self : t) :
  resolved_once self -> wp (players_roster entry self) resolved_once.
Proof.
  intros Hinv. unfold players_roster. destruct entry as [team_api_id roster].
  unfold wp. apply sat_bind.
  apply sat_mono with (P := resolved_once).
  - intros self1 H1.
    assert (H2 : resolved_once
                   (roster_division (field roster "division")
                      (field roster "conference")
                      (roster_conference (field roster "conference") self1)))
      by now apply roster_division_once, roster_conference_once.
    wp_walk; try exact H2.
    apply sat_for_each; [exact H2 |].
    intros player s' _ Hs'. now apply players_player_once.
  - destruct (Py.truthy (field roster "venue")); [| exact Hinv].
    now apply extract_venue_once.
Qed.

Lemma transform_players_once (rosters_data : value) (self : t) :
  resolved_once self ->
  wp (transform_players rosters_data self) resolved_once.
Proof.
  intros Hinv. unfold transform_players. wp_walk; try exact Hinv.
  apply sat_for_each; [exact Hinv |].
  intros entry s' _ Hs'. now apply players_roster_once.
Qed.

Lemma coaches_coach_once (team_db_id : string) (coach : value) (self : t) :
  resolved_once self ->
  wp (coaches_coach team_db_id coach self) resolved_once.
Proof. intros Hinv. unfold coaches_coach. wp_walk; exact Hinv. Qed.

Lemma transform_coaches_once (rosters_data : value) (self : t) :
  resolved_once self ->
  wp (transform_coaches rosters_data self) resolved_once.
Proof.
  intros Hinv. unfold transform_coaches. wp_walk; try exact Hinv.
  apply sat_for_each; [exact Hinv |].
  intros [team_api_id roster] s' _ Hs'. unfold coaches_roster.
  wp_walk; try exact Hs'.
  apply sat_for_each; [exact Hs' |].
  intros coach s'' _ Hs''. now apply coaches_coach_once.
Qed.

Lemma transform_player_statistics_once (season_stats_data : value)
  (year : Z) (season_type : string) (self : t) :
  resolved_once self ->
  wp (transform_player_statistics season_stats_data year season_type self)
    resolved_once.
Proof.
  intros Hinv. unfold transform_player_statistics. wp_walk; try exact Hinv.
  apply sat_mono with (P := fun acc => resolved_once (fst acc));
    [intros acc Hacc; exact Hacc |].
  apply sat_for_each; [exact Hinv |].
  intros [team_api_id stats] acc _ Hacc. unfold statistics_team.
  wp_walk; try exact Hacc.
  apply sat_for_each; [exact Hacc |].
  intros player_stat [s' stat_id] _ Hs'. unfold statistics_player.
  wp_walk; exact Hs'.
Qed.

Lemma transform_rankings_once (rankings_data : value)
  (rankings_type : string) (year : Z) (week : option Z) (self : t) :
  resolved_once self ->
  wp (transform_rankings rankings_data rankings_type year week self)
    resolved_once.
Proof.
  intros Hinv. unfold transform_rankings. wp_walk; try exact Hinv;
    (apply sat_mono with (P := fun acc => resolved_once (fst acc));
     [intros acc Hacc; exact Hacc |];
     apply sat_for_each; [exact Hinv |];
     intros rank_item [s' ranking_id] _ Hs'; unfold rankings_item;
     wp_walk; exact Hs').
Qed.

Lemma transform_schedule_once (schedule_data : value) (year : Z) (self : t) :
  resolved_once self ->
  wp (transform_schedule schedule_data year self) resolved_once.
Proof.
  intros Hinv. unfold transform_schedule. wp_walk; try exact Hinv.
  apply sat_mono with (P := fun _ => True); [intros acc _; exact Hinv |].
  apply sat_for_each; [exact I |].
  intros item [games game_id] _ _. unfold schedule_item, schedule_game.
  wp_walk; exact I.
Qed.

Lemma stage_once (all_api_data : value) (key : string)
  (f : value -> t -> prog t) (self : t) :
  (forall data s, resolved_once s -> wp (f data s) resolved_once) ->
  resolved_once self -> wp (stage all_api_data key f self) resolved_once.
Proof.
  intros Hf Hinv. unfold stage. wp_walk; [now apply Hf | exact Hinv].
Qed.

(** Every run keeps seasons, players and venues resolved once. *)
Lemma run_stages_once (all_api_data : value) (year : Z)
  (season_type : string) (self : t) :
  resolved_once self ->
  wp (run_stages all_api_data year season_type self) resolved_once.
Proof.
  intros Hinv. unfold run_stages, wp.
  assert (Hteams : forall data s,
             resolved_once s ->
             wp (s1 <- transform_venues data s ;;
                 hierarchy <- Py.get all_api_data "hierarchy" ;;
                 transform_teams data hierarchy s1) resolved_once).
  { intros data s Hs. unfold wp. apply sat_bind.
    apply sat_mono with (P := resolved_once);
      [| now apply transform_venues_once].
    intros s1 Hs1. wp_walk. now apply transform_teams_once. }
  assert (Hrosters : forall data s,
             resolved_once s ->
             wp (s1 <- transform_players data s ;;
                 transform_coaches data s1) resolved_once).
  { intros data s Hs. unfold wp. apply sat_bind.
    apply sat_mono with (P := resolved_once);
      [| now apply transform_players_once].
    intros s1 Hs1. now apply transform_coaches_once. }
  revert self Hinv.
  repeat (intros self Hinv; apply sat_bind;
          apply sat_mono with (P := resolved_once);
          [| apply stage_once;
             [first [ exact Hteams | exact Hrosters
                    | intros; now apply transform_hierarchy_once
                    | intros; now apply transform_seasons_once
                    | intros; now apply transform_player_statistics_once
                    | intros; now apply transform_rankings_once ]
             | exact Hinv]];
          clear self Hinv).
  intros self Hinv. apply stage_once; [| exact Hinv].
  intros. now apply transform_schedule_once.
Qed.

Lemma normalize_string_truthy (v : value) (s : string) :
  normalize_string v = Some s -> truthy_str (Some s) = Some s.
Proof.
  assert (Hne : forall x, nonempty x = Some s -> truthy_str (Some s) = Some s).
  { intros x. unfold nonempty.
    destruct (PyStr.is_empty x) eqn:Hx; [discriminate |].
    intros [= <-]. simpl. now rewrite Hx. }
  destruct v; simpl; try discriminate; apply Hne.
Qed.

(** Every run: the same, read off the outcome. *)
Corollary run_resolved_once (all_api_data : value) (year : Z)
  (season_type : string) (source : nat -> string) (self' : t) (n : nat) :
  run (run_stages all_api_data year season_type init) source 0
  = (Returned self', n) ->
  resolved_once self'.
Proof. apply wp_returned, run_stages_once, resolved_once_init. Qed.

(** C3 (counterexample). Teams are not resolved once: a teams document
    that lists one identifier twice leaves two team records for it. *)
Lemma team_listed_twice_two_records :
  exists self',
    transform_teams team_listed_twice VNone init = Ret self'
    /\ get_str uuid_a (team_id_map self') = Some uuid_a
    /\ List.length (records_of String.eqb Team.team_id uuid_a (teams self'))
       = 2%nat.
Proof. eexists. repeat split. Qed.

(** C3 (amended). Seasons under the key (year, type code), and players and
    venues under their external identifier, are resolved once. After any
    run from a fresh transformer every key that is registered has exactly
    one record in its table, the one with the identity the map gives; and
    resolving a key that is registered changes neither the map nor the
    table, so the identity stays the one of the first resolution. *)
Theorem resolution_idempotent :
  (forall all_api_data year season_type,
      wp (run_stages all_api_data year season_type init) resolved_once)
  /\ (forall self season year type_code,
         normalize_int (field season "year") = Ret (Some year) ->
         year <> 0 ->
         normalize_string (safe_get season ["type"; "code"] VNone)
         = Some type_code ->
         dict_mem season_key_eqb (year, type_code) (season_id_map self)
         = true ->
         seasons_season season self = Ret self)
  /\ (forall self team_db_id player api_player_id,
         normalize_uuid (field player "id") = Some api_player_id ->
         dict_mem String.eqb api_player_id (player_id_map self) = true ->
         players_player team_db_id player self = Ret self)
  /\ (forall self venue venue_api_id,
         normalize_uuid (field venue "id") = Some venue_api_id ->
         dict_mem String.eqb venue_api_id (venue_id_map self) = true ->
         _extract_venue venue self = Ret self).
Proof.
  repeat split.
  - intros data year season_type.
    apply run_stages_once, resolved_once_init.
  - intros self season year type_code Hyear Hnz Hcode Hmem.
    unfold seasons_season. rewrite Hyear. cbn [bind].
    rewrite Hcode, (normalize_string_truthy _ _ Hcode).
    unfold truthy_int. apply Z.eqb_neq in Hnz. rewrite Hnz.
    now rewrite Hmem.
  - intros self team_db_id player api_player_id Hid Hmem.
    unfold players_player.
    rewrite Hid, (normalize_uuid_truthy _ _ Hid).
    destruct (player_names player). now rewrite Hmem.
  - intros self venue venue_api_id Hid Hmem. unfold _extract_venue.
    destruct (negb (Py.truthy venue)); [reflexivity |].
    rewrite Hid, (normalize_uuid_truthy _ _ Hid). now rewrite Hmem.
Qed.

Lemma resolution_idempotent_witness :
  players_player uuid_c
    (VDict [("id", VStr uuid_a); ("name", VStr "Vincent Jackson")])
    one_player
  = Ret one_player.
Proof.
  apply (proj1 (proj2 (proj2 resolution_idempotent)) one_player uuid_c
           (VDict [("id", VStr uuid_a); ("name", VStr "Vincent Jackson")])
           uuid_a); reflexivity.
Defined.
End ResolvedOnce.

(** * References between the tables *)

Section References.
Import Helpers DataTransformer.

Lemma dict_get_in {K : Type} (eqb : K -> K -> bool) (k : K) (v : string)
  (m : list (K * string)) :
  dict_get eqb k m = Some v -> exists k', In (k', v) m.
Proof.
  induction m as [| [k0 v0] rest IH]; simpl; [discriminate |].
  destruct (eqb k k0).
  - intros [= ->]. exists k0. now left.
  - intros H. destruct (IH H) as [k' Hk']. exists k'. now right.
Qed.

Lemma dict_set_in {K : Type} (eqb : K -> K -> bool) (k k' : K)
  (v v' : string) (m : list (K * string)) :
  In (k', v') (dict_set eqb k v m) -> In (k', v') m \/ v' = v.
Proof.
  induction m as [| [k0 v0] rest IH]; simpl.
  - intros [[= _ <-] | []]. now right.
  - destruct (eqb k k0); simpl.
    + intros [[= _ <-] | H]; [now right | left; now right].
    + intros [H | H]; [left; now left |].
      destruct (IH H) as [H' | H']; [left; now right | now right].
Qed.

Lemma values_in_get {K : Type} (eqb : K -> K -> bool) (k : K) (v : string)
  (m : list (K * string)) (ids : list string) :
  values_in m ids -> dict_get eqb k m = Some v -> In v ids.
Proof.
  intros Hm Hget. destruct (dict_get_in _ _ _ _ Hget) as [k' Hk'].
  exact (Hm _ _ Hk').
Qed.

Lemma values_in_set {K : Type} (eqb : K -> K -> bool) (k : K) (v : string)
  (m : list (K * string)) (ids : list string) :
  values_in m ids -> In v ids -> values_in (dict_set eqb k v m) ids.
Proof.
  intros Hm Hv k' v' Hin.
  destruct (dict_set_in _ _ _ _ _ _ Hin) as [H | ->]; [exact (Hm _ _ H) |].
  exact Hv.
Qed.

Lemma values_in_incl {K : Type} (m : list (K * string))
  (ids ids' : list string) :
  values_in m ids -> incl ids ids' -> values_in m ids'.
Proof. intros Hm Hincl k v Hin. apply Hincl. exact (Hm _ _ Hin). Qed.

Lemma opt_in_incl (x : option string) (ids ids' : list string) :
  opt_in x ids -> incl ids ids' -> opt_in x ids'.
Proof. destruct x; simpl; auto. Qed.


Lemma team_refs_extends (self self' : t) (r : Team.t) :
  extends self self' -> team_refs self r -> team_refs self' r.
Proof.
  intros (Hc & Hd & Hv & _) (H1 & H2 & H3).
  repeat split; eapply opt_in_incl; eassumption.
Qed.

Lemma statistic_refs_extends (self self' : t) (r : PlayerStatistic.t) :
  extends self self' -> statistic_refs self r -> statistic_refs self' r.
Proof.
  intros (_ & _ & _ & Ht & Hs & Hp) (H1 & H2 & H3). repeat split; auto.
Qed.

Lemma ranking_refs_extends (self self' : t) (r : Ranking.t) :
  extends self self' -> ranking_refs self r -> ranking_refs self' r.
Proof.
  intros (_ & _ & _ & Ht & Hs & _) (H1 & H2).
  split; [auto | eapply opt_in_incl; eassumption].
Qed.

Lemma grown_forall {R : Type} (P Q : R -> Prop) (before after : list R) :
  (forall r, P r -> Q r) -> Forall P before -> grown Q before after ->
  Forall Q after.
Proof.
  intros HPQ Hbefore [-> | (r & -> & Hr)].
  - eapply Forall_impl; eassumption.
  - apply Forall_app. split; [eapply Forall_impl; eassumption |].
    now constructor.
Qed.

(** The frame of one step: the identities stay, the maps resolve, and
    every table of references is as it was or has one good record more. *)
Lemma references_resolve_step (self self' : t) :
  references_resolve self ->
  extends self self' ->
  maps_resolve self' ->
  grown (team_refs self') (teams self) (teams self') ->
  grown (fun r => In (Player.team_id r) (Ids.team self'))
    (players self) (players self') ->
  grown (fun r => In (Coach.team_id r) (Ids.team self'))
    (coaches self) (coaches self') ->
  grown (statistic_refs self') (player_statistics self)
    (player_statistics self') ->
  grown (ranking_refs self') (rankings self) (rankings self') ->
  references_resolve self'.
Proof.
  intros (_ & Ht & Hp & Hc & Hs & Hr) Hext Hmaps Gt Gp Gc Gs Gr.
  assert (Hteam : incl (Ids.team self) (Ids.team self')) by apply Hext.
  repeat split; try apply Hmaps.
  - eapply grown_forall; [| exact Ht | exact Gt].
    intros r. now apply team_refs_extends.
  - eapply grown_forall; [| exact Hp | exact Gp]. intros r. apply Hteam.
  - eapply grown_forall; [| exact Hc | exact Gc]. intros r. apply Hteam.
  - eapply grown_forall; [| exact Hs | exact Gs].
    intros r. now apply statistic_refs_extends.
  - eapply grown_forall; [| exact Hr | exact Gr].
    intros r. now apply ranking_refs_extends.
Qed.

(** Reduces the fields of a transformer that was updated. *)
Ltac fields :=
  unfold Ids.conference, Ids.division, Ids.venue, Ids.team, Ids.season,
    Ids.player in *;
  cbn [conferences divisions venues teams seasons players player_statistics
       rankings coaches conference_id_map division_id_map venue_id_map
       team_id_map season_id_map player_id_map clean_schedule
       set_conferences set_divisions set_venues set_teams set_seasons
       set_players set_player_statistics set_rankings set_coaches
       set_conference_id_map set_division_id_map set_venue_id_map
       set_team_id_map set_season_id_map set_player_id_map
       set_clean_schedule] in *.

Ltac bigger :=
  first [ apply incl_refl
        | rewrite map_app; apply incl_appl, incl_refl ].

Ltac extended := unfold extends; fields; repeat split; bigger.

Ltac last_one :=
  rewrite map_app; apply in_or_app; right; now left.

Lemma extract_venue_refs (venue : value) (self : t) :
  references_resolve self -> wp (_extract_venue venue self) references_resolve.
Proof.
  intros Hinv. unfold _extract_venue. wp_walk; try exact Hinv.
  apply (references_resolve_step self); try (now left); try exact Hinv.
  - extended.
  - destruct Hinv as ((Hc & Hd & Hv & Ht & Hs & Hp) & _).
    unfold maps_resolve. fields. repeat split; try assumption.
    apply values_in_set; [| last_one].
    eapply values_in_incl; [exact Hv | bigger].
Qed.

Lemma team_venue_refs (team : value) (self : t) :
  references_resolve self -> wp (team_venue team self) references_resolve.
Proof.
  intros Hinv. unfold team_venue. wp_walk; try exact Hinv.
  now apply extract_venue_refs.
Qed.

Lemma existsb_in {R : Type} (f : R -> string) (u : string) (l : list R) :
  existsb (fun r => String.eqb (f r) u) l = true -> In u (map f l).
Proof.
  intros H. apply existsb_exists in H as (r & Hr & Heq).
  apply String.eqb_eq in Heq. subst u. now apply in_map.
Qed.


Lemma truthy_str_some (x : option string) (v : string) :
  truthy_str x = Some v -> x = Some v.
Proof.
  destruct x as [s |]; simpl; [| discriminate].
  destruct (PyStr.is_empty s); [discriminate | auto].
Qed.

(** The transformer of [hierarchy_conference] before it goes through the
    teams: the conference and the division are registered. *)
Lemma hierarchy_conference_refs (div_name : string)
  (div_alias : option string) (div_uuid : string) (conf : value) (self : t) :
  references_resolve self ->
  wp (hierarchy_conference div_name div_alias div_uuid conf self)
    references_resolve.
Proof.
  intros Hinv. unfold hierarchy_conference.
  destruct (truthy_str (normalize_string (field conf "name")))
    as [conf_name |]; [| exact Hinv].
  unfold wp. apply sat_bind.
  apply sat_mono with (P := fun _ => True);
    [| destruct (truthy_str _); [exact I | intros u; exact I]].
  intros conf_uuid _. apply sat_bind, sat_iter; [exact I |].
  intros teams_list. apply sat_for_each;
    [| intros team s' _ Hs'; now apply team_venue_refs].
  destruct Hinv as ((Hc & Hd & Hv & Ht & Hs & Hp) & Hrest).
  assert (Hinv : references_resolve self) by (repeat split; tauto).
  destruct (existsb _ (conferences _)) eqn:Hconf; fields;
    destruct (existsb _ (divisions self)) eqn:Hdiv; fields;
    (apply (references_resolve_step self); try (now left); try exact Hinv;
     [extended |]);
    unfold maps_resolve; fields; (repeat split; try assumption);
    try (apply values_in_set; [| first [ last_one | now apply existsb_in ]]);
    try (eapply values_in_incl; [eassumption | bigger]).
Qed.

Lemma hierarchy_division_refs (div : value) (self : t) :
  references_resolve self -> wp (hierarchy_division div self) references_resolve.
Proof.
  intros Hinv. unfold hierarchy_division. wp_walk; try exact Hinv;
    (apply sat_for_each; [exact Hinv |];
     intros conf s' _ Hs'; now apply hierarchy_conference_refs).
Qed.

Lemma transform_hierarchy_refs (hierarchy_data : value) (self : t) :
  references_resolve self ->
  wp (transform_hierarchy hierarchy_data self) references_resolve.
Proof.
  intros Hinv. unfold transform_hierarchy. wp_walk; try exact Hinv.
  apply sat_for_each; [exact Hinv |].
  intros div s' _ Hs'. now apply hierarchy_division_refs.
Qed.

Lemma transform_venues_refs (teams_data : value) (self : t) :
  references_resolve self ->
  wp (transform_venues teams_data self) references_resolve.
Proof.
  intros Hinv. unfold transform_venues. wp_walk; try exact Hinv.
  apply sat_for_each; [exact Hinv |].
  intros team s' _ Hs'. now apply team_venue_refs.
Qed.

Lemma find_division_in (conference_id : option string)
  (division_name v : string) (m : list ((option string * string) * string)) :
  find_division conference_id division_name m = Some v ->
  exists k, In (k, v) m.
Proof.
  unfold find_division.
  destruct (find _ m) as [[k v'] |] eqn:Hfind; [| discriminate].
  intros [= <-]. exists k. exact (proj1 (find_some _ _ Hfind)).
Qed.

Lemma teams_team_refs (team : value) (self : t) :
  references_resolve self -> wp (teams_team team self) references_resolve.
Proof.
  intros Hinv. unfold teams_team. wp_walk; try exact Hinv.
  destruct Hinv as ((Hc & Hd & Hv & Ht & Hs & Hp) & Hrest).
  assert (Hinv : references_resolve self) by (repeat split; tauto).
  apply (references_resolve_step self); try (now left); try exact Hinv.
  - extended.
  - unfold maps_resolve. fields. repeat split; try assumption.
    apply values_in_set; [| last_one].
    eapply values_in_incl; [exact Ht | bigger].
  - right. eexists. split; [fields; reflexivity |].
    unfold team_refs. fields. cbn [Team.conference_id Team.division_id
                                    Team.venue_id]. repeat split.
    + destruct (truthy_str (normalize_string
                  (safe_get team ["conference"; "name"] VNone)));
        [| exact I].
      destruct (get_str s0 (conference_id_map self)) eqn:Hget; [| exact I].
      exact (values_in_get _ _ _ _ _ Hc Hget).
    + destruct (truthy_str (normalize_string
                  (safe_get team ["conference"; "name"] VNone)));
        [| exact I].
      destruct (truthy_str (normalize_string
                  (safe_get team ["division"; "name"] VNone)));
        [| exact I].
      destruct (find_division _ _ _) eqn:Hfind; [| exact I].
      destruct (find_division_in _ _ _ _ Hfind) as [k Hk].
      exact (Hd _ _ Hk).
    + destruct (Py.truthy (field team "venue")); [| exact I].
      destruct (truthy_str (normalize_uuid (field (field team "venue") "id")));
        [| exact I].
      destruct (get_str _ (venue_id_map self)) eqn:Hget; [| exact I].
      exact (values_in_get _ _ _ _ _ Hv Hget).
Qed.

Lemma transform_teams_refs (teams_data hierarchy_data : value) (self : t) :
  references_resolve self ->
  wp (transform_teams teams_data hierarchy_data self) references_resolve.
Proof.
  intros Hinv. unfold transform_teams. wp_walk; try exact Hinv.
  apply sat_for_each; [exact Hinv |].
  intros team s' _ Hs'. now apply teams_team_refs.
Qed.

Lemma seasons_season_refs (season : value) (self : t) :
  references_resolve self -> wp (seasons_season season self) references_resolve.
Proof.
  intros Hinv. unfold seasons_season. wp_walk; try exact Hinv;
    destruct Hinv as ((Hc & Hd & Hv & Ht & Hs & Hp) & Hrest);
    assert (Hinv : references_resolve self) by (repeat split; tauto);
    (apply (references_resolve_step self); try (now left); try exact Hinv;
     [extended |]);
    unfold maps_resolve; fields; (repeat split; try assumption);
    (apply values_in_set; [| last_one]);
    (eapply values_in_incl; [eassumption | bigger]).
Qed.

Lemma transform_seasons_refs (seasons_data : value) (self : t) :
  references_resolve self ->
  wp (transform_seasons seasons_data self) references_resolve.
Proof.
  intros Hinv. unfold transform_seasons. wp_walk; try exact Hinv.
  apply sat_for_each; [exact Hinv |].
  intros season s' _ Hs'. now apply seasons_season_refs.
Qed.

Lemma roster_conference_refs (conf_data : value) (self : t) :
  references_resolve self ->
  references_resolve (roster_conference conf_data self).
Proof.
  intros Hinv. unfold roster_conference.
  destruct (Py.truthy conf_data); [| exact Hinv].
  destruct (truthy_str (normalize_string _)); [| exact Hinv].
  destruct (truthy_str (normalize_uuid _)); [| exact Hinv].
  destruct (existsb _ _); [exact Hinv |].
  destruct Hinv as ((Hc & Hd & Hv & Ht & Hs & Hp) & Hrest).
  assert (Hinv : references_resolve self) by (repeat split; tauto).
  apply (references_resolve_step self); try (now left); try exact Hinv.
  - extended.
  - unfold maps_resolve. fields. repeat split; try assumption.
    apply values_in_set; [| last_one].
    eapply values_in_incl; [exact Hc | bigger].
Qed.

Lemma roster_division_refs (div_data conf_data : value) (self : t) :
  references_resolve self ->
  references_resolve (roster_division div_data conf_data self).
Proof.
  intros Hinv. unfold roster_division.
  destruct (Py.truthy div_data && Py.truthy conf_data); [| exact Hinv].
  destruct (truthy_str (normalize_string _)); [| exact Hinv].
  destruct (truthy_str (normalize_uuid _)); [| exact Hinv].
  destruct (existsb _ _); [exact Hinv |].
  destruct Hinv as ((Hc & Hd & Hv & Ht & Hs & Hp) & Hrest).
  assert (Hinv : references_resolve self) by (repeat split; tauto).
  apply (references_resolve_step self); try (now left); try exact Hinv.
  - extended.
  - unfold maps_resolve. fields. repeat split; try assumption.
    apply values_in_set; [| last_one].
    eapply values_in_incl; [exact Hd | bigger].
Qed.

(** One player of a roster whose team is in the teams table. *)
Lemma players_player_refs (team_db_id : string) (player : value) (self : t) :
  references_resolve self /\ In team_db_id (Ids.team self) ->
  wp (players_player team_db_id player self)
    (fun self' => references_resolve self' /\ In team_db_id (Ids.team self')).
Proof.
  intros [Hinv Hteam]. unfold players_player.
  wp_walk; try (split; [exact Hinv | exact Hteam]).
  destruct Hinv as ((Hc & Hd & Hv & Ht & Hs & Hp) & Hrest).
  assert (Hinv : references_resolve self) by (repeat split; tauto).
  split; [| exact Hteam].
  apply (references_resolve_step self); try (now left); try exact Hinv.
  - extended.
  - unfold maps_resolve. fields. repeat split; try assumption.
    apply values_in_set; [| last_one].
    eapply values_in_incl; [exact Hp | bigger].
  - right. eexists. split; [fields; reflexivity |]. exact Hteam.
Qed.

Lemma registered_team (team_api_id team_db_id : string) (self : t) :
  references_resolve self ->
  truthy_str (get_str team_api_id (team_id_map self)) = Some team_db_id ->
  In team_db_id (Ids.team self).
Proof.
  intros ((_ & _ & _ & Ht & _) & _) Hget. apply truthy_str_some in Hget.
  exact (values_in_get _ _ _ _ _ Ht Hget).
Qed.

Lemma players_roster_refs (entry : string * value) (self : t) :
  references_resolve self -> wp (players_roster entry self) references_resolve.
Proof.
  intros Hinv. unfold players_roster. destruct entry as [team_api_id roster].
  unfold wp. apply sat_bind.
  apply sat_mono with (P := references_resolve).
  - intros self1 H1.
    assert (H2 : references_resolve
                   (roster_division (field roster "division")
                      (field roster "conference")
                      (roster_conference (field roster "conference") self1)))
      by now apply roster_division_refs, roster_conference_refs.
    destruct (truthy_str (get_str team_api_id _)) as [team_db_id |]
      eqn:Hteam; [| exact H2].
    apply sat_bind, sat_iter; [exact I |]. intros players_list.
    apply sat_mono with
      (P := fun s => references_resolve s /\ In team_db_id (Ids.team s));
      [tauto |].
    apply sat_for_each;
      [split; [exact H2 | exact (registered_team _ _ _ H2 Hteam)] |].
    intros player s' _ Hs'. now apply players_player_refs.
  - destruct (Py.truthy (field roster "venue")); [| exact Hinv].
    now apply extract_venue_refs.
Qed.

Lemma transform_players_refs (rosters_data : value) (self : t) :
  references_resolve self ->
  wp (transform_players rosters_data self) references_resolve.
Proof.
  intros Hinv. unfold transform_players. wp_walk; try exact Hinv.
  apply sat_for_each; [exact Hinv |].
  intros entry s' _ Hs'. now apply players_roster_refs.
Qed.

Lemma coaches_coach_refs (team_db_id : string) (coach : value) (self : t) :
  references_resolve self /\ In team_db_id (Ids.team self) ->
  wp (coaches_coach team_db_id coach self)
    (fun self' => references_resolve self' /\ In team_db_id (Ids.team self')).
Proof.
  intros [Hinv Hteam]. unfold coaches_coach.
  wp_walk; try (split; [exact Hinv | exact Hteam]);
    (split; [| exact Hteam]);
    (apply (references_resolve_step self); try (now left); try exact Hinv;
     [extended | apply Hinv |]);
    (right; eexists; split; [fields; reflexivity |]; exact Hteam).
Qed.

Lemma transform_coaches_refs (rosters_data : value) (self : t) :
  references_resolve self ->
  wp (transform_coaches rosters_data self) references_resolve.
Proof.
  intros Hinv. unfold transform_coaches. wp_walk; try exact Hinv.
  apply sat_for_each; [exact Hinv |].
  intros [team_api_id roster] s' _ Hs'. unfold coaches_roster.
  destruct (truthy_str (get_str team_api_id _)) as [team_db_id |]
    eqn:Hteam; [| exact Hs'].
  unfold wp. apply sat_bind, sat_iter; [exact I |]. intros coaches_list.
  apply sat_mono with
    (P := fun s => references_resolve s /\ In team_db_id (Ids.team s));
    [tauto |].
  apply sat_for_each;
    [split; [exact Hs' | exact (registered_team _ _ _ Hs' Hteam)] |].
  intros coach s'' _ Hs''. now apply coaches_coach_refs.
Qed.

Ltac unchanged :=
  unfold wp; cbn [sat fst]; auto.

Lemma statistics_player_refs (team_db_id season_db_id : string)
  (player_stat : value) (acc : t * Z) :
  references_resolve (fst acc)
  /\ In team_db_id (Ids.team (fst acc))
  /\ In season_db_id (Ids.season (fst acc)) ->
  wp (statistics_player team_db_id season_db_id player_stat acc)
    (fun acc' =>
       references_resolve (fst acc')
       /\ In team_db_id (Ids.team (fst acc'))
       /\ In season_db_id (Ids.season (fst acc'))).
Proof.
  destruct acc as [self stat_id]. cbn [fst]. intros (Hinv & Hteam & Hseason).
  unfold statistics_player.
  destruct (truthy_str (normalize_uuid (field player_stat "id")))
    as [api_player_id |]; [| unchanged].
  destruct (truthy_str (get_str api_player_id (player_id_map self)))
    as [player_db_id |] eqn:Hplayer; [| unchanged].
  wp_walk. cbn [fst]. split; [| split; assumption].
  apply (references_resolve_step self); try (now left); try exact Hinv.
  - extended.
  - apply Hinv.
  - right. eexists. split; [fields; reflexivity |].
    split; [| split; assumption].
    destruct Hinv as ((_ & _ & _ & _ & _ & Hp) & _).
    apply truthy_str_some in Hplayer.
    exact (values_in_get _ _ _ _ _ Hp Hplayer).
Qed.

Lemma transform_player_statistics_refs (season_stats_data : value)
  (year : Z) (season_type : string) (self : t) :
  references_resolve self ->
  wp (transform_player_statistics season_stats_data year season_type self)
    references_resolve.
Proof.
  intros Hinv. unfold transform_player_statistics.
  destruct (negb (Py.truthy season_stats_data)); [exact Hinv |].
  destruct (truthy_str (dict_get season_key_eqb _ _)) as [season_db_id |]
    eqn:Hseason; [| exact Hinv].
  assert (Hin : In season_db_id (Ids.season self)).
  { destruct Hinv as ((_ & _ & _ & _ & Hs & _) & _).
    apply truthy_str_some in Hseason.
    exact (values_in_get _ _ _ _ _ Hs Hseason). }
  unfold wp. apply sat_bind, sat_items; [exact I |]. intros teams_stats.
  apply sat_bind.
  apply sat_mono with
    (P := fun acc => references_resolve (fst acc)
                     /\ In season_db_id (Ids.season (fst acc)));
    [intros acc Hacc; apply Hacc |].
  apply sat_for_each; [now split |].
  intros [team_api_id stats] acc _ [Hacc Hs]. unfold statistics_team.
  destruct (truthy_str (get_str team_api_id _)) as [team_db_id |]
    eqn:Hteam; [| unchanged].
  apply sat_bind, sat_iter; [exact I |]. intros players_stats.
  apply sat_mono with
    (P := fun acc' => references_resolve (fst acc')
                      /\ In team_db_id (Ids.team (fst acc'))
                      /\ In season_db_id (Ids.season (fst acc')));
    [tauto |].
  apply sat_for_each;
    [split; [exact Hacc |];
     split; [exact (registered_team _ _ _ Hacc Hteam) | exact Hs] |].
  intros player_stat acc' _ Hacc'. now apply statistics_player_refs.
Qed.

Lemma rankings_item_refs (rankings_data : value) (poll_id : string)
  (poll_name season_db_id : option string) (week : option Z)
  (rank_item : value) (acc : t * Z) :
  references_resolve (fst acc)
  /\ opt_in season_db_id (Ids.season (fst acc)) ->
  wp (rankings_item rankings_data poll_id poll_name season_db_id week
        rank_item acc)
    (fun acc' =>
       references_resolve (fst acc')
       /\ opt_in season_db_id (Ids.season (fst acc'))).
Proof.
  destruct acc as [self ranking_id]. cbn [fst]. intros (Hinv & Hseason).
  unfold rankings_item.
  destruct (truthy_str (normalize_uuid (field rank_item "id")))
    as [team_api_id |]; [| unchanged].
  destruct (truthy_str (get_str team_api_id (team_id_map self)))
    as [team_db_id |] eqn:Hteam; [| unchanged].
  wp_walk. cbn [fst]. split; [| exact Hseason].
  apply (references_resolve_step self); try (now left); try exact Hinv.
  - extended.
  - apply Hinv.
  - right. eexists. split; [fields; reflexivity |].
    split; [exact (registered_team _ _ _ Hinv Hteam) | exact Hseason].
Qed.

Lemma transform_rankings_refs (rankings_data : value)
  (rankings_type : string) (year : Z) (week : option Z) (self : t) :
  references_resolve self ->
  wp (transform_rankings rankings_data rankings_type year week self)
    references_resolve.
Proof.
  intros Hinv. unfold transform_rankings.
  destruct (negb (Py.truthy rankings_data)); [exact Hinv |].
  assert (Hin : opt_in (dict_get season_key_eqb (year, "REG")
                          (season_id_map self)) (Ids.season self)).
  { destruct (dict_get _ _ _) eqn:Hget; [| exact I].
    destruct Hinv as ((_ & _ & _ & _ & Hs & _) & _).
    exact (values_in_get _ _ _ _ _ Hs Hget). }
  unfold wp. apply sat_bind.
  apply sat_mono with (P := fun _ => True);
    [| destruct (truthy_str _); [exact I | intros u; exact I]].
  intros poll_id _. apply sat_bind.
  apply sat_mono with (P := fun _ => True);
    [| destruct week; [exact I | apply sat_normalize_int; auto]].
  intros week' _. apply sat_bind, sat_iter; [exact I |].
  intros rankings_list. apply sat_bind.
  eapply sat_mono;
    [| apply sat_for_each with
         (I := fun acc =>
                 references_resolve (fst acc)
                 /\ opt_in (dict_get season_key_eqb (year, "REG")
                              (season_id_map self)) (Ids.season (fst acc)));
       [now split |];
       intros rank_item acc _ Hacc; now apply rankings_item_refs].
  intros acc Hacc. apply Hacc.
Qed.

Lemma transform_schedule_refs (schedule_data : value) (year : Z) (self : t) :
  references_resolve self ->
  wp (transform_schedule schedule_data year self) references_resolve.
Proof.
  intros Hinv. unfold transform_schedule. wp_walk; try exact Hinv.
  apply sat_mono with (P := fun _ => True); [intros acc _; exact Hinv |].
  apply sat_for_each; [exact I |].
  intros item [games game_id] _ _. unfold schedule_item, schedule_game.
  wp_walk; exact I.
Qed.

Lemma stage_refs (all_api_data : value) (key : string)
  (f : value -> t -> prog t) (self : t) :
  (forall data s, references_resolve s -> wp (f data s) references_resolve) ->
  references_resolve self ->
  wp (stage all_api_data key f self) references_resolve.
Proof.
  intros Hf Hinv. unfold stage. wp_walk; [now apply Hf | exact Hinv].
Qed.

Lemma references_resolve_init : references_resolve init.
Proof.
  repeat split; try constructor; intros k v [].
Qed.

(** Whatever the snapshot, the foreign keys of the teams, players,
    coaches, statistics and rankings a run produces are null or the
    identity of a record of the table they refer to. *)
Lemma run_stages_refs (all_api_data : value) (year : Z)
  (season_type : string) :
  wp (run_stages all_api_data year season_type init) references_resolve.
Proof.
  assert (Hinit := references_resolve_init). revert Hinit.
  generalize init. intros self Hinv. unfold run_stages, wp.
  assert (Hteams : forall data s,
             references_resolve s ->
             wp (s1 <- transform_venues data s ;;
                 hierarchy <- Py.get all_api_data "hierarchy" ;;
                 transform_teams data hierarchy s1) references_resolve).
  { intros data s Hs. unfold wp. apply sat_bind.
    apply sat_mono with (P := references_resolve);
      [| now apply transform_venues_refs].
    intros s1 Hs1. wp_walk. now apply transform_teams_refs. }
  assert (Hrosters : forall data s,
             references_resolve s ->
             wp (s1 <- transform_players data s ;;
                 transform_coaches data s1) references_resolve).
  { intros data s Hs. unfold wp. apply sat_bind.
    apply sat_mono with (P := references_resolve);
      [| now apply transform_players_refs].
    intros s1 Hs1. now apply transform_coaches_refs. }
  revert self Hinv.
  repeat (intros self Hinv; apply sat_bind;
          apply sat_mono with (P := references_resolve);
          [| apply stage_refs;
             [first [ exact Hteams | exact Hrosters
                    | intros; now apply transform_hierarchy_refs
                    | intros; now apply transform_seasons_refs
                    | intros; now apply transform_player_statistics_refs
                    | intros; now apply transform_rankings_refs ]
             | exact Hinv]];
          clear self Hinv).
  intros self Hinv. apply stage_refs; [| exact Hinv].
  intros. now apply transform_schedule_refs.
Qed.

Lemma divisions_linked_venue (venue : value) (self : t) :
  divisions_linked self -> wp (_extract_venue venue self) divisions_linked.
Proof. intros Hinv. unfold _extract_venue. wp_walk; exact Hinv. Qed.

Lemma hierarchy_conference_linked (div_name : string)
  (div_alias : option string) (div_uuid : string) (conf : value) (self : t) :
  divisions_linked self ->
  wp (hierarchy_conference div_name div_alias div_uuid conf self)
    divisions_linked.
Proof.
  intros Hinv. unfold hierarchy_conference.
  destruct (truthy_str (normalize_string (field conf "name")))
    as [conf_name |]; [| exact Hinv].
  unfold wp. apply sat_bind.
  apply sat_mono with (P := fun _ => True);
    [| destruct (truthy_str _); [exact I | intros u; exact I]].
  intros conf_uuid _. apply sat_bind, sat_iter; [exact I |].
  intros teams_list. apply sat_for_each.
  2:{ intros team s' _ Hs'. unfold team_venue. wp_walk; try exact Hs'.
      now apply divisions_linked_venue. }
  unfold divisions_linked in *. fields.
  destruct (existsb _ (conferences self)) eqn:Hconf; fields;
    destruct (existsb _ (divisions self)) eqn:Hdiv; fields;
    try exact Hinv;
    try (apply Forall_app; split;
         [| constructor; [| constructor]; cbn;
            first [ last_one | now apply existsb_in ]]);
    try (eapply Forall_impl; [| exact Hinv]; intros d Hd;
         eapply opt_in_incl; [exact Hd | bigger]).
Qed.

(** The hierarchy links every division it appends to a conference that
    is in the table: it is the roster branch alone that does not. *)
Lemma transform_hierarchy_divisions_linked (hierarchy_data : value)
  (self : t) :
  divisions_linked self ->
  wp (transform_hierarchy hierarchy_data self) divisions_linked.
Proof.
  intros Hinv. unfold transform_hierarchy. wp_walk; try exact Hinv.
  apply sat_for_each; [exact Hinv |]. clear self Hinv.
  intros div self _ Hinv. unfold hierarchy_division.
  wp_walk; try exact Hinv;
    (apply sat_for_each; [exact Hinv |];
     intros conf s' _ Hs'; now apply hierarchy_conference_linked).
Qed.

(** Every run: the same, read off the outcome. *)
Corollary run_references_resolve (all_api_data : value) (year : Z)
  (season_type : string) (source : nat -> string) (self' : t) (n : nat) :
  run (run_stages all_api_data year season_type init) source 0
  = (Returned self', n) ->
  references_resolve self'.
Proof. apply wp_returned, run_stages_refs. Qed.

(** C1 (defect). A roster whose conference has an identifier and no name
    leaves a division that refers to a conference the table does not
    hold: the roster branch copies the identifier of the conference into
    the division without the conference having been registered. *)
Theorem roster_division_dangling_conference :
  exists self',
    run_stages roster_with_unnamed_conference 2025 "REG" init = Ret self'
    /\ divisions self' = [Division.mk uuid_b "East" None (Some uuid_a)]
    /\ conferences self' = []
    /\ ~ divisions_linked self'.
Proof.
  eexists. repeat split. intros Hlinked.
  apply Forall_inv in Hlinked. exact Hlinked.
Qed.
End References.

(** * Further properties of the helpers *)

Section SafeGetNested.
Import Helpers.

(** X1. Two calls of [safe_get], the second on the result of the first,
    read what one call with the two paths joined reads, provided the
    default handed to the first call holds nothing under the second path
    (as [None] and the empty dictionary do for a path that is not empty).
    The transformers rely on it when they fetch an object and then a
    field of it. *)
Theorem safe_get_nested (data : value) (outer inner : list string)
  (between default : value) :
  safe_get between inner default = default ->
  safe_get (safe_get data outer between) inner default
  = safe_get data (outer ++ inner)%list default.
Proof.
  intros Hbetween.
  assert (Hnone : safe_get VNone inner default = default)
    by (destruct inner; reflexivity).
  revert data. induction outer as [| key outer IH]; intros data.
  - destruct data; simpl; try reflexivity. now rewrite Hbetween, Hnone.
  - destruct data; simpl; try exact Hbetween.
    destruct (dict_get String.eqb key entries) as [current |];
      [apply IH | exact Hbetween].
Qed.
Lemma safe_get_nested_witness :
  safe_get (safe_get snapshot_with_ids ["teams"] VNone) ["teams"] (VList [])
  = safe_get snapshot_with_ids ["teams"; "teams"] (VList []).
Proof.
  apply (safe_get_nested snapshot_with_ids ["teams"] ["teams"] VNone
           (VList [])).
  reflexivity.
Defined.
End SafeGetNested.

Section StringFacts.
Import PyStr.

Lemma append_nil_r (s : string) : s ++ "" = s.
Proof. induction s as [| c r IH]; simpl; [reflexivity | now rewrite IH]. Qed.

Lemma append_assoc (a b c : string) : (a ++ b) ++ c = a ++ (b ++ c).
Proof. induction a as [| x a IH]; simpl; [reflexivity | now rewrite IH]. Qed.

Lemma length_append (a b : string) :
  String.length (a ++ b) = (String.length a + String.length b)%nat.
Proof. induction a as [| x a IH]; simpl; [reflexivity | now rewrite IH]. Qed.

Lemma forallb_str_app (p : ascii -> bool) (a b : string) :
  forallb_str p (a ++ b) = forallb_str p a && forallb_str p b.
Proof.
  induction a as [| x a IH]; simpl; [reflexivity |].
  now rewrite IH, andb_assoc.
Qed.

Lemma existsb_str_app (p : ascii -> bool) (a b : string) :
  existsb_str p (a ++ b) = existsb_str p a || existsb_str p b.
Proof.
  induction a as [| x a IH]; simpl; [reflexivity |].
  now rewrite IH, orb_assoc.
Qed.

(** No character of [s] is in [q] when all are in [p] and the two sets are
    disjoint. *)
Lemma existsb_str_disjoint (p q : ascii -> bool) (s : string) :
  (forall c, p c = true -> q c = false) ->
  forallb_str p s = true -> existsb_str q s = false.
Proof.
  intros Hpq. induction s as [| c r IH]; simpl; [reflexivity |].
  intros H. apply andb_prop in H as [Hc Hr].
  now rewrite (Hpq c Hc), IH.
Qed.

Section Strip.
Context (p : ascii -> bool).

Lemma lstrip_by_head (s : string) :
  match lstrip_by p s with
  | EmptyString => True
  | String c _ => p c = false
  end.
Proof.
  induction s as [| c r IH]; simpl; [exact I |].
  destruct (p c) eqn:Hc; [exact IH | exact Hc].
Qed.

Lemma rstrip_by_idem (s : string) :
  rstrip_by p (rstrip_by p s) = rstrip_by p s.
Proof.
  induction s as [| c r IH]; simpl; [reflexivity |].
  destruct (is_empty (rstrip_by p r) && p c) eqn:H; [reflexivity |].
  simpl. now rewrite IH, H.
Qed.

Lemma strip_by_idem (s : string) :
  strip_by p (strip_by p s) = strip_by p s.
Proof.
  unfold strip_by. assert (H := lstrip_by_head s).
  destruct (lstrip_by p s) as [| c r]; [reflexivity |].
  simpl. rewrite H, andb_false_r. simpl. rewrite H.
  simpl. rewrite rstrip_by_idem. now rewrite H, andb_false_r.
Qed.

Lemma lstrip_by_none (s : string) :
  existsb_str p s = false -> lstrip_by p s = s.
Proof.
  destruct s as [| c r]; simpl; [reflexivity |].
  intros H. apply orb_false_elim in H as [-> _]. reflexivity.
Qed.

Lemma rstrip_by_none (s : string) :
  existsb_str p s = false -> rstrip_by p s = s.
Proof.
  induction s as [| c r IH]; simpl; [reflexivity |].
  intros H. apply orb_false_elim in H as [Hc Hr].
  now rewrite (IH Hr), Hc, andb_false_r.
Qed.

Lemma strip_by_none (s : string) :
  existsb_str p s = false -> strip_by p s = s.
Proof.
  intros H. unfold strip_by. rewrite (lstrip_by_none s H).
  now apply rstrip_by_none.
Qed.
End Strip.
End StringFacts.

Section NormalizeString.
Import PyStr Helpers.

Lemma nonempty_some (x s : string) :
  nonempty x = Some s -> x = s /\ s <> "".
Proof.
  unfold nonempty. destruct x; simpl; [discriminate |].
  intros [= <-]. split; [reflexivity | discriminate].
Qed.

(** X2. A string [normalize_string] returns is never empty and carries
    no white space at either end; normalising it again returns it
    unchanged. *)
Theorem normalize_string_trimmed (v : value) (s : string) :
  normalize_string v = Some s ->
  s <> "" /\ strip s = s /\ normalize_string (VStr s) = Some s.
Proof.
  intros H.
  assert (Hs : exists x, nonempty (strip x) = Some s).
  { destruct v; simpl in H; try discriminate; eauto. }
  destruct Hs as [x Hx]. apply nonempty_some in Hx as [Hx Hne].
  assert (Hstrip : strip s = s).
  { rewrite <- Hx. apply strip_by_idem. }
  repeat split; [exact Hne | exact Hstrip |].
  simpl. rewrite Hstrip. destruct s; [congruence | reflexivity].
Qed.

Lemma normalize_string_trimmed_witness :
  normalize_string (VStr "  Ohio State ") = Some "Ohio State"
  /\ strip "Ohio State" = "Ohio State".
Proof.
  assert (H : normalize_string (VStr "  Ohio State ") = Some "Ohio State")
    by reflexivity.
  split; [exact H |].
  exact (proj1 (proj2 (normalize_string_trimmed _ _ H))).
Defined.
End NormalizeString.

Ltac each_char c :=
  destruct c as [[] [] [] [] [] [] [] []].

Section Numerals.
Import PyStr PyInt.

Lemma isdecimal_char (c : ascii) :
  isdecimal c = true ->
  is_underscore c = false /\ isspace_num c = false /\ isspace c = false
  /\ isdigit_char c = true /\ Ascii.eqb c "-" = false
  /\ Ascii.eqb c "'" = false /\ Ascii.eqb c dquote = false
  /\ digit_value c = Some (code c - 48) /\ (code c - 48 <? 10) = true.
Proof.
  each_char c; vm_compute; intros H; try discriminate H;
    repeat split; reflexivity.
Qed.

Lemma superscript_char (c : ascii) :
  isdigit_char c = true -> isdecimal c = false ->
  is_underscore c = false /\ isspace_num c = false /\ digit_value c = None.
Proof.
  each_char c; vm_compute; intros H1 H2; try discriminate H1;
    try discriminate H2; repeat split; reflexivity.
Qed.

Lemma scan_decimal (s : string) (acc : Z) (seen : bool) :
  forallb_str isdecimal s = true ->
  scan 10 s acc seen false
  = if seen || negb (is_empty s) then Some (digits_value s acc, "") else None.
Proof.
  revert acc seen. induction s as [| c r IH]; intros acc seen Hs.
  - simpl. destruct seen; reflexivity.
  - simpl in Hs. apply andb_prop in Hs as [Hc Hr].
    destruct (isdecimal_char c Hc) as (Hu & _ & _ & _ & _ & _ & _ & Hd & Hlt).
    cbn [scan]. rewrite Hu, Hd, Hlt, (IH _ _ Hr). simpl.
    now rewrite orb_true_r.
Qed.

Lemma scan_superscript (s : string) (acc : Z) (seen : bool) :
  forallb_str isdigit_char s = true -> forallb_str isdecimal s = false ->
  match scan 10 s acc seen false with
  | Some (_, rest) => is_empty (lstrip_by isspace_num rest) = false
  | None => True
  end.
Proof.
  revert acc seen. induction s as [| c r IH]; intros acc seen Hs Hn.
  - discriminate Hn.
  - simpl in Hs, Hn. apply andb_prop in Hs as [Hc Hr].
    destruct (isdecimal c) eqn:Hdec.
    + destruct (isdecimal_char c Hdec)
        as (Hu & _ & _ & _ & _ & _ & _ & Hd & Hlt).
      cbn [scan]. rewrite Hu, Hd, Hlt. apply IH; assumption.
    + destruct (superscript_char c Hc Hdec) as (Hu & Hsp & Hd).
      cbn [scan]. rewrite Hu, Hd.
      destruct seen; [| exact I]. simpl. now rewrite Hsp.
Qed.

(** The digits counted in a run of ASCII digits are its characters. *)
Lemma count_digits_decimal (s : string) :
  forallb_str isdecimal s = true ->
  count_digits 10 s = Z.of_nat (String.length s).
Proof.
  induction s as [| c r IH]; [reflexivity |].
  cbn [forallb_str]. intros Hs. apply andb_prop in Hs as [Hc Hr].
  destruct (isdecimal_char c Hc) as (Hu & _ & _ & _ & _ & _ & _ & Hd & Hlt).
  cbn [count_digits String.length]. rewrite Hu, Hd, Hlt, (IH Hr). lia.
Qed.

(** What [int] does with a text that starts with a digit of the digits
    [str.isdigit] accepts: no white space, sign or prefix is skipped. *)
Lemma parse_digit_head (c : ascii) (r : string) :
  isdigit_char c = true ->
  parse 10 (String c r)
  = match scan 10 (String c r) 0 false false with
    | Some (n, rest) =>
        if is_empty (lstrip_by isspace_num rest)
        then if count_digits 10 (String c r) <=? max_str_digits
             then Some n else None
        else None
    | None => None
    end.
Proof.
  intros Hc. unfold parse.
  each_char c; try discriminate Hc;
    (destruct r as [| x r]; reflexivity).
Qed.

(** [int] reads a run of ASCII digits as its number, up to the limit on
    the digits, and refuses a longer one. *)
Lemma parse_digits (s : string) :
  numeral s = true ->
  parse 10 s
  = if Z.of_nat (String.length s) <=? max_str_digits
    then Some (decimal_value s) else None.
Proof.
  unfold numeral. destruct s as [| c r]; [discriminate |].
  cbn [is_empty negb andb]. intros Hs.
  assert (Hscan := scan_decimal (String c r) 0 false Hs).
  cbn [is_empty negb orb] in Hscan.
  rewrite <- (count_digits_decimal _ Hs).
  cbn [forallb_str] in Hs. apply andb_prop in Hs as [Hc _].
  destruct (isdecimal_char c Hc) as (_ & _ & _ & Hd & _).
  rewrite (parse_digit_head c r Hd), Hscan.
  reflexivity.
Qed.

Lemma parse_numeral (s : string) :
  numeral s = true -> Z.of_nat (String.length s) <= max_str_digits ->
  parse 10 s = Some (decimal_value s).
Proof.
  intros Hs Hlen. rewrite (parse_digits s Hs).
  apply Z.leb_le in Hlen. now rewrite Hlen.
Qed.

Lemma parse_long (s : string) :
  numeral s = true -> max_str_digits < Z.of_nat (String.length s) ->
  parse 10 s = None.
Proof.
  intros Hs Hlen. rewrite (parse_digits s Hs).
  apply Z.leb_gt in Hlen. now rewrite Hlen.
Qed.

Lemma parse_superscript (s : string) :
  forallb_str isdigit_char s = true -> forallb_str isdecimal s = false ->
  parse 10 s = None.
Proof.
  intros Hs Hn. assert (Hscan := scan_superscript s 0 false Hs Hn).
  destruct s as [| c r]; [discriminate |].
  cbn [forallb_str] in Hs. apply andb_prop in Hs as [Hc Hr].
  rewrite (parse_digit_head c r Hc).
  destruct (scan _ _ _ _ _) as [[n rest] |]; [| reflexivity].
  now rewrite Hscan.
Qed.
End Numerals.

Section HeightFacts.
Import PyStr Helpers.

Lemma length_repeat_char (c : ascii) (n : nat) :
  String.length (repeat_char c n) = n.
Proof. induction n as [| n IH]; simpl; [reflexivity | now rewrite IH]. Qed.

Lemma repeat_char_numeral (c : ascii) (n : nat) :
  isdecimal c = true -> numeral (repeat_char c (S n)) = true.
Proof.
  intros Hc. unfold numeral. cbn [repeat_char is_empty negb andb].
  change (String c (repeat_char c n)) with (repeat_char c (S n)).
  induction (S n) as [| m IH]; simpl; [reflexivity | now rewrite Hc].
Qed.

Lemma strip_repeat_char (c : ascii) (n : nat) :
  isspace c = false -> strip (repeat_char c n) = repeat_char c n.
Proof.
  intros Hc. apply strip_by_none.
  induction n as [| n IH]; simpl; [reflexivity | now rewrite Hc].
Qed.

Lemma isdigit_numeral_back (s : string) :
  numeral s = true -> isdigit s = true.
Proof.
  unfold numeral, isdigit. intros H. apply andb_prop in H as [-> Hs].
  simpl. induction s as [| c r IH]; simpl; [reflexivity |].
  simpl in Hs. apply andb_prop in Hs as [Hc Hr].
  destruct (isdecimal_char c Hc) as (_ & _ & _ & -> & _). now apply IH.
Qed.

Lemma isdigit_numeral (s : string) :
  isdigit s = true -> forallb_str isdecimal s = true -> numeral s = true.
Proof.
  unfold isdigit, numeral. intros H ->. apply andb_prop in H as [-> _].
  reflexivity.
Qed.

(** X4. Among the strings of code points below 256,
    [convert_height_to_inches] raises exactly when its argument is a
    string whose trimmed text passes [str.isdigit] and which [int] then
    refuses: because the text holds a superscript digit, or because it is
    longer than the 4300 digits [int] reads. The exception is ValueError.
    On every other value it returns. *)
Theorem convert_height_raises (v : value) (e : exn) :
  convert_height_to_inches v = Raise e <->
  e = ValueError
  /\ exists raw,
       v = VStr raw /\ isdigit (strip raw) = true
       /\ (forallb_str isdecimal (strip raw) = false
           \/ PyInt.max_str_digits < Z.of_nat (String.length (strip raw))).
Proof.
  split.
  - destruct v; simpl; try discriminate.
    destruct (isdigit (strip s)) eqn:Hd.
    + destruct (PyInt.parse 10 (strip s)) eqn:Hp; [discriminate |].
      intros [= <-]. split; [reflexivity |]. exists s. repeat split; auto.
      destruct (forallb_str isdecimal (strip s)) eqn:Hdec; [| now left].
      right. rewrite (parse_digits _ (isdigit_numeral _ Hd Hdec)) in Hp.
      destruct (Z.leb_spec (Z.of_nat (String.length (strip s)))
                  PyInt.max_str_digits); [discriminate Hp | assumption].
    + destruct (if contains "-" (strip s) then _ else _) as [[a b] |];
        [discriminate |].
      destruct (_ || _); [| discriminate].
      destruct (match_feet_inches (strip s)) as [[a b] |]; discriminate.
  - intros [-> (raw & -> & Hd & Hwhy)]. simpl. rewrite Hd.
    destruct (forallb_str isdecimal (strip raw)) eqn:Hdec.
    + destruct Hwhy as [Hno | Hlong]; [discriminate Hno |].
      now rewrite (parse_long _ (isdigit_numeral _ Hd Hdec) Hlong).
    + unfold isdigit in Hd. apply andb_prop in Hd as [_ Hd].
      now rewrite (parse_superscript _ Hd Hdec).
Qed.

Lemma convert_height_raises_witness :
  convert_height_to_inches (VStr (repeat_char "1" 4301)) = Raise ValueError
  /\ convert_height_to_inches (VStr superscript_two) = Raise ValueError.
Proof.
  split; apply (proj2 (convert_height_raises _ _));
    (split; [reflexivity |]); eexists; (split; [reflexivity |]).
  - rewrite (strip_repeat_char "1" 4301 eq_refl), length_repeat_char.
    split; [| now right].
    apply isdigit_numeral_back, (repeat_char_numeral "1" 4300). reflexivity.
  - split; [reflexivity | now left].
Defined.

Lemma split_on_absent (sep : ascii) (s : string) :
  contains sep s = false -> split_on sep s = [s].
Proof.
  unfold contains. induction s as [| c r IH]; simpl; [reflexivity |].
  intros H. apply orb_false_elim in H as [Hc Hr].
  rewrite Ascii.eqb_sym, Hc, (IH Hr). reflexivity.
Qed.

Lemma split_on_app (sep : ascii) (a r : string) :
  contains sep a = false ->
  split_on sep (a ++ String sep r) = a :: split_on sep r.
Proof.
  unfold contains. induction a as [| c a IH]; simpl.
  - intros _. now rewrite Ascii.eqb_refl.
  - intros H. apply orb_false_elim in H as [Hc Ha].
    rewrite Ascii.eqb_sym, Hc, (IH Ha). reflexivity.
Qed.

Lemma take_digits_app (a rest : string) :
  forallb_str isdecimal a = true ->
  match rest with
  | String c _ => isdecimal c = false
  | EmptyString => True
  end ->
  take_digits (a ++ rest) = (a, rest).
Proof.
  intros Ha Hrest. induction a as [| c a IH]; simpl.
  - destruct rest as [| c r]; [reflexivity |]. simpl. now rewrite Hrest.
  - simpl in Ha. apply andb_prop in Ha as [Hc Ha].
    now rewrite Hc, (IH Ha).
Qed.

Lemma existsb_str_or (p q : ascii -> bool) (s : string) :
  existsb_str (fun c => p c || q c) s = false ->
  existsb_str p s = false /\ existsb_str q s = false.
Proof.
  induction s as [| c r IH]; simpl; [auto |].
  intros H. apply orb_false_elim in H as [Hc Hr].
  apply orb_false_elim in Hc as [-> ->]. simpl. now apply IH.
Qed.

Lemma numeral_chars (s : string) :
  numeral s = true ->
  s <> "" /\ forallb_str isdecimal s = true
  /\ existsb_str isspace s = false /\ contains "-" s = false
  /\ contains "'" s = false /\ contains dquote s = false.
Proof.
  unfold numeral, contains. intros H. apply andb_prop in H as [Hne Hs].
  split; [now destruct s |]. split; [exact Hs |].
  repeat split; apply (existsb_str_disjoint isdecimal); try exact Hs;
    intros c Hc; destruct (isdecimal_char c Hc)
      as (_ & _ & H1 & _ & H2 & H3 & H4 & _);
    rewrite ?(Ascii.eqb_sym _ c); assumption.
Qed.

(** Feet and inches that are numerals: their total when [int] reads
    both, nothing when one of them is longer than [int] reads. *)
Lemma feet_inches_numerals (feet inches : string) :
  numeral feet = true -> numeral inches = true ->
  feet_inches feet inches = height_total feet inches.
Proof.
  intros Hf Hi. unfold feet_inches, height_total.
  rewrite (parse_digits _ Hf), (parse_digits _ Hi).
  destruct (_ <=? _); [| reflexivity].
  destruct (_ <=? _); reflexivity.
Qed.

(** X5. Heights in the three documented notations convert by the
    documented arithmetic, as far as [int] reads their digits: a run of
    at most 4300 digits is its number; feet and inches with a hyphen or a
    quote between them are twelve times the feet plus the inches, and
    nothing when the feet or the inches are more digits than [int] reads.
    In the quoted notation whatever follows the inches is ignored, as
    long as it holds no white space or hyphen and does not go on with a
    digit. *)
Theorem convert_height_feet_inches (feet inches : string) :
  numeral feet = true -> numeral inches = true ->
  (Z.of_nat (String.length inches) <= PyInt.max_str_digits ->
   convert_height_to_inches (VStr inches) = Ret (VInt (decimal_value inches)))
  /\ convert_height_to_inches (VStr (feet ++ "-" ++ inches))
     = Ret (height_total feet inches)
  /\ forall (q : ascii) (tail : string),
       q = "'"%char \/ q = dquote -> trailing tail = true ->
       convert_height_to_inches (VStr (feet ++ String q (inches ++ tail)))
       = Ret (height_total feet inches).
Proof.
  intros Hf Hi.
  destruct (numeral_chars _ Hf) as (Hfne & Hfd & Hfs & Hfh & Hfq & Hfdq).
  destruct (numeral_chars _ Hi) as (Hine & Hid & His & Hih & Hiq & Hidq).
  assert (Hdigit : forall a c r,
             isdigit_char c = false -> isdigit (a ++ String c r) = false).
  { intros a c r Hc. unfold isdigit. rewrite forallb_str_app. simpl.
    rewrite Hc. now rewrite andb_false_r, andb_false_r. }
  split; [| split].
  - intros Hlen. cbn [convert_height_to_inches]. unfold strip.
    rewrite (strip_by_none _ _ His).
    assert (Hd : isdigit inches = true).
    { unfold numeral in Hi. apply andb_prop in Hi as [Hne Hall].
      unfold isdigit. rewrite Hne. simpl.
      clear - Hall. induction inches as [| c r IH]; simpl; [reflexivity |].
      simpl in Hall. apply andb_prop in Hall as [Hc Hr].
      destruct (isdecimal_char c Hc) as (_ & _ & _ & -> & _).
      now apply IH. }
    now rewrite Hd, (parse_numeral _ Hi Hlen).
  - change ("-" ++ inches) with (String "-" inches).
    cbn [convert_height_to_inches]. unfold strip.
    rewrite strip_by_none.
    2:{ rewrite existsb_str_app, Hfs. simpl. exact His. }
    rewrite Hdigit by reflexivity.
    assert (Hc : contains "-" (feet ++ String "-" inches) = true).
    { unfold contains. rewrite existsb_str_app. simpl. apply orb_true_r. }
    rewrite Hc.
    rewrite (split_on_app _ _ _ Hfh), (split_on_absent _ _ Hih).
    fold strip. unfold strip.
    rewrite (strip_by_none _ _ Hfs), (strip_by_none _ _ His).
    now rewrite feet_inches_numerals.
  - intros q tail Hq Htail. unfold trailing in Htail.
    apply andb_prop in Htail as [Hno Hhead].
    apply negb_true_iff, existsb_str_or in Hno as [Hts Hth].
    assert (Hqs : isspace q = false /\ isdigit_char q = false
                  /\ Ascii.eqb "-" q = false /\ isdecimal q = false
                  /\ (Ascii.eqb q "'" || Ascii.eqb q dquote) = true
                  /\ (Ascii.eqb "'" q || Ascii.eqb dquote q) = true).
    { destruct Hq as [-> | ->]; repeat split; reflexivity. }
    destruct Hqs as (Hq1 & Hq2 & Hq3 & Hq4 & Hq5 & Hq6).
    cbn [convert_height_to_inches]. unfold strip. rewrite strip_by_none.
    2:{ rewrite existsb_str_app, Hfs. simpl. rewrite Hq1.
        rewrite existsb_str_app, His. exact Hts. }
    rewrite Hdigit by exact Hq2.
    assert (Hc : contains "-" (feet ++ String q (inches ++ tail)) = false).
    { unfold contains in *. rewrite existsb_str_app, Hfh.
      cbn [existsb_str orb].
      rewrite Hq3, existsb_str_app, Hih. cbn [orb].
      erewrite existsb_str_disjoint
        with (p := fun c => negb (Ascii.eqb c "-")); [reflexivity | |].
      - intros c Hc. rewrite Ascii.eqb_sym.
        now apply negb_true_iff in Hc.
      - clear - Hth. induction tail as [| c r IH]; simpl; [reflexivity |].
        simpl in Hth. apply orb_false_elim in Hth as [-> Hr].
        simpl. now apply IH. }
    rewrite Hc.
    assert (Hquote : (contains "'" (feet ++ String q (inches ++ tail))
                      || contains dquote (feet ++ String q (inches ++ tail)))
                     = true).
    { unfold contains. rewrite !existsb_str_app. cbn [existsb_str].
      destruct (Ascii.eqb "'" q); cbn [orb].
      - rewrite orb_true_r. reflexivity.
      - cbn [orb] in Hq6. rewrite Hq6. cbn [orb].
        now rewrite orb_true_r, orb_true_r. }
    rewrite Hquote. unfold match_feet_inches.
    rewrite (take_digits_app feet (String q (inches ++ tail)) Hfd Hq4).
    destruct feet as [| f0 feet']; [congruence |]. cbn [is_empty].
    rewrite Hq5.
    rewrite (take_digits_app inches tail Hid).
    2:{ destruct tail; [exact I | now apply negb_true_iff]. }
    destruct inches as [| i0 inches']; [congruence |]. cbn [is_empty].
    now rewrite feet_inches_numerals.
Qed.

Lemma convert_height_feet_inches_witness :
  convert_height_to_inches (VStr (repeat_char "1" 4300))
  = Ret (VInt (decimal_value (repeat_char "1" 4300)))
  /\ convert_height_to_inches (VStr ("6" ++ "-" ++ "3")) = Ret (VInt 75)
  /\ convert_height_to_inches (VStr ("6" ++ String "'" ("3" ++ "ft")))
     = Ret (VInt 75)
  /\ convert_height_to_inches (VStr (repeat_char "1" 4301 ++ "-" ++ "3"))
     = Ret VNone.
Proof.
  assert (Hlong : forall n, numeral (repeat_char "1" (S n)) = true).
  { intros n. apply (repeat_char_numeral "1" n). reflexivity. }
  split; [| split; [| split]].
  - apply (proj1 (convert_height_feet_inches "6" _ eq_refl (Hlong 4299%nat))).
    rewrite length_repeat_char. discriminate.
  - exact (proj1 (proj2 (convert_height_feet_inches "6" "3" eq_refl eq_refl))).
  - exact (proj2 (proj2 (convert_height_feet_inches "6" "3" eq_refl eq_refl))
             "'"%char "ft" (or_introl eq_refl) eq_refl).
  - rewrite (proj1 (proj2 (convert_height_feet_inches _ "3" (Hlong 4300%nat)
                             eq_refl))).
    unfold height_total. now rewrite length_repeat_char.
Defined.

End HeightFacts.

Section CanonicalUuid.
Import PyStr PyInt Helpers.

Lemma is_hex_char (c : ascii) :
  is_hex c = true ->
  is_underscore c = false /\ isspace_num c = false /\ Py.is_brace c = false
  /\ Ascii.eqb "u" c = false /\ Ascii.eqb "-" c = false
  /\ Ascii.eqb c "x" = false /\ Ascii.eqb c "X" = false
  /\ exists d, digit_value c = Some d /\ (d <? 16) = true /\ 0 <= d < 16.
Proof.
  each_char c; vm_compute; intros H; try discriminate H;
    repeat split; try reflexivity;
    eexists; (split; [reflexivity |]); vm_compute; repeat split;
    discriminate.
Qed.

Lemma hex_run_spec (n : nat) (s r : string) :
  hex_run n s = Some r ->
  exists a, s = a ++ r /\ String.length a = n /\ forallb_str is_hex a = true.
Proof.
  revert s. induction n as [| n IH]; intros s; simpl.
  - intros [= ->]. now exists "".
  - destruct s as [| c s]; [discriminate |].
    destruct (is_hex c) eqn:Hc; [| discriminate].
    intros H. destruct (IH _ H) as (a & -> & Hlen & Ha).
    exists (String c a). simpl. now rewrite Hlen, Hc, Ha.
Qed.

Lemma hyphen_spec (s r : string) : hyphen s = Some r -> s = String "-" r.
Proof.
  destruct s as [| c s]; simpl; [discriminate |].
  destruct (Ascii.eqb_spec c "-") as [-> |]; [| discriminate].
  now intros [= ->].
Qed.

Lemma remove_all_absent (a : ascii) (old s : string) :
  contains a s = false -> remove_all (String a old) s = s.
Proof.
  unfold remove_all, contains. generalize (String.length s) as fuel.
  intros fuel. revert s. induction fuel as [| fuel IH]; intros s;
    [reflexivity |].
  destruct s as [| c r]; [reflexivity |]. cbn [existsb_str].
  intros H. apply orb_false_elim in H as [Hc Hr].
  cbn [remove_all_fuel remove_prefix]. now rewrite Hc, (IH _ Hr).
Qed.

Lemma remove_all_hyphens (s : string) : remove_all "-" s = unhyphened s.
Proof.
  unfold remove_all.
  assert (H : forall fuel s, (String.length s <= fuel)%nat ->
                             remove_all_fuel fuel "-" s = unhyphened s).
  { induction fuel as [| fuel IH]; intros [| c r] Hlen;
      cbn [String.length] in Hlen; try reflexivity; try lia.
    cbn [remove_all_fuel remove_prefix unhyphened].
    destruct (Ascii.eqb "-" c); rewrite IH by lia; reflexivity. }
  now apply H.
Qed.

Lemma unhyphened_app (a b : string) :
  unhyphened (a ++ b) = unhyphened a ++ unhyphened b.
Proof.
  induction a as [| c a IH]; cbn [append unhyphened]; [reflexivity |].
  destruct (Ascii.eqb "-" c); cbn [append]; now rewrite IH.
Qed.

Lemma unhyphened_hex (a : string) :
  forallb_str is_hex a = true -> unhyphened a = a.
Proof.
  induction a as [| c a IH]; cbn [forallb_str unhyphened]; [reflexivity |].
  intros H. apply andb_prop in H as [Hc Ha].
  destruct (is_hex_char c Hc) as (_ & _ & _ & _ & -> & _).
  now rewrite (IH Ha).
Qed.

Lemma scan_hex (s : string) (acc : Z) (seen : bool) :
  forallb_str is_hex s = true -> 0 <= acc ->
  exists n,
    scan 16 s acc seen false
    = (if seen || negb (is_empty s) then Some (n, "") else None)
    /\ 0 <= n < (acc + 1) * 16 ^ Z.of_nat (String.length s).
Proof.
  revert acc seen. induction s as [| c r IH]; intros acc seen Hs Hacc.
  - exists acc. simpl. split; [now destruct seen | lia].
  - simpl in Hs. apply andb_prop in Hs as [Hc Hr].
    destruct (is_hex_char c Hc)
      as (Hu & _ & _ & _ & _ & _ & _ & d & Hd & Hlt & Hrange).
    destruct (IH (acc * 16 + d) true Hr ltac:(lia)) as (n & Hn & Hbound).
    exists n. cbn [scan]. rewrite Hu, Hd, Hlt, Hn. simpl orb.
    cbn [is_empty negb]. rewrite orb_true_r. split; [reflexivity |].
    cbn [String.length]. rewrite Nat2Z.inj_succ, Z.pow_succ_r by lia. nia.
Qed.

Lemma parse_hex (s : string) :
  forallb_str is_hex s = true -> s <> "" ->
  exists n, parse 16 s = Some n
            /\ 0 <= n < 16 ^ Z.of_nat (String.length s).
Proof.
  intros Hs Hne. destruct s as [| c r]; [congruence |].
  destruct (scan_hex (String c r) 0 false Hs ltac:(lia)) as (n & Hn & Hb).
  cbn [is_empty negb orb] in Hn. exists n. split; [| lia].
  assert (Hr : match r with
               | String x _ => (Ascii.eqb x "x" || Ascii.eqb x "X") = false
               | EmptyString => True
               end).
  { destruct r as [| x r]; [exact I |]. simpl in Hs.
    apply andb_prop in Hs as [_ Hs]. apply andb_prop in Hs as [Hx _].
    destruct (is_hex_char x Hx) as (_ & _ & _ & _ & _ & -> & -> & _).
    reflexivity. }
  simpl in Hs. apply andb_prop in Hs as [Hc _].
  destruct (is_hex_char c Hc) as (_ & Hsp & _).
  unfold parse. cbn [lstrip_by]. rewrite Hsp.
  each_char c; try discriminate Hc;
    unfold skip_base_prefix; cbv beta iota zeta;
    (destruct r as [| x r];
     [ vm_compute; vm_compute in Hn; congruence |]);
    cbv beta iota zeta;
    try (change (16 =? 16) with true; cbn [andb]; rewrite Hr);
    cbv beta iota zeta; rewrite Hn; reflexivity.
Qed.

(** X3. An identifier in the canonical text of a UUID, digits in either
    case, passes [normalize_uuid] and is returned as it was given: no
    character is changed. *)
Theorem canonical_uuid_accepted (s : string) :
  canonical_uuid s = true -> normalize_uuid (VStr s) = Some s.
Proof.
  unfold canonical_uuid, and_then. intros H.
  destruct (hex_run 8 s) as [s1 |] eqn:H1; [| discriminate].
  destruct (hyphen s1) as [s2 |] eqn:H2; [| discriminate].
  destruct (hex_run 4 s2) as [s3 |] eqn:H3; [| discriminate].
  destruct (hyphen s3) as [s4 |] eqn:H4; [| discriminate].
  destruct (hex_run 4 s4) as [s5 |] eqn:H5; [| discriminate].
  destruct (hyphen s5) as [s6 |] eqn:H6; [| discriminate].
  destruct (hex_run 4 s6) as [s7 |] eqn:H7; [| discriminate].
  destruct (hyphen s7) as [s8 |] eqn:H8; [| discriminate].
  destruct (hex_run 12 s8) as [[| ? ?] |] eqn:H9; try discriminate.
  apply hex_run_spec in H1 as (a & -> & La & Ha).
  apply hex_run_spec in H3 as (b & -> & Lb & Hb).
  apply hex_run_spec in H5 as (c & -> & Lc & Hc).
  apply hex_run_spec in H7 as (d & -> & Ld & Hd).
  apply hex_run_spec in H9 as (e & -> & Le & He).
  apply hyphen_spec in H2, H4, H6, H8. subst s1 s3 s5 s7. clear H.
  rewrite append_nil_r.
  set (s := a ++ String "-" (b ++ String "-" (c ++ String "-"
              (d ++ String "-" e)))).
  assert (Hall : forallb_str hex_or_hyphen s = true).
  { assert (Hweak : forall x, forallb_str is_hex x = true ->
                              forallb_str hex_or_hyphen x = true).
    { induction x as [| y x IH]; cbn [forallb_str]; [reflexivity |].
      intros Hx. apply andb_prop in Hx as [Hy Hx]. unfold hex_or_hyphen at 1.
      now rewrite Hy, IH. }
    assert (Hhyphen : hex_or_hyphen "-" = true) by reflexivity.
    subst s. rewrite !forallb_str_app. cbn [forallb_str].
    rewrite !forallb_str_app. cbn [forallb_str].
    rewrite !forallb_str_app. cbn [forallb_str].
    rewrite !forallb_str_app. cbn [forallb_str].
    now rewrite !Hweak, Hhyphen by assumption. }
  assert (Hcases : forall x, hex_or_hyphen x = true ->
                             is_hex x = true \/ x = "-"%char).
  { intros x Hx. apply orb_prop in Hx as [Hx | Hx]; [now left | right].
    apply Ascii.eqb_eq in Hx. now subst x. }
  assert (Hu : contains "u" s = false).
  { unfold contains. apply (existsb_str_disjoint hex_or_hyphen);
      [| exact Hall].
    intros x Hx. destruct (Hcases x Hx) as [Hh | ->]; [| reflexivity].
    now destruct (is_hex_char x Hh) as (_ & _ & _ & -> & _). }
  assert (Hbrace : existsb_str Py.is_brace s = false).
  { apply (existsb_str_disjoint hex_or_hyphen); [| exact Hall].
    intros x Hx. destruct (Hcases x Hx) as [Hh | ->]; [| reflexivity].
    now destruct (is_hex_char x Hh) as (_ & _ & -> & _). }
  assert (Hhex : unhyphened s = a ++ b ++ c ++ d ++ e).
  { subst s. rewrite unhyphened_app. cbn [unhyphened].
    rewrite Ascii.eqb_refl, unhyphened_app. cbn [unhyphened].
    rewrite Ascii.eqb_refl, unhyphened_app. cbn [unhyphened].
    rewrite Ascii.eqb_refl, unhyphened_app. cbn [unhyphened].
    rewrite Ascii.eqb_refl.
    now rewrite !unhyphened_hex by assumption. }
  assert (Hlen : String.length (a ++ b ++ c ++ d ++ e) = 32%nat).
  { rewrite !length_append. lia. }
  assert (Hdigits : forallb_str is_hex (a ++ b ++ c ++ d ++ e) = true).
  { rewrite !forallb_str_app, Ha, Hb, Hc, Hd, He. reflexivity. }
  destruct (parse_hex _ Hdigits) as (n & Hn & Hbound).
  { intros Hempty. rewrite Hempty in Hlen. discriminate Hlen. }
  rewrite Hlen in Hbound.
  cbn [normalize_uuid]. unfold Py.uuid_ok.
  rewrite (remove_all_absent _ _ _ Hu), (remove_all_absent _ _ _ Hu).
  rewrite (strip_by_none _ _ Hbrace), remove_all_hyphens, Hhex, Hlen, Hn.
  cbn [Nat.eqb andb].
  replace (0 <=? n) with true by (symmetry; apply Z.leb_le; lia).
  replace (n <? 2 ^ 128) with true; [reflexivity |].
  symmetry. apply Z.ltb_lt. change (2 ^ 128) with (16 ^ Z.of_nat 32). lia.
Qed.

Lemma canonical_uuid_accepted_witness :
  normalize_uuid (VStr "4B1F6d1c-0b44-4f8a-9e6d-3c2a7f5e9b10")
  = Some "4B1F6d1c-0b44-4f8a-9e6d-3c2a7f5e9b10".
Proof.
  apply canonical_uuid_accepted. reflexivity.
Defined.
End CanonicalUuid.

(** * Invariants of a run *)

Ltac fields :=
  unfold Ids.conference, Ids.division, Ids.venue, Ids.team, Ids.season,
    Ids.player in *;
  cbn [DataTransformer.conferences DataTransformer.divisions
       DataTransformer.venues DataTransformer.teams DataTransformer.seasons
       DataTransformer.players DataTransformer.player_statistics
       DataTransformer.rankings DataTransformer.coaches
       DataTransformer.conference_id_map DataTransformer.division_id_map
       DataTransformer.venue_id_map DataTransformer.team_id_map
       DataTransformer.season_id_map DataTransformer.player_id_map
       DataTransformer.clean_schedule
       DataTransformer.set_conferences DataTransformer.set_divisions
       DataTransformer.set_venues DataTransformer.set_teams
       DataTransformer.set_seasons DataTransformer.set_players
       DataTransformer.set_player_statistics DataTransformer.set_rankings
       DataTransformer.set_coaches DataTransformer.set_conference_id_map
       DataTransformer.set_division_id_map DataTransformer.set_venue_id_map
       DataTransformer.set_team_id_map DataTransformer.set_season_id_map
       DataTransformer.set_player_id_map
       DataTransformer.set_clean_schedule] in *.

Section Methods.
Import Helpers DataTransformer.

Lemma hierarchy_conference_registers (div_name : string)
  (div_alias : option string) (div_uuid : string) (conf : value) (self : t) :
  hierarchy_conference div_name div_alias div_uuid conf self
  = match truthy_str (normalize_string (field conf "name")) with
    | None => Ret self
    | Some conf_name =>
        conf_uuid <- match truthy_str (normalize_uuid (field conf "id")) with
                     | Some u => Ret u
                     | None => uuid4_str
                     end ;;
        teams_list <- Py.iter (safe_get conf ["teams"] (VList [])) ;;
        for_each teams_list team_venue
          (register_conference div_name div_alias div_uuid conf_name
             (normalize_string (field conf "alias")) conf_uuid self)
    end.
Proof. reflexivity. Qed.

Lemma truthy_str_nonempty (x : option string) (s : string) :
  truthy_str x = Some s -> s <> "".
Proof.
  destruct x as [y |]; simpl; [| discriminate].
  destruct y; simpl; [discriminate |]. now intros [= <-].
Qed.

Context (Inv : t -> Prop).

Section HierarchySteps.
Hypothesis venue_keeps :
  forall venue self, Inv self -> wp (_extract_venue venue self) Inv.
Hypothesis conference_keeps :
  forall div_name div_alias div_uuid conf_name conf_alias conf_uuid self,
    div_name <> "" -> conf_name <> "" -> Inv self ->
    Inv (register_conference div_name div_alias div_uuid conf_name conf_alias
         conf_uuid self).

Lemma team_venue_keeps (team : value) (self : t) :
  Inv self -> wp (team_venue team self) Inv.
Proof.
  intros Hinv. unfold team_venue.
  destruct (Py.truthy (field team "venue")); [| exact Hinv].
  now apply venue_keeps.
Qed.

Lemma hierarchy_conference_keeps (div_name : string)
  (div_alias : option string) (div_uuid : string) (conf : value) (self : t) :
  div_name <> "" -> Inv self ->
  wp (hierarchy_conference div_name div_alias div_uuid conf self) Inv.
Proof.
  intros Hdiv Hinv. rewrite hierarchy_conference_registers.
  destruct (truthy_str (normalize_string (field conf "name")))
    as [conf_name |] eqn:Hname; [| exact Hinv].
  apply truthy_str_nonempty in Hname.
  unfold wp. apply sat_bind.
  apply sat_mono with (P := fun _ => True);
    [| destruct (truthy_str _); [exact I | intros u; exact I]].
  intros conf_uuid _. apply sat_bind, sat_iter; [exact I |].
  intros teams_list. apply sat_for_each; [now apply conference_keeps |].
  intros team s' _ Hs'. now apply team_venue_keeps.
Qed.

Lemma transform_hierarchy_keeps (hierarchy_data : value) (self : t) :
  Inv self -> wp (transform_hierarchy hierarchy_data self) Inv.
Proof.
  intros Hinv. unfold transform_hierarchy. wp_walk; try exact Hinv.
  apply sat_for_each; [exact Hinv |]. clear self Hinv.
  intros div self _ Hinv. unfold hierarchy_division.
  destruct (truthy_str (normalize_string (field div "name")))
    as [div_name |] eqn:Hname; [| exact Hinv].
  apply truthy_str_nonempty in Hname.
  wp_walk; try exact Hinv;
    (apply sat_for_each; [exact Hinv |];
     intros conf s' _ Hs'; now apply hierarchy_conference_keeps).
Qed.

Lemma transform_venues_keeps (teams_data : value) (self : t) :
  Inv self -> wp (transform_venues teams_data self) Inv.
Proof.
  intros Hinv. unfold transform_venues. wp_walk; try exact Hinv.
  apply sat_for_each; [exact Hinv |].
  intros team s' _ Hs'. now apply team_venue_keeps.
Qed.
End HierarchySteps.

Section TeamStep.
Hypothesis team_keeps :
  forall team self, Inv self -> wp (teams_team team self) Inv.

Lemma transform_teams_keeps (teams_data hierarchy_data : value) (self : t) :
  Inv self -> wp (transform_teams teams_data hierarchy_data self) Inv.
Proof.
  intros Hinv. unfold transform_teams. wp_walk; try exact Hinv.
  apply sat_for_each; [exact Hinv |].
  intros team s' _ Hs'. now apply team_keeps.
Qed.
End TeamStep.

Section SeasonStep.
Hypothesis season_keeps :
  forall season self, Inv self -> wp (seasons_season season self) Inv.

Lemma transform_seasons_keeps (seasons_data : value) (self : t) :
  Inv self -> wp (transform_seasons seasons_data self) Inv.
Proof.
  intros Hinv. unfold transform_seasons. wp_walk; try exact Hinv.
  apply sat_for_each; [exact Hinv |].
  intros season s' _ Hs'. now apply season_keeps.
Qed.
End SeasonStep.

Section RosterSteps.
Hypothesis venue_keeps :
  forall venue self, Inv self -> wp (_extract_venue venue self) Inv.
Hypothesis roster_conference_keeps :
  forall conf_data self, Inv self -> Inv (roster_conference conf_data self).
Hypothesis roster_division_keeps :
  forall div_data conf_data self,
    Inv self -> Inv (roster_division div_data conf_data self).
Hypothesis player_keeps :
  forall team_db_id player self,
    Inv self -> wp (players_player team_db_id player self) Inv.

Lemma transform_players_keeps (rosters_data : value) (self : t) :
  Inv self -> wp (transform_players rosters_data self) Inv.
Proof.
  intros Hinv. unfold transform_players. wp_walk; try exact Hinv.
  apply sat_for_each; [exact Hinv |]. clear self Hinv.
  intros [team_api_id roster] self _ Hinv. unfold players_roster.
  unfold wp. apply sat_bind.
  apply sat_mono with (P := Inv).
  - intros self1 H1.
    assert (H2 : Inv (roster_division (field roster "division")
                      (field roster "conference")
                      (roster_conference (field roster "conference") self1)))
      by now apply roster_division_keeps, roster_conference_keeps.
    destruct (truthy_str (get_str team_api_id _)) as [team_db_id |];
      [| exact H2].
    apply sat_bind, sat_iter; [exact I |]. intros players_list.
    apply sat_for_each; [exact H2 |].
    intros player s' _ Hs'. now apply player_keeps.
  - destruct (Py.truthy (field roster "venue")); [| exact Hinv].
    now apply venue_keeps.
Qed.
End RosterSteps.

Section CoachStep.
Hypothesis coach_keeps :
  forall team_db_id coach self,
    Inv self -> wp (coaches_coach team_db_id coach self) Inv.

Lemma transform_coaches_keeps (rosters_data : value) (self : t) :
  Inv self -> wp (transform_coaches rosters_data self) Inv.
Proof.
  intros Hinv. unfold transform_coaches. wp_walk; try exact Hinv.
  apply sat_for_each; [exact Hinv |].
  intros [team_api_id roster] s' _ Hs'. unfold coaches_roster.
  destruct (truthy_str (get_str team_api_id _)) as [team_db_id |];
    [| exact Hs'].
  unfold wp. apply sat_bind, sat_iter; [exact I |]. intros coaches_list.
  apply sat_for_each; [exact Hs' |].
  intros coach s'' _ Hs''. now apply coach_keeps.
Qed.
End CoachStep.

Section StatisticStep.
Hypothesis statistic_keeps :
  forall team_db_id season_db_id player_stat acc,
    Inv (fst acc) ->
    wp (statistics_player team_db_id season_db_id player_stat acc)
      (fun acc' => Inv (fst acc')).

Lemma transform_player_statistics_keeps (season_stats_data : value)
  (year : Z) (season_type : string) (self : t) :
  Inv self ->
  wp (transform_player_statistics season_stats_data year season_type self) Inv.
Proof.
  intros Hinv. unfold transform_player_statistics.
  destruct (negb (Py.truthy season_stats_data)); [exact Hinv |].
  destruct (truthy_str (dict_get season_key_eqb _ _)) as [season_db_id |];
    [| exact Hinv].
  unfold wp. apply sat_bind, sat_items; [exact I |]. intros teams_stats.
  apply sat_bind.
  apply sat_mono with (P := fun acc => Inv (fst acc)); [auto |].
  apply sat_for_each; [exact Hinv |].
  intros [team_api_id stats] acc _ Hacc. unfold statistics_team.
  destruct (truthy_str (get_str team_api_id _)) as [team_db_id |];
    [| exact Hacc].
  apply sat_bind, sat_iter; [exact I |]. intros players_stats.
  apply sat_for_each; [exact Hacc |].
  intros player_stat acc' _ Hacc'. now apply statistic_keeps.
Qed.
End StatisticStep.

Section RankingStep.
Hypothesis ranking_keeps :
  forall rankings_data poll_id poll_name season_db_id week rank_item acc,
    Inv (fst acc) ->
    wp (rankings_item rankings_data poll_id poll_name season_db_id week
          rank_item acc)
      (fun acc' => Inv (fst acc')).

Lemma transform_rankings_keeps (rankings_data : value)
  (rankings_type : string) (year : Z) (week : option Z) (self : t) :
  Inv self ->
  wp (transform_rankings rankings_data rankings_type year week self) Inv.
Proof.
  intros Hinv. unfold transform_rankings.
  destruct (negb (Py.truthy rankings_data)); [exact Hinv |].
  unfold wp. apply sat_bind.
  apply sat_mono with (P := fun _ => True);
    [| destruct (truthy_str _); [exact I | intros u; exact I]].
  intros poll_id _. apply sat_bind.
  apply sat_mono with (P := fun _ => True);
    [| destruct week; [exact I | apply sat_normalize_int; auto]].
  intros week' _. apply sat_bind, sat_iter; [exact I |].
  intros rankings_list. apply sat_bind.
  apply sat_mono with (P := fun acc => Inv (fst acc)); [auto |].
  apply sat_for_each; [exact Hinv |].
  intros rank_item acc _ Hacc. now apply ranking_keeps.
Qed.
End RankingStep.

Section ScheduleStep.
Hypothesis schedule_keeps :
  forall games self, Inv self -> Inv (set_clean_schedule games self).

Lemma transform_schedule_keeps (schedule_data : value) (year : Z)
  (self : t) :
  Inv self -> wp (transform_schedule schedule_data year self) Inv.
Proof.
  intros Hinv. unfold transform_schedule. wp_walk; try exact Hinv.
  apply sat_mono with (P := fun _ => True);
    [intros acc _; now apply schedule_keeps |].
  apply sat_for_each; [exact I |].
  intros item [games game_id] _ _. unfold schedule_item, schedule_game.
  wp_walk; exact I.
Qed.
End ScheduleStep.
End Methods.

Section Pipeline.
Import Helpers DataTransformer.

Lemma stage_keeps (P Q : t -> Prop) (all_api_data : value) (key : string)
  (f : value -> t -> prog t) (self : t) :
  (forall data s, P s -> wp (f data s) Q) -> (forall s, P s -> Q s) ->
  P self -> wp (stage all_api_data key f self) Q.
Proof.
  intros Hf HPQ Hinv. unfold stage. wp_walk; [now apply Hf | now apply HPQ].
Qed.

(** The stages before the statistics keep [P], the statistics take [P] to
    [Q], the stages after them keep [Q]. *)
Lemma run_stages_phased (P Q : t -> Prop) (all_api_data : value) (year : Z)
  (season_type : string) (self : t) :
  (forall d s, P s -> wp (transform_hierarchy d s) P) ->
  (forall d s, P s -> wp (transform_venues d s) P) ->
  (forall d h s, P s -> wp (transform_teams d h s) P) ->
  (forall d s, P s -> wp (transform_seasons d s) P) ->
  (forall d s, P s -> wp (transform_players d s) P) ->
  (forall d s, P s -> wp (transform_coaches d s) P) ->
  (forall d s,
      P s -> wp (transform_player_statistics d year season_type s) Q) ->
  (forall s, P s -> Q s) ->
  (forall d rt w s, Q s -> wp (transform_rankings d rt year w s) Q) ->
  (forall d s, Q s -> wp (transform_schedule d year s) Q) ->
  P self -> wp (run_stages all_api_data year season_type self) Q.
Proof.
  intros Hh Hv Ht Hs Hp Hc Hst HPQ Hr Hsch Hinv. unfold run_stages, wp.
  apply sat_bind. eapply sat_mono; [| apply (stage_keeps P P); auto].
  clear self Hinv. intros self Hinv.
  apply sat_bind. eapply sat_mono; [| apply (stage_keeps P P); auto].
  2:{ intros data s Hs0. unfold wp. apply sat_bind.
      eapply sat_mono; [| now apply Hv].
      intros s1 Hs1. wp_walk. now apply Ht. }
  clear self Hinv. intros self Hinv.
  apply sat_bind. eapply sat_mono; [| apply (stage_keeps P P); auto].
  clear self Hinv. intros self Hinv.
  apply sat_bind. eapply sat_mono; [| apply (stage_keeps P P); auto].
  2:{ intros data s Hs0. unfold wp. apply sat_bind.
      eapply sat_mono; [| now apply Hp].
      intros s1 Hs1. now apply Hc. }
  clear self Hinv. intros self Hinv.
  apply sat_bind. eapply sat_mono; [| apply (stage_keeps P Q); auto].
  clear self Hinv. intros self Hinv.
  apply sat_bind. eapply sat_mono; [| apply (stage_keeps Q Q); auto].
  clear self Hinv. intros self Hinv.
  apply sat_bind. eapply sat_mono; [| apply (stage_keeps Q Q); auto].
  clear self Hinv. intros self Hinv.
  apply (stage_keeps Q Q); auto.
Qed.
End Pipeline.

Section Invariants.
Import Helpers DataTransformer.

(** An invariant that gets through the body of every loop holds after
    the whole run. *)
Lemma run_stages_keeps (Inv : t -> Prop) (all_api_data : value) (year : Z)
  (season_type : string) (self : t) :
  step_invariant Inv -> Inv self ->
  wp (run_stages all_api_data year season_type self) Inv.
Proof.
  intros [] Hinv. apply (run_stages_phased Inv Inv); auto; intros.
  - now apply transform_hierarchy_keeps.
  - now apply transform_venues_keeps.
  - now apply transform_teams_keeps.
  - now apply transform_seasons_keeps.
  - now apply transform_players_keeps.
  - now apply transform_coaches_keeps.
  - now apply transform_player_statistics_keeps.
  - now apply transform_rankings_keeps.
  - now apply transform_schedule_keeps.
Qed.
End Invariants.

(** Splits the conditionals of a transformer built without effects. *)
Ltac cases :=
  repeat match goal with
         | |- context [if ?c then _ else _] => destruct c eqn:?
         | |- context [match ?x with _ => _ end] => destruct x eqn:?
         end.

Section AppendOnly.
Import Helpers DataTransformer.

Lemma prefix_of_refl {A : Type} (l : list A) : prefix_of l l.
Proof. exists []. now rewrite app_nil_r. Qed.

Lemma prefix_of_snoc {A : Type} (l : list A) (r : A) :
  prefix_of l (l ++ [r]).
Proof. now exists [r]. Qed.

Lemma prefix_of_trans {A : Type} (l1 l2 l3 : list A) :
  prefix_of l1 l2 -> prefix_of l2 l3 -> prefix_of l1 l3.
Proof.
  intros [m1 ->] [m2 ->]. exists (m1 ++ m2)%list. now rewrite app_assoc.
Qed.

Lemma tables_grow_refl (self : t) : tables_grow self self.
Proof. repeat split; apply prefix_of_refl. Qed.

Lemma tables_grow_trans (s1 s2 s3 : t) :
  tables_grow s1 s2 -> tables_grow s2 s3 -> tables_grow s1 s3.
Proof.
  unfold tables_grow. intros H12 H23.
  repeat match goal with
         | H : _ /\ _ |- _ => destruct H
         end.
  repeat split; eapply prefix_of_trans; eassumption.
Qed.

Ltac grows H :=
  apply (tables_grow_trans _ _ _ H);
  unfold tables_grow; fields; repeat split;
  first [ apply prefix_of_refl | apply prefix_of_snoc ].

Lemma step_grows (start : t) : step_invariant (tables_grow start).
Proof.
  constructor.
  - intros venue self Hinv. unfold _extract_venue.
    wp_walk; try exact Hinv. grows Hinv.
  - intros ? ? ? ? ? ? self _ _ Hinv. unfold register_conference.
    cbv zeta. cases; grows Hinv.
  - intros conf_data self Hinv. unfold roster_conference.
    cases; try exact Hinv; grows Hinv.
  - intros div_data conf_data self Hinv. unfold roster_division.
    cases; try exact Hinv; grows Hinv.
  - intros team self Hinv. unfold teams_team.
    wp_walk; try exact Hinv. grows Hinv.
  - intros season self Hinv. unfold seasons_season.
    wp_walk; try exact Hinv; grows Hinv.
  - intros team_db_id player self Hinv. unfold players_player.
    wp_walk; try exact Hinv. grows Hinv.
  - intros team_db_id coach self Hinv. unfold coaches_coach.
    wp_walk; try exact Hinv; grows Hinv.
  - intros team_db_id season_db_id player_stat [self stat_id] Hinv.
    cbn [fst] in Hinv. unfold statistics_player.
    wp_walk; cbn [fst]; try exact Hinv. grows Hinv.
  - intros ? ? ? ? ? rank_item [self ranking_id] Hinv.
    cbn [fst] in Hinv. unfold rankings_item.
    wp_walk; cbn [fst]; try exact Hinv. grows Hinv.
  - intros games self Hinv. grows Hinv.
Qed.

(** X10. A run of the stages only adds records: each of the nine tables
    at the end is the table at the start with records appended. No record
    that was emitted is removed, moved or rewritten. *)
Theorem tables_only_grow (all_api_data : value) (year : Z)
  (season_type : string) (self : t) :
  wp (run_stages all_api_data year season_type self) (tables_grow self).
Proof.
  apply run_stages_keeps; [apply step_grows | apply tables_grow_refl].
Qed.
End AppendOnly.

Section ApiIdentified.
Import Helpers DataTransformer.

Lemma set_str_in (k v k' v' : string) (m : list (string * string)) :
  In (k', v') (set_str k v m) -> In (k', v') m \/ (k' = k /\ v' = v).
Proof.
  unfold set_str. induction m as [| [k0 v0] rest IH]; simpl.
  - intros [[= <- <-] | []]. now right.
  - destruct (String.eqb_spec k k0) as [<- |]; simpl.
    + intros [[= <- <-] | H]; [now right | left; now right].
    + intros [H | H]; [left; now left |].
      destruct (IH H) as [H' | H']; [left; now right | now right].
Qed.

Lemma uuid_truthy_ok (v : value) (u : string) :
  truthy_str (normalize_uuid v) = Some u -> Py.uuid_ok u = true.
Proof.
  intros H. apply truthy_str_some in H.
  destruct v; simpl in H; try discriminate.
  destruct (Py.uuid_ok s) eqn:Hok; [| discriminate]. now injection H as <-.
Qed.

Lemma passes_through_set (u : string) (m : list (string * string)) :
  Py.uuid_ok u = true -> passes_through m ->
  passes_through (set_str u u m).
Proof.
  intros Hu Hm k v Hin.
  destruct (set_str_in _ _ _ _ _ Hin) as [H | [-> ->]]; auto.
Qed.

Ltac identified H :=
  repeat match goal with
         | E : truthy_str (normalize_uuid _) = Some _ |- _ =>
             apply uuid_truthy_ok in E
         end;
  let Hv := fresh in let Ht := fresh in let Hp := fresh in
  let Hvs := fresh in let Hts := fresh in let Hps := fresh in
  destruct H as (Hv & Ht & Hp & Hvs & Hts & Hps);
  unfold api_identified; fields;
  (split; [| split; [| split; [| split; [| split]]]]); try assumption;
  first [ apply passes_through_set; assumption
        | apply Forall_app; split;
          [assumption | constructor; [cbn; assumption | constructor]] ].

Lemma step_identified : step_invariant api_identified.
Proof.
  constructor.
  - intros venue self Hinv. unfold _extract_venue.
    wp_walk; try exact Hinv; identified Hinv.
  - intros ? ? ? ? ? ? self _ _ Hinv. unfold register_conference.
    cbv zeta. cases; identified Hinv.
  - intros conf_data self Hinv. unfold roster_conference.
    cases; try exact Hinv; identified Hinv.
  - intros div_data conf_data self Hinv. unfold roster_division.
    cases; try exact Hinv; identified Hinv.
  - intros team self Hinv. unfold teams_team.
    wp_walk; try exact Hinv; identified Hinv.
  - intros season self Hinv. unfold seasons_season.
    wp_walk; try exact Hinv; identified Hinv.
  - intros team_db_id player self Hinv. unfold players_player.
    wp_walk; try exact Hinv; identified Hinv.
  - intros team_db_id coach self Hinv. unfold coaches_coach.
    wp_walk; try exact Hinv; identified Hinv.
  - intros team_db_id season_db_id player_stat [self stat_id] Hinv.
    cbn [fst] in Hinv. unfold statistics_player.
    wp_walk; cbn [fst]; try exact Hinv; identified Hinv.
  - intros ? ? ? ? ? rank_item [self ranking_id] Hinv.
    cbn [fst] in Hinv. unfold rankings_item.
    wp_walk; cbn [fst]; try exact Hinv; identified Hinv.
  - intros games self Hinv. identified Hinv.
Qed.

(** X11. Venues, teams and players are known by the identifier of the
    API: after any run from a fresh transformer every record of the three
    tables carries an identifier with the shape of a UUID, and the three
    identity maps send each key, itself such an identifier, to itself. No
    identifier of these tables is generated. *)
Theorem api_identifiers_pass_through (all_api_data : value) (year : Z)
  (season_type : string) :
  wp (run_stages all_api_data year season_type init) api_identified.
Proof.
  apply run_stages_keeps; [apply step_identified |].
  unfold api_identified. cbn.
  (split; [| split; [| split; [| split; [| split]]]]);
    first [ intros k v [] | constructor ].
Qed.
End ApiIdentified.

Section NamesFilled.
Import Helpers DataTransformer.

Lemma truthy_int_nonzero (x : option Z) (n : Z) :
  truthy_int x = Some n -> n <> 0.
Proof.
  destruct x as [m |]; simpl; [| discriminate].
  destruct (Z.eqb_spec m 0); [discriminate | now intros [= <-]].
Qed.

(** The last name [player_names] gives is never empty. *)
Lemma player_names_last (player : value) : snd (player_names player) <> "".
Proof.
  unfold player_names.
  match goal with
  | |- context [let '(_, _) := ?p in _] => destruct p as [first last]
  end.
  destruct (truthy_str last) as [l |] eqn:Hl; cbn [snd];
    [now apply truthy_str_nonempty in Hl | discriminate].
Qed.

Ltac filled H :=
  repeat match goal with
         | E : truthy_str _ = Some _ |- _ => apply truthy_str_nonempty in E
         | E : truthy_int _ = Some _ |- _ => apply truthy_int_nonzero in E
         | E : player_names ?p = (_, _) |- _ =>
             let Hl := fresh in
             pose proof (player_names_last p) as Hl;
             rewrite E in Hl; cbn [snd] in Hl; clear E
         end;
  let H1 := fresh in let H2 := fresh in let H3 := fresh in
  let H4 := fresh in let H5 := fresh in
  destruct H as (H1 & H2 & H3 & H4 & H5);
  unfold names_filled; fields;
  (split; [| split; [| split; [| split]]]); try assumption;
  (apply Forall_app; split;
   [assumption | constructor; [cbn; auto | constructor]]).

Lemma step_filled : step_invariant names_filled.
Proof.
  constructor.
  - intros venue self Hinv. unfold _extract_venue.
    wp_walk; try exact Hinv; filled Hinv.
  - intros ? ? ? ? ? ? self Hdiv Hconf Hinv. unfold register_conference.
    cbv zeta. cases; try exact Hinv; filled Hinv.
  - intros conf_data self Hinv. unfold roster_conference.
    cases; try exact Hinv; filled Hinv.
  - intros div_data conf_data self Hinv. unfold roster_division.
    cases; try exact Hinv; filled Hinv.
  - intros team self Hinv. unfold teams_team.
    wp_walk; try exact Hinv; filled Hinv.
  - intros season self Hinv. unfold seasons_season.
    wp_walk; try exact Hinv; filled Hinv.
  - intros team_db_id player self Hinv. unfold players_player.
    wp_walk; try exact Hinv; filled Hinv.
  - intros team_db_id coach self Hinv. unfold coaches_coach.
    wp_walk; try exact Hinv; filled Hinv.
  - intros team_db_id season_db_id player_stat [self stat_id] Hinv.
    cbn [fst] in Hinv. unfold statistics_player.
    wp_walk; cbn [fst]; try exact Hinv; filled Hinv.
  - intros ? ? ? ? ? rank_item [self ranking_id] Hinv.
    cbn [fst] in Hinv. unfold rankings_item.
    wp_walk; cbn [fst]; try exact Hinv; filled Hinv.
  - intros games self Hinv. exact Hinv.
Qed.

(** X12. After any run from a fresh transformer no conference and no
    division has an empty name, no season an empty type code or the year
    zero, no player an empty last name and no coach an empty full name. *)
Theorem required_names_filled (all_api_data : value) (year : Z)
  (season_type : string) :
  wp (run_stages all_api_data year season_type init) names_filled.
Proof.
  apply run_stages_keeps; [apply step_filled |].
  unfold names_filled. cbn. repeat split; constructor.
Qed.
End NamesFilled.

Section Numbering.
Import Helpers DataTransformer.

Lemma numbered_nil {R : Type} (id : R -> Z) : numbered id [].
Proof. reflexivity. Qed.

Lemma numbered_snoc {R : Type} (id : R -> Z) (table : list R) (r : R) :
  numbered id table -> id r = Z.of_nat (List.length table) + 1 ->
  numbered id (table ++ [r]).
Proof.
  unfold numbered. intros Htable Hr.
  rewrite map_app, length_app, Nat.add_1_r, seq_S, map_app, Htable.
  cbn [map List.length]. rewrite Hr. do 2 f_equal. lia.
Qed.

(** One statistics entry: the counter is the number of the next record,
    counted from the start of the call. *)
Lemma statistics_player_numbers (base : list PlayerStatistic.t)
  (team_db_id season_db_id : string) (player_stat : value) (acc : t * Z) :
  (exists recs,
      player_statistics (fst acc) = (base ++ recs)%list
      /\ numbered PlayerStatistic.stat_id recs
      /\ snd acc = Z.of_nat (List.length recs) + 1) ->
  wp (statistics_player team_db_id season_db_id player_stat acc)
    (fun acc' =>
       (exists recs,
           player_statistics (fst acc') = (base ++ recs)%list
           /\ numbered PlayerStatistic.stat_id recs
           /\ snd acc' = Z.of_nat (List.length recs) + 1)
       /\ rankings (fst acc') = rankings (fst acc)).
Proof.
  destruct acc as [self stat_id]. cbn [fst snd].
  intros (recs & Htable & Hrecs & Hid). unfold statistics_player.
  wp_walk; cbn [fst snd]; try (split; [now exists recs | reflexivity]).
  fields. split; [| reflexivity].
  eexists (recs ++ [_])%list. rewrite Htable, <- app_assoc.
  split; [reflexivity |]. split.
  - apply numbered_snoc; [exact Hrecs | exact Hid].
  - rewrite length_app, Nat2Z.inj_add. cbn [List.length]. lia.
Qed.

Lemma transform_player_statistics_numbers (season_stats_data : value)
  (year : Z) (season_type : string) (self : t) :
  wp (transform_player_statistics season_stats_data year season_type self)
    (fun self' =>
       (exists recs,
           player_statistics self'
           = (player_statistics self ++ recs)%list
           /\ numbered PlayerStatistic.stat_id recs)
       /\ rankings self' = rankings self).
Proof.
  assert (Hnone : (exists recs,
                      player_statistics self
                      = (player_statistics self ++ recs)%list
                      /\ numbered PlayerStatistic.stat_id recs)
                  /\ rankings self = rankings self).
  { split; [| reflexivity]. exists []. rewrite app_nil_r.
    split; [reflexivity | apply numbered_nil]. }
  unfold transform_player_statistics.
  destruct (negb (Py.truthy season_stats_data)); [exact Hnone |].
  destruct (truthy_str (dict_get season_key_eqb _ _)) as [season_db_id |];
    [| exact Hnone].
  unfold wp. apply sat_bind, sat_items; [exact I |]. intros teams_stats.
  apply sat_bind.
  set (Inv := fun acc : t * Z =>
                (exists recs,
                    player_statistics (fst acc)
                    = (player_statistics self ++ recs)%list
                    /\ numbered PlayerStatistic.stat_id recs
                    /\ snd acc = Z.of_nat (List.length recs) + 1)
                /\ rankings (fst acc) = rankings self).
  apply sat_mono with (P := Inv).
  { intros [s id] ((recs & Ht & Hn & _) & Hr). cbn [fst sat] in *.
    split; [now exists recs | exact Hr]. }
  apply sat_for_each.
  { split; [| reflexivity]. exists []. cbn [fst snd].
    rewrite app_nil_r. repeat split. }
  intros [team_api_id stats] acc _ Hacc. unfold statistics_team.
  destruct (truthy_str (get_str team_api_id _)) as [team_db_id |];
    [| exact Hacc].
  apply sat_bind, sat_iter; [exact I |]. intros players_stats.
  apply sat_for_each; [exact Hacc |].
  intros player_stat acc' _ [Hrecs Hrank].
  eapply sat_mono;
    [| exact (statistics_player_numbers _ _ _ _ _ Hrecs)].
  intros acc'' [Hrecs' Hrank']. split; [exact Hrecs' | congruence].
Qed.

Lemma rankings_item_numbers (rankings_data : value) (poll_id : string)
  (poll_name season_db_id : option string) (week : option Z)
  (rank_item : value) (acc : t * Z) :
  numbered Ranking.ranking_id (rankings (fst acc))
  /\ snd acc = Z.of_nat (List.length (rankings (fst acc))) + 1 ->
  wp (rankings_item rankings_data poll_id poll_name season_db_id week
        rank_item acc)
    (fun acc' =>
       (numbered Ranking.ranking_id (rankings (fst acc'))
        /\ snd acc' = Z.of_nat (List.length (rankings (fst acc'))) + 1)
       /\ player_statistics (fst acc') = player_statistics (fst acc)).
Proof.
  destruct acc as [self ranking_id]. cbn [fst snd]. intros [Hn Hid].
  unfold rankings_item.
  wp_walk; cbn [fst snd]; try (split; [now split | reflexivity]).
  fields. split; [| reflexivity]. split.
  - apply numbered_snoc; [exact Hn | exact Hid].
  - rewrite length_app, Nat2Z.inj_add. cbn [List.length]. lia.
Qed.

Lemma transform_rankings_numbers (rankings_data : value)
  (rankings_type : string) (year : Z) (week : option Z) (self : t) :
  numbered Ranking.ranking_id (rankings self) ->
  wp (transform_rankings rankings_data rankings_type year week self)
    (fun self' =>
       numbered Ranking.ranking_id (rankings self')
       /\ player_statistics self' = player_statistics self).
Proof.
  intros Hn. unfold transform_rankings.
  destruct (negb (Py.truthy rankings_data)); [now split |].
  unfold wp. apply sat_bind.
  apply sat_mono with (P := fun _ => True);
    [| destruct (truthy_str _); [exact I | intros u; exact I]].
  intros poll_id _. apply sat_bind.
  apply sat_mono with (P := fun _ => True);
    [| destruct week; [exact I | apply sat_normalize_int; auto]].
  intros week' _. apply sat_bind, sat_iter; [exact I |].
  intros rankings_list. apply sat_bind.
  set (Inv := fun acc : t * Z =>
                (numbered Ranking.ranking_id (rankings (fst acc))
                 /\ snd acc = Z.of_nat (List.length (rankings (fst acc))) + 1)
                /\ player_statistics (fst acc) = player_statistics self).
  apply sat_mono with (P := Inv).
  { intros [s id] ((Hs & _) & Hstats). cbn [fst sat] in *. now split. }
  apply sat_for_each; [repeat split; exact Hn |].
  intros rank_item acc _ [Hacc Hstats].
  eapply sat_mono; [| exact (rankings_item_numbers _ _ _ _ _ _ _ Hacc)].
  intros acc' [Hacc' Hstats']. split; [exact Hacc' | congruence].
Qed.

(** X13. [transform_player_statistics] numbers the records it appends
    1, 2, ... whatever the table held before the call, whereas
    [transform_rankings] goes on from the length of the table: a rankings
    table numbered 1, 2, ... stays so after the call. *)
Theorem statistics_restart_rankings_continue (self : t) (year : Z) :
  (forall season_stats_data season_type,
      wp (transform_player_statistics season_stats_data year season_type
            self)
        (fun self' =>
           exists recs,
             player_statistics self'
             = (player_statistics self ++ recs)%list
             /\ numbered PlayerStatistic.stat_id recs))
  /\ (forall rankings_data rankings_type week,
         numbered Ranking.ranking_id (rankings self) ->
         wp (transform_rankings rankings_data rankings_type year week self)
           (fun self' => numbered Ranking.ranking_id (rankings self'))).
Proof.
  split.
  - intros data season_type.
    eapply sat_mono; [| apply transform_player_statistics_numbers].
    now intros self' [Hrecs _].
  - intros data rankings_type week Hn.
    eapply sat_mono; [| now apply transform_rankings_numbers].
    now intros self' [Hrank _].
Qed.

Lemma statistics_restart_rankings_continue_witness :
  wp (transform_rankings sample_rankings "current" 2025 None one_team)
    (fun self' => numbered Ranking.ranking_id (rankings self')).
Proof.
  apply (proj2 (statistics_restart_rankings_continue one_team 2025)).
  reflexivity.
Defined.

(** The stages that emit neither statistics nor rankings. *)
Lemma step_keeps_counters (P : t -> Prop) :
  (forall self self',
      player_statistics self' = player_statistics self ->
      rankings self' = rankings self -> P self -> P self') ->
  (forall d s, P s -> wp (transform_hierarchy d s) P)
  /\ (forall d s, P s -> wp (transform_venues d s) P)
  /\ (forall d h s, P s -> wp (transform_teams d h s) P)
  /\ (forall d s, P s -> wp (transform_seasons d s) P)
  /\ (forall d s, P s -> wp (transform_players d s) P)
  /\ (forall d s, P s -> wp (transform_coaches d s) P)
  /\ (forall d y s, P s -> wp (transform_schedule d y s) P).
Proof.
  intros Hframe.
  assert (Hvenue : forall venue self,
             P self -> wp (_extract_venue venue self) P).
  { intros venue self Hinv. unfold _extract_venue.
    wp_walk; try exact Hinv. now apply (Hframe self). }
  repeat split; intros.
  - apply transform_hierarchy_keeps; auto.
    intros ? ? ? ? ? ? self _ _ Hinv. unfold register_conference.
    cbv zeta. cases; now apply (Hframe self).
  - now apply transform_venues_keeps.
  - apply transform_teams_keeps; auto.
    intros team self Hinv. unfold teams_team.
    wp_walk; try exact Hinv. now apply (Hframe self).
  - apply transform_seasons_keeps; auto.
    intros season self Hinv. unfold seasons_season.
    wp_walk; try exact Hinv; now apply (Hframe self).
  - apply transform_players_keeps; auto.
    + intros conf_data self Hinv. unfold roster_conference.
      cases; try exact Hinv; now apply (Hframe self).
    + intros div_data conf_data self Hinv. unfold roster_division.
      cases; try exact Hinv; now apply (Hframe self).
    + intros team_db_id player self Hinv. unfold players_player.
      wp_walk; try exact Hinv. now apply (Hframe self).
  - apply transform_coaches_keeps; auto.
    intros team_db_id coach self Hinv. unfold coaches_coach.
    wp_walk; try exact Hinv; now apply (Hframe self).
  - apply transform_schedule_keeps; auto.
    intros games self Hinv. now apply (Hframe self).
Qed.

(** X14. After any run from a fresh transformer the statistics carry the
    identifiers 1, 2, ... in their order, and so do the rankings of the
    two rankings documents together: the numeric keys of the two tables
    are distinct. *)
Theorem surrogate_keys_numbered (all_api_data : value) (year : Z)
  (season_type : string) :
  wp (run_stages all_api_data year season_type init)
    (fun self =>
       numbered PlayerStatistic.stat_id (player_statistics self)
       /\ numbered Ranking.ranking_id (rankings self)).
Proof.
  set (P := fun self : t =>
              player_statistics self = []
              /\ numbered Ranking.ranking_id (rankings self)).
  set (Q := fun self : t =>
              numbered PlayerStatistic.stat_id (player_statistics self)
              /\ numbered Ranking.ranking_id (rankings self)).
  destruct (step_keeps_counters P) as (Hh & Hv & Ht & Hs & Hp & Hc & _).
  { intros self self' Hstats Hrank [H1 H2]. unfold P.
    now rewrite Hstats, Hrank. }
  destruct (step_keeps_counters Q) as (_ & _ & _ & _ & _ & _ & Hsch).
  { intros self self' Hstats Hrank [H1 H2]. unfold Q.
    now rewrite Hstats, Hrank. }
  apply (run_stages_phased P Q); auto.
  - intros d s [Hempty Hrank].
    eapply sat_mono; [| apply transform_player_statistics_numbers].
    intros s' [(recs & Hrecs & Hn) Hr]. unfold Q.
    rewrite Hrecs, Hempty, Hr. now split.
  - intros s [Hempty Hrank]. unfold Q. rewrite Hempty.
    split; [apply numbered_nil | exact Hrank].
  - intros d rt w s [Hstats Hrank].
    eapply sat_mono; [| now apply transform_rankings_numbers].
    intros s' [Hn Hsame]. unfold Q. now rewrite Hsame.
  - split; [reflexivity | apply numbered_nil].
Qed.
End Numbering.

(** * Divisions of the hierarchy *)

Section Divisions.
Import Helpers DataTransformer.









End Divisions.

(** * Two runs on one snapshot *)

Section Quiet.

Lemma quiet_bind {A B : Type} (p : prog A) (f : A -> prog B) :
  quiet p -> (forall a, quiet (f a)) -> quiet (bind p f).
Proof. destruct p; simpl; auto. Qed.

Lemma quiet_for_each {A B : Type} (items : list B) (body : B -> A -> prog A)
  (s : A) :
  (forall x s', In x items -> quiet (body x s')) ->
  quiet (for_each items body s).
Proof.
  revert s. induction items as [| x rest IH]; intros s Hbody; [exact I |].
  cbn [for_each]. apply quiet_bind; [apply Hbody; now left |].
  intros s'. apply IH. intros y s'' Hy. apply Hbody. now right.
Qed.

(** A quiet computation does not look at the generator. *)
Lemma quiet_run {A : Type} (p : prog A) (source1 source2 : nat -> string)
  (n : nat) :
  quiet p ->
  snd (run p source1 n) = n /\ run p source2 n = run p source1 n.
Proof. destruct p; simpl; [auto | auto | contradiction]. Qed.
End Quiet.

Section QuietHelpers.
Import Helpers.

Lemma quiet_normalize_int (v : value) : quiet (normalize_int v).
Proof. destruct v; simpl; auto. now destruct (PyFloat.to_int f). Qed.

Lemma quiet_normalize_float (v : value) : quiet (normalize_float v).
Proof. destruct v; simpl; auto. now destruct (PyFloat.of_int n). Qed.

Lemma quiet_convert_height (v : value) : quiet (convert_height_to_inches v).
Proof.
  destruct v; simpl; auto.
  destruct (PyStr.isdigit (PyStr.strip s)).
  - now destruct (PyInt.parse 10 (PyStr.strip s)).
  - destruct (if PyStr.contains "-" (PyStr.strip s) then _ else _)
      as [[a b] |]; simpl; auto.
    destruct (_ || _); simpl; auto.
    now destruct (match_feet_inches (PyStr.strip s)) as [[a b] |].
Qed.

Lemma quiet_iter (v : value) : quiet (Py.iter v).
Proof. now destruct v. Qed.

Lemma quiet_items (v : value) : quiet (Py.items v).
Proof. now destruct v. Qed.

Lemma quiet_get (v : value) (key : string) : quiet (Py.get v key).
Proof. now destruct v. Qed.

Lemma iter_elements (v : value) (l : list value) :
  Py.iter v = Ret l -> l = elements v.
Proof. destruct v; simpl; try discriminate; now intros [= <-]. Qed.

Lemma items_entries (v : value) (l : list (string * value)) :
  Py.items v = Ret l -> map snd l = entries_of v.
Proof. destruct v; simpl; try discriminate; now intros [= <-]. Qed.
End QuietHelpers.

Ltac quiet_step :=
  match goal with
  | |- True => exact I
  | |- quiet (Ret _) => exact I
  | |- quiet (Raise _) => exact I
  | |- quiet (bind _ _) => apply quiet_bind; [| intros ?]
  | |- quiet (Helpers.normalize_int _) => apply quiet_normalize_int
  | |- quiet (Helpers.normalize_float _) => apply quiet_normalize_float
  | |- quiet (Helpers.convert_height_to_inches _) =>
      apply quiet_convert_height
  | |- quiet (Py.iter _) => apply quiet_iter
  | |- quiet (Py.items _) => apply quiet_items
  | |- quiet (Py.get _ _) => apply quiet_get
  | |- quiet (if ?c then _ else _) => destruct c eqn:?
  | |- quiet (match ?x with _ => _ end) => destruct x eqn:?
  end.

Ltac quiet_walk := repeat quiet_step.

Section NoIdentifierGenerated.
Import Helpers DataTransformer.

(** An identifier the entry carries is the one it is registered with. *)
Lemma quiet_identifier (entry : value) :
  carries_id entry = true ->
  quiet (match truthy_str (normalize_uuid (field entry "id")) with
         | Some u => Ret u
         | None => uuid4_str
         end).
Proof.
  unfold carries_id. rewrite truthy_uuid.
  now destruct (normalize_uuid (field entry "id")).
Qed.

Lemma has_name_truthy (entry : value) (name : string) :
  truthy_str (normalize_string (field entry "name")) = Some name ->
  has_name entry = true.
Proof.
  unfold has_name. now destruct (normalize_string (field entry "name")).
Qed.

Lemma extract_venue_quiet (venue : value) (self : t) :
  quiet (_extract_venue venue self).
Proof. unfold _extract_venue. quiet_walk. Qed.

Lemma team_venue_quiet (team : value) (self : t) :
  quiet (team_venue team self).
Proof. unfold team_venue. quiet_walk. apply extract_venue_quiet. Qed.

Lemma hierarchy_conference_quiet (div_name : string)
  (div_alias : option string) (div_uuid : string) (conf : value) (self : t) :
  (negb (has_name conf) || carries_id conf) = true ->
  quiet (hierarchy_conference div_name div_alias div_uuid conf self).
Proof.
  intros Hconf. rewrite hierarchy_conference_registers.
  destruct (truthy_str (normalize_string (field conf "name")))
    as [conf_name |] eqn:Hname; [| exact I].
  rewrite (has_name_truthy _ _ Hname) in Hconf.
  apply quiet_bind; [now apply quiet_identifier |]. intros conf_uuid.
  apply quiet_bind; [apply quiet_iter |]. intros teams_list.
  apply quiet_for_each. intros team s _. apply team_venue_quiet.
Qed.

Lemma transform_hierarchy_quiet (hierarchy_data : value) (self : t) :
  hierarchy_identified hierarchy_data = true ->
  quiet (transform_hierarchy hierarchy_data self).
Proof.
  unfold hierarchy_identified, transform_hierarchy. intros Hall.
  destruct (negb (Py.truthy hierarchy_data)); [exact I |].
  destruct (negb (Py.truthy _)); [exact I |].
  destruct (Py.iter (safe_get hierarchy_data ["divisions"] (VList [])))
    as [divisions_list | e | k] eqn:Hiter;
    [| exact I | now destruct (safe_get hierarchy_data _ _)].
  apply iter_elements in Hiter. subst divisions_list. cbn [bind].
  apply quiet_for_each. intros div s Hin.
  apply (proj1 (forallb_forall _ _) Hall) in Hin.
  unfold hierarchy_division.
  destruct (truthy_str (normalize_string (field div "name")))
    as [div_name |] eqn:Hname; [| exact I].
  rewrite (has_name_truthy _ _ Hname) in Hin. cbn [negb orb] in Hin.
  apply andb_prop in Hin as [Hid Hconfs].
  apply quiet_bind; [now apply quiet_identifier |]. intros div_uuid.
  destruct (Py.iter (safe_get div ["conferences"] (VList [])))
    as [conferences_list | e | k] eqn:Hconf;
    [| exact I | now destruct (safe_get div _ _)].
  apply iter_elements in Hconf. subst conferences_list. cbn [bind].
  apply quiet_for_each. intros conf s' Hconf.
  apply hierarchy_conference_quiet.
  exact (proj1 (forallb_forall _ _) Hconfs _ Hconf).
Qed.

Lemma transform_venues_quiet (teams_data : value) (self : t) :
  quiet (transform_venues teams_data self).
Proof.
  unfold transform_venues. quiet_walk.
  apply quiet_for_each. intros team s _. apply team_venue_quiet.
Qed.

Lemma transform_teams_quiet (teams_data hierarchy_data : value) (self : t) :
  quiet (transform_teams teams_data hierarchy_data self).
Proof.
  unfold transform_teams. quiet_walk.
  apply quiet_for_each. intros team s _. unfold teams_team. quiet_walk.
Qed.

Lemma seasons_season_quiet (season : value) (self : t) :
  (negb (season_keyed season) || carries_id season) = true ->
  quiet (seasons_season season self).
Proof.
  unfold season_keyed, seasons_season. intros Hseason.
  destruct (normalize_int (field season "year")) as [year | e | k] eqn:Hyear;
    [| exact I
     | assert (H := quiet_normalize_int (field season "year"));
       rewrite Hyear in H; destruct H].
  cbn [bind].
  destruct (truthy_int year) as [y |] eqn:Hy; [| exact I].
  destruct (truthy_str (normalize_string (safe_get season ["type"; "code"] VNone)))
    as [type_code |] eqn:Hcode; [| exact I].
  destruct (dict_mem _ _ _); [exact I |].
  apply quiet_bind; [| intros; exact I].
  apply quiet_identifier.
  destruct year as [year |]; [| discriminate Hy]. simpl in Hy.
  destruct (normalize_string (safe_get season ["type"; "code"] VNone));
    [| discriminate Hcode].
  destruct (year =? 0); [discriminate Hy | exact Hseason].
Qed.

Lemma transform_seasons_quiet (seasons_data : value) (self : t) :
  seasons_identified seasons_data = true ->
  quiet (transform_seasons seasons_data self).
Proof.
  unfold seasons_identified, transform_seasons. intros Hall.
  destruct (negb (Py.truthy seasons_data)); [exact I |].
  destruct (Py.iter (safe_get seasons_data ["seasons"] (VList [])))
    as [seasons_list | e | k] eqn:Hiter;
    [| exact I | now destruct (safe_get seasons_data _ _)].
  apply iter_elements in Hiter. subst seasons_list. cbn [bind].
  apply quiet_for_each. intros season s Hin.
  apply seasons_season_quiet.
  exact (proj1 (forallb_forall _ _) Hall _ Hin).
Qed.

Lemma transform_players_quiet (rosters_data : value) (self : t) :
  quiet (transform_players rosters_data self).
Proof.
  unfold transform_players. quiet_walk.
  apply quiet_for_each. intros [team_api_id roster] s _.
  unfold players_roster. quiet_walk; try apply extract_venue_quiet;
    (apply quiet_for_each; intros player s' _; unfold players_player;
     destruct (player_names player); quiet_walk).
Qed.

Lemma coaches_coach_quiet (team_db_id : string) (coach : value) (self : t) :
  (negb (coach_named coach) || carries_id coach) = true ->
  quiet (coaches_coach team_db_id coach self).
Proof.
  unfold coach_named, coaches_coach. intros Hcoach.
  destruct (truthy_str
              match truthy_str (normalize_string (field coach "full_name"))
              with
              | Some _ => normalize_string (field coach "full_name")
              | None => _
              end) as [full_name |] eqn:Hname; [| exact I].
  apply quiet_bind; [| intros; exact I]. apply quiet_identifier.
  destruct (normalize_string (field coach "full_name")) as [full |];
    [exact Hcoach |].
  destruct (normalize_string (field coach "last_name")) as [last |];
    [exact Hcoach |].
  cbn [truthy_str] in Hname.
  destruct (truthy_str (normalize_string (field coach "first_name")));
    discriminate Hname.
Qed.

Lemma transform_coaches_quiet (rosters_data : value) (self : t) :
  coaches_identified rosters_data = true ->
  quiet (transform_coaches rosters_data self).
Proof.
  unfold coaches_identified, transform_coaches. intros Hall.
  destruct (negb (Py.truthy rosters_data)); [exact I |].
  destruct (Py.items rosters_data) as [rosters | e | k] eqn:Hitems;
    [| exact I | now destruct rosters_data].
  apply items_entries in Hitems. rewrite <- Hitems in Hall. cbn [bind].
  apply quiet_for_each. intros [team_api_id roster] s Hin.
  assert (Hroster := proj1 (forallb_forall _ _) Hall roster
                       (in_map snd _ _ Hin)).
  cbv beta in Hroster. unfold coaches_roster.
  destruct (truthy_str (get_str team_api_id (team_id_map s)));
    [| exact I].
  destruct (Py.iter (safe_get roster ["coaches"] (VList [])))
    as [coaches_list | e | k] eqn:Hiter;
    [| exact I | now destruct (safe_get roster _ _)].
  apply iter_elements in Hiter. subst coaches_list. cbn [bind].
  apply quiet_for_each. intros coach s' Hcoach.
  apply coaches_coach_quiet.
  exact (proj1 (forallb_forall _ _) Hroster _ Hcoach).
Qed.

Lemma transform_player_statistics_quiet (season_stats_data : value)
  (year : Z) (season_type : string) (self : t) :
  quiet (transform_player_statistics season_stats_data year season_type self).
Proof.
  unfold transform_player_statistics. quiet_walk.
  apply quiet_for_each. intros [team_api_id stats] acc _.
  unfold statistics_team. quiet_walk.
  apply quiet_for_each. intros player_stat [s1 stat_id] _.
  unfold statistics_player. quiet_walk.
Qed.

Lemma transform_rankings_quiet (rankings_data : value)
  (rankings_type : string) (year : Z) (week : option Z) (self : t) :
  poll_identified rankings_data = true ->
  quiet (transform_rankings rankings_data rankings_type year week self).
Proof.
  unfold poll_identified, transform_rankings. intros Hpoll.
  destruct (negb (Py.truthy rankings_data)); [exact I |].
  cbn [orb] in Hpoll. rewrite truthy_uuid.
  destruct (normalize_uuid (safe_get rankings_data ["poll"; "id"] VNone))
    as [poll_id |]; [| discriminate Hpoll].
  cbn [bind]. quiet_walk.
  apply quiet_for_each. intros rank_item [s1 ranking_id] _.
  unfold rankings_item. quiet_walk.
Qed.

Lemma transform_schedule_quiet (schedule_data : value) (year : Z) (self : t) :
  quiet (transform_schedule schedule_data year self).
Proof.
  unfold transform_schedule. quiet_walk.
  apply quiet_for_each. intros item [games game_id] _.
  unfold schedule_item, schedule_game. quiet_walk.
Qed.

Lemma lookup_field (d : list (string * value)) (key : string) :
  Py.lookup d key = field (VDict d) key.
Proof.
  unfold Py.lookup, field. cbn [safe_get].
  destruct (dict_get String.eqb key d) as [[] |]; reflexivity.
Qed.

(** One stage of the run is quiet when the method is, on the part of the
    snapshot it is given. *)
Lemma stage_quiet (all_api_data : value) (key : string)
  (f : value -> t -> prog t) (self : t) :
  (forall s, quiet (f (field all_api_data key) s)) ->
  quiet (stage all_api_data key f self).
Proof.
  intros Hf. unfold stage. destruct all_api_data; try exact I.
  cbn [Py.get bind]. rewrite lookup_field.
  destruct (Py.truthy _); [apply Hf | exact I].
Qed.

Lemma run_stages_quiet (all_api_data : value) (year : Z)
  (season_type : string) (self : t) :
  identified all_api_data = true ->
  quiet (run_stages all_api_data year season_type self).
Proof.
  unfold identified. intros H.
  apply andb_prop in H as [H Hweek1]. apply andb_prop in H as [H Hcurrent].
  apply andb_prop in H as [H Hcoaches].
  apply andb_prop in H as [Hhierarchy Hseasons].
  unfold run_stages.
  apply quiet_bind; [| clear self; intros self].
  { apply stage_quiet. intros s. now apply transform_hierarchy_quiet. }
  apply quiet_bind; [| clear self; intros self].
  { apply stage_quiet. intros s.
    apply quiet_bind; [apply transform_venues_quiet |]. intros s1.
    apply quiet_bind; [apply quiet_get |]. intros hierarchy.
    apply transform_teams_quiet. }
  apply quiet_bind; [| clear self; intros self].
  { apply stage_quiet. intros s. now apply transform_seasons_quiet. }
  apply quiet_bind; [| clear self; intros self].
  { apply stage_quiet. intros s.
    apply quiet_bind; [apply transform_players_quiet |]. intros s1.
    now apply transform_coaches_quiet. }
  apply quiet_bind; [| clear self; intros self].
  { apply stage_quiet. intros s. apply transform_player_statistics_quiet. }
  apply quiet_bind; [| clear self; intros self].
  { apply stage_quiet. intros s. now apply transform_rankings_quiet. }
  apply quiet_bind; [| clear self; intros self].
  { apply stage_quiet. intros s. now apply transform_rankings_quiet. }
  apply stage_quiet. intros s. apply transform_schedule_quiet.
Qed.

(** C2 (counterexample). Two runs on the same snapshot, each from a fresh
    transformer, differ when an identifier has to be generated: the
    conference of the snapshot gets the UUID the generator yields. *)
Lemma runs_differ_on_generated_ids :
  fst (run (transform_all_data snapshot_without_conference_id 2025 "REG" init)
         source_b 0)
  <> fst (run (transform_all_data snapshot_without_conference_id 2025 "REG"
                 init) source_c 0).
Proof. vm_compute. discriminate. Qed.

(** C2 (amended). Two runs of [transform_all_data] on the same snapshot,
    each from a fresh transformer, end alike, with the same tables record
    for record or with the same exception, when the generator yields the
    second run the values it yielded the first for the identifiers that
    were generated. No identifier is generated, and every two runs end
    alike, on a snapshot in which every division and conference of the
    hierarchy that has a name, every season that has a key, every coach
    that has a name and the poll of each rankings document carry an
    identifier of the shape of a UUID. *)
Theorem transform_all_data_deterministic (all_api_data : value) (year : Z)
  (season_type : string) (source1 source2 : nat -> string) :
  let p := transform_all_data all_api_data year season_type init in
  ((forall i, (i < snd (run p source1 0))%nat -> source1 i = source2 i) ->
   run p source2 0 = run p source1 0)
  /\ (identified all_api_data = true ->
      snd (run p source1 0) = 0%nat /\ run p source2 0 = run p source1 0).
Proof.
  intros p. split.
  - intros Hagree. apply run_agree. intros i [_ Hi]. now apply Hagree.
  - intros Hall. apply quiet_run. unfold p, transform_all_data.
    apply quiet_bind; [now apply run_stages_quiet | intros; exact I].
Qed.

Lemma transform_all_data_deterministic_witness :
  run (transform_all_data snapshot_without_conference_id 2025 "REG" init)
    source_bc 0
  = run (transform_all_data snapshot_without_conference_id 2025 "REG" init)
      source_b 0
  /\ run (transform_all_data snapshot_with_ids 2025 "REG" init) source_c 0
     = run (transform_all_data snapshot_with_ids 2025 "REG" init) source_b 0.
Proof.
  split.
  - apply (proj1 (transform_all_data_deterministic
                    snapshot_without_conference_id 2025 "REG"
                    source_b source_bc)).
    intros i Hi. vm_compute in Hi.
    destruct i as [| i]; [reflexivity | lia].
  - apply (proj2 (transform_all_data_deterministic snapshot_with_ids 2025
                    "REG" source_b source_c)).
    reflexivity.
Defined.
End NoIdentifierGenerated.

(** * Tables, teams and the schedule *)

Section ForeignKeys.
Import Helpers DataTransformer.

(** X7. In the tables [transform_all_data] returns from a fresh
    transformer, whatever the snapshot, every conference, division and
    venue of a team, every team of a player, coach, statistic or ranking,
    every player of a statistic and every season of a statistic or
    ranking is null where it may be, or the identifier of a record of the
    table it refers to. *)
Theorem returned_tables_reference (all_api_data : value) (year : Z)
  (season_type : string) :
  wp (transform_all_data all_api_data year season_type init)
    tables_reference.
Proof.
  unfold transform_all_data, wp. apply sat_bind.
  eapply sat_mono; [| apply run_stages_refs].
  intros self (_ & Hteams & Hplayers & Hcoaches & Hstats & Hrankings).
  cbn [sat]. unfold tables_reference, tables. cbn.
  repeat split; assumption.
Qed.
End ForeignKeys.

Section Owned.
Import Helpers DataTransformer.

Lemma sat_conj {A : Type} (E : exn -> Prop) (p : prog A) (P Q : A -> Prop) :
  sat E p P -> sat E p Q -> sat E p (fun a => P a /\ Q a).
Proof.
  induction p as [a | e | k IH]; simpl; intros HP HQ; auto.
Qed.

Lemma owned_more (self : t) (ids : list string) (table : list Division.t) :
  incl (Ids.conference self) ids ->
  Forall (fun d => exists c, Division.conference_id d = Some c
                             /\ In c (Ids.conference self)) table ->
  Forall (fun d => exists c, Division.conference_id d = Some c /\ In c ids)
    table.
Proof.
  intros Hincl. apply Forall_impl. intros d (c & Hc & Hin).
  exists c. split; [exact Hc | now apply Hincl].
Qed.

(** Every division stays owned. *)
Lemma hierarchy_keeps_owned (hierarchy_data : value) (self : t) :
  divisions_owned self ->
  wp (transform_hierarchy hierarchy_data self) divisions_owned.
Proof.
  apply transform_hierarchy_keeps.
  - intros venue s Hinv. unfold _extract_venue.
    wp_walk; exact Hinv.
  - intros div_name div_alias div_uuid conf_name conf_alias conf_uuid s
      _ _ Hinv.
    unfold register_conference, divisions_owned in *. cbv zeta.
    destruct (existsb _ (conferences _)) eqn:Hconf; fields;
      destruct (existsb _ (divisions s)) eqn:Hdiv; fields;
      try exact Hinv;
      try (apply Forall_app; split;
           [| constructor; [| constructor]; exists conf_uuid;
              (split; [reflexivity |]);
              first [ rewrite map_app; apply in_or_app; right; now left
                    | now apply existsb_in ]]);
      try (apply (owned_more s); [| exact Hinv];
           rewrite map_app; apply incl_appl, incl_refl);
      exact Hinv.
Qed.

Lemma team_venues_keep_divisions (teams_list : list value) (self : t) :
  wp (for_each teams_list team_venue self)
    (fun self' => divisions self' = divisions self).
Proof.
  apply sat_for_each with (I := fun s => divisions s = divisions self);
    [reflexivity |].
  intros team s _ Hs. apply team_venue_keeps; [| exact Hs].
  clear. intros venue s Hs. unfold _extract_venue. wp_walk; exact Hs.
Qed.

(** What one conference of an entry does to the divisions. *)
Lemma hierarchy_conference_appends (div_name : string)
  (div_alias : option string) (div_uuid : string) (conf : value) (self : t) :
  wp (hierarchy_conference div_name div_alias div_uuid conf self)
    (fun self' =>
       if has_division div_uuid (divisions self) || negb (has_name conf)
       then divisions self' = divisions self
       else exists c,
              divisions self'
              = (divisions self
                 ++ [Division.mk div_uuid div_name div_alias (Some c)])%list
              /\ forall k, normalize_uuid (field conf "id") = Some k ->
                           c = k).
Proof.
  rewrite hierarchy_conference_registers. unfold has_name.
  destruct (normalize_string (field conf "name")) as [conf_name |] eqn:Hname.
  2:{ cbn [truthy_str]. rewrite orb_true_r. reflexivity. }
  rewrite (normalize_string_truthy _ _ Hname). cbn [negb].
  rewrite orb_false_r. unfold wp. apply sat_bind.
  apply sat_mono
    with (P := fun conf_uuid =>
                 forall k, normalize_uuid (field conf "id") = Some k ->
                           conf_uuid = k).
  2:{ rewrite truthy_uuid.
      destruct (normalize_uuid (field conf "id")); cbn [sat uuid4_str].
      - now intros k [= <-].
      - intros u k. discriminate. }
  intros conf_uuid Hconf. apply sat_bind, sat_iter; [exact I |].
  intros teams_list.
  eapply sat_mono; [| apply team_venues_keep_divisions].
  cbv beta. intros self' ->. unfold register_conference, has_division.
  cbv zeta.
  destruct (existsb _ (conferences _)); fields;
    destruct (existsb _ (divisions self)); fields; try reflexivity;
    now exists conf_uuid.
Qed.

(** The conferences of one entry: at most one record, linked to the
    first of them that has a name. *)
Lemma conferences_loop_appends (div_name : string)
  (div_alias : option string) (div_uuid : string) (confs : list value)
  (self : t) :
  wp (for_each confs (hierarchy_conference div_name div_alias div_uuid) self)
    (fun self' =>
       divisions self' = divisions self
       \/ exists conf c,
            find has_name confs = Some conf
            /\ divisions self'
               = (divisions self
                  ++ [Division.mk div_uuid div_name div_alias (Some c)])%list
            /\ forall k, normalize_uuid (field conf "id") = Some k ->
                         c = k).
Proof.
  destruct (has_division div_uuid (divisions self)) eqn:Hhas.
  { apply sat_mono with (P := fun s => divisions s = divisions self);
      [now left |].
    apply sat_for_each; [reflexivity |]. intros conf s _ Hs.
    eapply sat_mono; [| apply hierarchy_conference_appends].
    cbv beta. rewrite Hs, Hhas. cbn [orb]. congruence. }
  revert self Hhas. induction confs as [| conf rest IH]; intros self Hhas.
  - now left.
  - cbn [for_each find]. unfold wp. apply sat_bind.
    eapply sat_mono; [| apply hierarchy_conference_appends].
    cbv beta. rewrite Hhas. cbn [orb].
    destruct (has_name conf); cbn [negb].
    + intros self1 (c & Hdiv & Hc).
      apply sat_mono with (P := fun s => divisions s = divisions self1).
      * intros self2 Hself2. right. exists conf, c.
        repeat split; [congruence | exact Hc].
      * apply sat_for_each; [reflexivity |]. intros conf' s _ Hs.
        eapply sat_mono; [| apply hierarchy_conference_appends].
        cbv beta. rewrite Hs, Hdiv. unfold has_division at 1.
        rewrite existsb_app. cbn [existsb Division.division_id].
        rewrite String.eqb_refl, orb_true_r. cbn [orb]. congruence.
    + intros self1 Hself1.
      eapply sat_mono; [| apply IH; now rewrite Hself1].
      cbv beta. rewrite Hself1. auto.
Qed.

(** X8. [transform_hierarchy] keeps every division owned: when each
    division of the table refers to a conference of the table, so does
    each division after the call. The call only adds divisions, and each
    division it adds is the record of an entry of the document: it bears
    the name, the alias and the identifier of the entry, and is linked to
    the first conference with a name listed under that entry, by the
    identifier of that conference. *)
Theorem hierarchy_divisions_owned (hierarchy_data : value) (self : t) :
  divisions_owned self ->
  wp (transform_hierarchy hierarchy_data self)
    (fun self' =>
       divisions_owned self'
       /\ exists more,
            divisions self' = (divisions self ++ more)%list
            /\ Forall (listed_under hierarchy_data) more).
Proof.
  intros Howned. apply sat_conj; [now apply hierarchy_keeps_owned |].
  assert (Hnone : exists more,
             divisions self = (divisions self ++ more)%list
             /\ Forall (listed_under hierarchy_data) more).
  { exists []. now rewrite app_nil_r. }
  unfold transform_hierarchy.
  destruct (negb (Py.truthy hierarchy_data)); [exact Hnone |].
  destruct (negb (Py.truthy _)); [exact Hnone |].
  destruct (Py.iter (safe_get hierarchy_data ["divisions"] (VList [])))
    as [divisions_list | e | k] eqn:Hiter;
    [| exact I | now destruct (safe_get hierarchy_data _ _)].
  apply iter_elements in Hiter. cbn [bind].
  apply sat_for_each; [exact Hnone |]. clear Hnone.
  intros div s Hin (more & Hmore & Hlisted). rewrite Hiter in Hin.
  unfold hierarchy_division.
  destruct (normalize_string (field div "name")) as [div_name |] eqn:Hname.
  2:{ cbn [truthy_str sat]. now exists more. }
  rewrite (normalize_string_truthy _ _ Hname). apply sat_bind.
  apply sat_mono
    with (P := fun div_uuid =>
                 forall k, normalize_uuid (field div "id") = Some k ->
                           div_uuid = k).
  2:{ rewrite truthy_uuid.
      destruct (normalize_uuid (field div "id")); cbn [sat uuid4_str].
      - now intros k [= <-].
      - intros u k. discriminate. }
  intros div_uuid Hdiv.
  destruct (Py.iter (safe_get div ["conferences"] (VList [])))
    as [conferences_list | e | k] eqn:Hconfs;
    [| exact I | now destruct (safe_get div _ _)].
  apply iter_elements in Hconfs. cbn [bind].
  eapply sat_mono; [| apply conferences_loop_appends].
  cbv beta. intros s' [Hsame | (conf & c & Hfirst & Happ & Hc)].
  - exists more. now rewrite Hsame.
  - exists (more ++ [Division.mk div_uuid div_name
                       (normalize_string (field div "alias")) (Some c)])%list.
    split; [now rewrite Happ, Hmore, app_assoc |].
    apply Forall_app. split; [exact Hlisted |].
    constructor; [| constructor]. exists div, conf, c.
    rewrite Hconfs in Hfirst. now repeat split.
Qed.

Lemma hierarchy_divisions_owned_witness :
  divisions_owned one_division
  /\ wp (transform_hierarchy east_twice one_division)
       (fun self' =>
          divisions_owned self'
          /\ exists more,
               divisions self' = (divisions one_division ++ more)%list
               /\ Forall (listed_under east_twice) more).
Proof.
  assert (H : divisions_owned one_division).
  { constructor; [| constructor]. exists uuid_b.
    split; [reflexivity | now left]. }
  split; [exact H |]. exact (hierarchy_divisions_owned east_twice _ H).
Defined.
End Owned.

Section EveryTeam.
Import Helpers DataTransformer.

Lemma listed_teams_cons (item : value) (items : list value) :
  listed_teams (item :: items)
  = (listed_teams [item] ++ listed_teams items)%list.
Proof. unfold listed_teams. simpl. now rewrite app_nil_r. Qed.

Lemma get_set_str (u k : string) (m : list (string * string)) :
  get_str k (set_str u u m)
  = if String.eqb k u then Some u else get_str k m.
Proof.
  unfold get_str, set_str. destruct (String.eqb_spec k u) as [-> | Hne].
  - apply (dict_get_set_same String.eqb String.eqb_eq).
  - now apply (dict_get_set_other String.eqb String.eqb_eq).
Qed.

(** One entry of the teams document: a record when the identifier has the
    shape of a UUID, whatever the conference, the division and the venue
    resolve to. *)
Lemma teams_team_spec (team : value) (self : t) :
  tame team = true ->
  twp (teams_team team self)
    (fun self' =>
       exists recs,
         teams self' = (teams self ++ recs)%list
         /\ map Team.team_id recs = listed_teams [team]
         /\ (forall u, In u (listed_teams [team]) ->
                       get_str u (team_id_map self') = Some u)
         /\ (forall u, get_str u (team_id_map self) = Some u ->
                       get_str u (team_id_map self') = Some u)).
Proof.
  intros Htame. unfold teams_team, listed_teams, twp.
  rewrite truthy_uuid. cbn [flat_map]. rewrite app_nil_r.
  destruct (normalize_uuid (field team "id")) as [api_team_id |].
  - apply sat_bind, sat_normalize_int_tame; [now apply tame_field |].
    intros founded.
    apply sat_bind, sat_normalize_int_tame;
      [now apply tame_safe_get |].
    intros championships_won. cbn [sat]. fields.
    eexists [_]. split; [reflexivity |]. split; [reflexivity |].
    split.
    + intros u [<- | []]. rewrite get_set_str. now rewrite String.eqb_refl.
    + intros u Hu. rewrite get_set_str.
      destruct (String.eqb_spec u api_team_id) as [-> |]; auto.
  - cbn [sat]. exists []. rewrite app_nil_r.
    repeat split; auto. intros u [].
Qed.

(** X9. On a teams document whose numbers convert, [transform_teams]
    returns and appends one record for each entry whose identifier has the
    shape of a UUID, in the order of the entries and with repetitions,
    whatever the conference, the division and the venue of the entry
    resolve to; every such identifier is registered in [team_id_map]. *)
Theorem every_listed_team_kept (teams_data hierarchy_data : value)
  (items : list value) (self : t) :
  tame teams_data = true ->
  Py.iter (safe_get teams_data ["teams"] (VList [])) = Ret items ->
  twp (transform_teams teams_data hierarchy_data self)
    (fun self' =>
       exists recs,
         teams self' = (teams self ++ recs)%list
         /\ map Team.team_id recs = listed_teams items
         /\ forall u, In u (listed_teams items) ->
                      get_str u (team_id_map self') = Some u).
Proof.
  intros Htame Hiter.
  assert (Hitems : forallb tame items = true).
  { apply (tame_iter _ _ (tame_safe_get teams_data ["teams"] (VList [])
                            Htame eq_refl) Hiter). }
  unfold transform_teams, twp.
  destruct (Py.truthy teams_data) eqn:Htruthy; cbn [negb].
  2:{ rewrite (safe_get_falsy _ _ _ Htruthy) in Hiter.
      injection Hiter as <-. exists []. rewrite app_nil_r.
      repeat split. intros u []. }
  rewrite Hiter. cbn [bind].
  assert (Hloop : forall items self,
             forallb tame items = true ->
             sat (fun _ => False) (for_each items teams_team self)
               (fun self' =>
                  exists recs,
                    teams self' = (teams self ++ recs)%list
                    /\ map Team.team_id recs = listed_teams items
                    /\ (forall u, In u (listed_teams items) ->
                                  get_str u (team_id_map self') = Some u)
                    /\ (forall u, get_str u (team_id_map self) = Some u ->
                                  get_str u (team_id_map self') = Some u))).
  { clear. induction items as [| item items IH]; intros self Htame.
    - cbn [for_each sat]. exists []. rewrite app_nil_r.
      repeat split; auto. intros u [].
    - simpl in Htame. apply andb_prop in Htame as [Hitem Hitems].
      cbn [for_each]. apply sat_bind.
      eapply sat_mono; [| exact (teams_team_spec item self Hitem)].
      intros self1 (recs1 & Hr1 & Hi1 & Hnew1 & Hold1).
      eapply sat_mono; [| exact (IH self1 Hitems)].
      intros self2 (recs2 & Hr2 & Hi2 & Hnew2 & Hold2).
      exists (recs1 ++ recs2)%list. repeat split.
      + now rewrite Hr2, Hr1, app_assoc.
      + now rewrite map_app, Hi1, Hi2, <- listed_teams_cons.
      + intros u Hu. rewrite listed_teams_cons in Hu.
        apply in_app_or in Hu as [Hu | Hu]; auto.
      + auto. }
  eapply sat_mono; [| exact (Hloop items self Hitems)].
  intros self' (recs & Hr & Hi & Hnew & _). exists recs. auto.
Qed.

Lemma every_listed_team_kept_witness :
  twp (transform_teams team_without_links VNone init)
    (fun self' =>
       exists recs,
         teams self' = recs
         /\ map Team.team_id recs = [uuid_a]
         /\ forall u, In u [uuid_a] ->
                      get_str u (team_id_map self') = Some u).
Proof.
  apply (every_listed_team_kept team_without_links VNone
           [VDict [("id", VStr uuid_a); ("name", VStr "Tide");
                   ("conference", VDict [("name", VStr "SEC")]);
                   ("division", VDict [("name", VStr "FBS")]);
                   ("venue", VDict [("id", VStr uuid_b)])];
            VDict [("name", VStr "No identifier")]] init);
    reflexivity.
Defined.
End EveryTeam.

Section ScheduleGames.
Import Helpers DataTransformer.

Lemma schedule_loop_numbers (items : list value) (games : list Game.t) :
  numbered Game.game_id games ->
  sat shape_error
    (for_each items schedule_item
       (games, Z.of_nat (List.length games) + 1))
    (fun acc =>
       numbered Game.game_id (fst acc)
       /\ List.length (fst acc) = (List.length games + List.length items)%nat).
Proof.
  revert games. induction items as [| item items IH]; intros games Hn.
  - cbn [for_each sat fst List.length]. split; [exact Hn | lia].
  - cbn [for_each]. apply sat_bind. unfold schedule_item at 1.
    apply sat_bind.
    destruct item; try (right; reflexivity).
    rewrite schedule_game_dict. cbn [sat bind].
    match goal with
    | |- sat _ (for_each _ _ (?gs, ?n)) _ =>
        replace n with (Z.of_nat (List.length gs) + 1)
    end.
    2:{ rewrite length_app, Nat2Z.inj_add. cbn [List.length]. lia. }
    eapply sat_mono; [| apply IH].
    + intros acc [Hacc Hlen]. split; [exact Hacc |].
      rewrite Hlen, length_app. cbn [List.length]. lia.
    + apply numbered_snoc; [exact Hn | reflexivity].
Qed.

(** X15. [transform_schedule] leaves the nine tables alone and can only
    fail on the shape of the document. On a document that is not empty
    the games it saves are numbered 1, 2, ...; when the entries of the
    schedule are all objects it returns and saves one game for each
    entry, none being skipped. *)
Theorem schedule_games_numbered (schedule_data : value) (year : Z)
  (self : t) :
  sat shape_error
    (transform_schedule schedule_data year self)
    (fun self' =>
       tables self' = tables self
       /\ (Py.truthy schedule_data = true ->
           numbered Game.game_id (clean_schedule self')))
  /\ forall d entries,
       schedule_data = VDict d -> d <> [] ->
       Py.or (Py.or (Py.lookup d "schedule") (Py.lookup d "games"))
         (VList [])
       = VList (map VDict entries) ->
       sat (fun _ => False) (transform_schedule schedule_data year self)
         (fun self' =>
            List.length (clean_schedule self') = List.length entries).
Proof.
  split.
  - unfold transform_schedule.
    destruct (Py.truthy schedule_data) eqn:Htruthy; cbn [negb].
    2:{ cbn [sat]. split; [reflexivity | discriminate]. }
    apply sat_bind, sat_get; [now right |]. intros list1.
    apply sat_bind, sat_get; [now right |]. intros list2.
    apply sat_bind, sat_iter; [now left |]. intros items.
    apply sat_bind.
    eapply sat_mono;
      [| exact (schedule_loop_numbers items [] (numbered_nil _))].
    intros acc [Hacc _]. cbn [sat]. split; [reflexivity |].
    intros _. exact Hacc.
  - intros d entries -> Hne Hlist. unfold transform_schedule.
    assert (Htruthy : Py.truthy (VDict d) = true)
      by (destruct d; [congruence | reflexivity]).
    rewrite Htruthy. cbn [negb Py.get bind]. rewrite Hlist.
    cbn [Py.iter bind]. apply sat_bind.
    assert (Hloop : forall entries games,
               sat (fun _ => False)
                 (for_each (map VDict entries) schedule_item
                    (games, Z.of_nat (List.length games) + 1))
                 (fun acc =>
                    List.length (fst acc)
                    = (List.length games + List.length entries)%nat)).
    { clear. induction entries as [| entry entries IH]; intros games.
      - cbn [map for_each sat fst List.length]. lia.
      - cbn [map for_each]. apply sat_bind. unfold schedule_item at 1.
        rewrite schedule_game_dict. cbn [sat bind].
        match goal with
        | |- sat _ (for_each _ _ (?gs, ?n)) _ =>
            replace n with (Z.of_nat (List.length gs) + 1)
        end.
        2:{ rewrite length_app, Nat2Z.inj_add. cbn [List.length]. lia. }
        eapply sat_mono; [| apply IH].
        intros acc Hlen. rewrite Hlen, length_app. cbn [List.length]. lia. }
    eapply sat_mono; [| exact (Hloop entries [])].
    intros acc Hlen. cbn [sat]. fields. exact Hlen.
Qed.

Lemma schedule_games_numbered_witness :
  sat (fun _ => False)
    (transform_schedule
       (VDict [("games", VList (map VDict [[("home", VNone)]; []]))])
       2025 init)
    (fun self' => List.length (clean_schedule self') = 2%nat).
Proof.
  apply (proj2 (schedule_games_numbered _ 2025 init)
           [("games", VList (map VDict [[("home", VNone)]; []]))]
           [[("home", VNone)]; []]);
    [reflexivity | discriminate | reflexivity].
Defined.
End ScheduleGames.

(** * Failures *)

Section Benign.
Import PyStr Helpers DataTransformer.

Lemma plain_dict_get (d : list (string * value)) (key : string) (v : value) :
  plain (VDict d) = true -> dict_get String.eqb key d = Some v ->
  plain v = true.
Proof.
  simpl. induction d as [| [k x] rest IH]; simpl; [discriminate |].
  intros Hd. apply andb_prop in Hd as [Hx Hrest].
  apply andb_prop in Hx as [_ Hx].
  destruct (String.eqb key k).
  - now intros [= <-].
  - now apply IH.
Qed.

Lemma plain_safe_get (data : value) (keys : list string) (default : value) :
  plain data = true -> plain default = true ->
  plain (safe_get data keys default) = true.
Proof.
  revert data. induction keys as [| key keys IH]; intros data Hdata Hdef.
  - destruct data; simpl; assumption.
  - destruct data; simpl; try assumption.
    destruct (dict_get String.eqb key entries) as [v |] eqn:Hget;
      [| assumption].
    apply IH; [| assumption]. exact (plain_dict_get _ _ _ Hdata Hget).
Qed.

Lemma plain_iter (v : value) (l : list value) :
  plain v = true -> Py.iter v = Ret l -> forallb plain l = true.
Proof.
  destruct v; simpl; try discriminate; intros Hv [= <-].
  - unfold plain_text in Hv. apply andb_prop in Hv as [Hv _].
    apply negb_true_iff in Hv.
    induction s as [| c r IH]; simpl; [reflexivity |].
    simpl in Hv. apply orb_false_elim in Hv as [Hc Hr].
    unfold plain_text at 1. cbn [existsb_str String.length].
    rewrite Hc. simpl. now apply IH.
  - exact Hv.
  - induction entries as [| [k x] rest IH]; simpl in *; [reflexivity |].
    apply andb_prop in Hv as [Hk Hrest]. apply andb_prop in Hk as [-> _].
    simpl. now apply IH.
Qed.

Lemma benign_split (v : value) :
  benign v = true <-> tame v = true /\ plain v = true.
Proof. unfold benign. apply andb_true_iff. Qed.

Lemma benign_safe_get (data : value) (keys : list string) (default : value) :
  benign data = true -> benign default = true ->
  benign (safe_get data keys default) = true.
Proof.
  rewrite !benign_split. intros [Ht Hp] [Ht' Hp']. split.
  - now apply tame_safe_get.
  - now apply plain_safe_get.
Qed.

Lemma benign_field (data : value) (key : string) :
  benign data = true -> benign (field data key) = true.
Proof. intros H. now apply benign_safe_get. Qed.

Lemma benign_in (items : list value) (x : value) :
  forallb benign items = true -> In x items -> benign x = true.
Proof. intros H. now apply (proj1 (forallb_forall _ _) H). Qed.

Lemma sat_iter_benign (E : exn -> Prop) (v : value)
  (Q : list value -> Prop) :
  benign v = true -> E TypeError ->
  (forall l, forallb benign l = true -> Q l) -> sat E (Py.iter v) Q.
Proof.
  intros Hv HE HQ. destruct (Py.iter v) as [l | e | k] eqn:Hiter.
  - cbn [sat]. apply HQ. apply benign_split in Hv as [Ht Hp].
    assert (H1 := tame_iter _ _ Ht Hiter).
    assert (H2 := plain_iter _ _ Hp Hiter).
    clear - H1 H2. induction l as [| x l IH]; simpl in *; [reflexivity |].
    apply andb_prop in H1 as [? ?]. apply andb_prop in H2 as [? ?].
    unfold benign at 1. rewrite H, H1. simpl. now apply IH.
  - destruct v; simpl in Hiter; try discriminate; now injection Hiter as <-.
  - destruct v; discriminate Hiter.
Qed.

Lemma benign_entries (d : list (string * value)) :
  benign (VDict d) = true -> forallb (fun kv => benign (snd kv)) d = true.
Proof.
  intros H. apply benign_split in H as [Ht Hp]. simpl in Ht, Hp.
  induction d as [| [k x] rest IH]; simpl in *; [reflexivity |].
  apply andb_prop in Ht as [Hx Ht]. apply andb_prop in Hp as [Hk Hp].
  apply andb_prop in Hk as [_ Hk].
  unfold benign at 1. rewrite Hx, Hk. simpl. now apply IH.
Qed.

Lemma sat_items_benign (E : exn -> Prop) (v : value)
  (Q : list (string * value) -> Prop) :
  benign v = true -> E AttributeError ->
  (forall l, forallb (fun kv => benign (snd kv)) l = true -> Q l) ->
  sat E (Py.items v) Q.
Proof.
  intros Hv HE HQ. destruct v; simpl; auto.
  apply HQ. now apply benign_entries.
Qed.

Lemma benign_lookup (d : list (string * value)) (key : string) :
  benign (VDict d) = true -> benign (Py.lookup d key) = true.
Proof.
  intros Hd. unfold Py.lookup.
  destruct (dict_get String.eqb key d) as [x |] eqn:Hget; [| reflexivity].
  apply benign_split in Hd as [Ht Hp]. apply benign_split. split.
  - exact (tame_dict_get _ _ _ Ht Hget).
  - exact (plain_dict_get _ _ _ Hp Hget).
Qed.

Lemma sat_get_benign (E : exn -> Prop) (v : value) (key : string)
  (Q : value -> Prop) :
  benign v = true -> E AttributeError ->
  (forall x, benign x = true -> Q x) -> sat E (Py.get v key) Q.
Proof.
  intros Hv HE HQ. destruct v; simpl; auto.
  apply HQ. now apply benign_lookup.
Qed.

Lemma sat_int_benign (E : exn -> Prop) (v : value) (Q : option Z -> Prop) :
  benign v = true -> (forall r, Q r) -> sat E (normalize_int v) Q.
Proof.
  intros Hv. apply sat_normalize_int_tame. now apply benign_split in Hv.
Qed.

Lemma sat_float_benign (E : exn -> Prop) (v : value)
  (Q : option PyFloat.t -> Prop) :
  benign v = true -> (forall r, Q r) -> sat E (normalize_float v) Q.
Proof.
  intros Hv. apply sat_normalize_float_tame. now apply benign_split in Hv.
Qed.

Lemma existsb_lstrip (p q : ascii -> bool) (s : string) :
  existsb_str p s = false -> existsb_str p (lstrip_by q s) = false.
Proof.
  induction s as [| c r IH]; simpl; [reflexivity |].
  intros H. destruct (q c); [| exact H].
  apply orb_false_elim in H as [_ Hr]. now apply IH.
Qed.

Lemma existsb_rstrip (p q : ascii -> bool) (s : string) :
  existsb_str p s = false -> existsb_str p (rstrip_by q s) = false.
Proof.
  induction s as [| c r IH]; simpl; [reflexivity |].
  intros H. apply orb_false_elim in H as [Hc Hr].
  destruct (is_empty (rstrip_by q r) && q c); [reflexivity |].
  simpl. now rewrite Hc, IH.
Qed.

Lemma length_lstrip (q : ascii -> bool) (s : string) :
  (String.length (lstrip_by q s) <= String.length s)%nat.
Proof.
  induction s as [| c r IH]; simpl; [lia |].
  destruct (q c); simpl; lia.
Qed.

Lemma length_rstrip (q : ascii -> bool) (s : string) :
  (String.length (rstrip_by q s) <= String.length s)%nat.
Proof.
  induction s as [| c r IH]; simpl; [lia |].
  destruct (is_empty (rstrip_by q r) && q c); simpl; lia.
Qed.

(** Trimming keeps a text plain. *)
Lemma plain_text_strip (s : string) :
  plain_text s = true -> plain_text (strip s) = true.
Proof.
  unfold plain_text, strip, strip_by. intros H.
  apply andb_prop in H as [Hsup Hlen].
  apply negb_true_iff in Hsup. apply Z.leb_le in Hlen.
  apply andb_true_intro. split.
  - apply negb_true_iff. now apply existsb_rstrip, existsb_lstrip.
  - apply Z.leb_le.
    assert (H1 := length_rstrip isspace (lstrip_by isspace s)).
    assert (H2 := length_lstrip isspace s). lia.
Qed.

Lemma plain_digits (s : string) :
  existsb_str is_superscript s = false ->
  forallb_str isdigit_char s = true -> forallb_str isdecimal s = true.
Proof.
  induction s as [| c r IH]; simpl; [reflexivity |].
  intros Hs Hd. apply orb_false_elim in Hs as [Hc Hr].
  apply andb_prop in Hd as [Hdc Hdr]. rewrite (IH Hr Hdr), andb_true_r.
  unfold isdigit_char in Hdc. unfold is_superscript in Hc.
  destruct (isdecimal c); [reflexivity |]. simpl in Hdc.
  now rewrite Hdc in Hc.
Qed.

(** The height of a plain document converts. *)
Lemma sat_height_benign (E : exn -> Prop) (v : value) (Q : value -> Prop) :
  benign v = true -> (forall r, Q r) ->
  sat E (convert_height_to_inches v) Q.
Proof.
  intros Hv HQ. apply benign_split in Hv as [_ Hp].
  destruct v; simpl; auto. simpl in Hp.
  apply plain_text_strip in Hp. unfold plain_text in Hp.
  apply andb_prop in Hp as [Hs Hlen].
  apply negb_true_iff in Hs. apply Z.leb_le in Hlen.
  destruct (isdigit (strip s)) eqn:Hd.
  - rewrite parse_numeral; [apply HQ | | exact Hlen].
    apply isdigit_numeral; [exact Hd |].
    unfold isdigit in Hd. apply andb_prop in Hd as [_ Hd].
    now apply plain_digits.
  - destruct (if contains "-" (strip s) then _ else _) as [[a b] |];
      simpl; auto.
    destruct (_ || _); simpl; auto.
    destruct (match_feet_inches (strip s)) as [[a b] |]; simpl; auto.
Qed.
End Benign.

Ltac benign_solve :=
  first [ assumption
        | reflexivity
        | apply benign_field; benign_solve
        | apply benign_safe_get; [benign_solve | reflexivity] ].

Ltac shape_step :=
  match goal with
  | |- True => exact I
  | |- harmless _ => unfold harmless
  | |- sat _ (Ret _) _ => cbn [sat]
  | |- sat _ (bind _ _) _ => apply sat_bind
  | |- sat _ (Helpers.normalize_int _) _ =>
      apply sat_int_benign; [benign_solve | intros ?]
  | |- sat _ (Helpers.normalize_float _) _ =>
      apply sat_float_benign; [benign_solve | intros ?]
  | |- sat _ (Helpers.convert_height_to_inches _) _ =>
      apply sat_height_benign; [benign_solve | intros ?]
  | |- sat _ uuid4_str _ => unfold uuid4_str; cbn [sat]; intros ?
  | |- sat _ (if ?c then _ else _) _ => destruct c eqn:?
  | |- sat _ (match ?x with _ => _ end) _ => destruct x eqn:?
  end.

Ltac shape_walk := repeat shape_step.

(** A loop over the entries of a benign document. *)
Ltac shape_loop lemma :=
  apply sat_iter_benign; [benign_solve | now left |];
  let items := fresh "items" in
  let Hitems := fresh "Hitems" in
  intros items Hitems;
  apply sat_for_each; [exact I |];
  let x := fresh "x" in
  let Hx := fresh "Hx" in
  intros x ? Hx _; apply lemma; exact (benign_in _ _ Hitems Hx).

Section ShapeErrors.
Import Helpers DataTransformer.

Lemma extract_venue_shape (venue : value) (self : t) :
  benign venue = true -> harmless (_extract_venue venue self).
Proof. intros Hv. unfold _extract_venue. shape_walk. Qed.

Lemma team_venue_shape (self : t) (team : value) :
  benign team = true -> harmless (team_venue team self).
Proof.
  intros Hv. unfold team_venue. shape_walk.
  apply extract_venue_shape. benign_solve.
Qed.

Lemma hierarchy_conference_shape (div_name : string)
  (div_alias : option string) (div_uuid : string) (self : t) (conf : value) :
  benign conf = true ->
  harmless (hierarchy_conference div_name div_alias div_uuid conf self).
Proof.
  intros Hv. rewrite hierarchy_conference_registers. shape_walk;
    shape_loop team_venue_shape.
Qed.

Lemma hierarchy_division_shape (self : t) (div : value) :
  benign div = true -> harmless (hierarchy_division div self).
Proof.
  intros Hv. unfold hierarchy_division. shape_walk;
    shape_loop hierarchy_conference_shape.
Qed.

Lemma transform_hierarchy_shape (hierarchy_data : value) (self : t) :
  benign hierarchy_data = true ->
  harmless (transform_hierarchy hierarchy_data self).
Proof.
  intros Hv. unfold transform_hierarchy. shape_walk.
  shape_loop hierarchy_division_shape.
Qed.

Lemma transform_venues_shape (teams_data : value) (self : t) :
  benign teams_data = true -> harmless (transform_venues teams_data self).
Proof.
  intros Hv. unfold transform_venues. shape_walk.
  shape_loop team_venue_shape.
Qed.

Lemma teams_team_shape (self : t) (team : value) :
  benign team = true -> harmless (teams_team team self).
Proof. intros Hv. unfold teams_team. shape_walk. Qed.

Lemma transform_teams_shape (teams_data hierarchy_data : value) (self : t) :
  benign teams_data = true ->
  harmless (transform_teams teams_data hierarchy_data self).
Proof.
  intros Hv. unfold transform_teams. shape_walk.
  shape_loop teams_team_shape.
Qed.

Lemma seasons_season_shape (self : t) (season : value) :
  benign season = true -> harmless (seasons_season season self).
Proof. intros Hv. unfold seasons_season. shape_walk. Qed.

Lemma transform_seasons_shape (seasons_data : value) (self : t) :
  benign seasons_data = true ->
  harmless (transform_seasons seasons_data self).
Proof.
  intros Hv. unfold transform_seasons. shape_walk.
  shape_loop seasons_season_shape.
Qed.

Lemma players_player_shape (team_db_id : string) (self : t)
  (player : value) :
  benign player = true -> harmless (players_player team_db_id player self).
Proof. intros Hv. unfold players_player. shape_walk. Qed.

Lemma transform_players_shape (rosters_data : value) (self : t) :
  benign rosters_data = true ->
  harmless (transform_players rosters_data self).
Proof.
  intros Hv. unfold transform_players. shape_walk.
  apply sat_items_benign; [exact Hv | now right |]. intros rosters Hall.
  apply sat_for_each; [exact I |].
  intros [team_api_id roster] s Hin _.
  assert (Hroster : benign roster = true)
    by exact (proj1 (forallb_forall _ _) Hall _ Hin).
  unfold players_roster. apply sat_bind.
  apply sat_mono with (P := fun _ => True).
  - intros s1 _. shape_walk. shape_loop players_player_shape.
  - shape_walk. apply extract_venue_shape. benign_solve.
Qed.

Lemma coaches_coach_shape (team_db_id : string) (self : t) (coach : value) :
  benign coach = true -> harmless (coaches_coach team_db_id coach self).
Proof. intros Hv. unfold coaches_coach. shape_walk. Qed.

Lemma transform_coaches_shape (rosters_data : value) (self : t) :
  benign rosters_data = true ->
  harmless (transform_coaches rosters_data self).
Proof.
  intros Hv. unfold transform_coaches. shape_walk.
  apply sat_items_benign; [exact Hv | now right |]. intros rosters Hall.
  apply sat_for_each; [exact I |].
  intros [team_api_id roster] s Hin _.
  assert (Hroster : benign roster = true)
    by exact (proj1 (forallb_forall _ _) Hall _ Hin).
  unfold coaches_roster. shape_walk. shape_loop coaches_coach_shape.
Qed.

Lemma statistics_player_shape (team_db_id season_db_id : string)
  (acc : t * Z) (player_stat : value) :
  benign player_stat = true ->
  harmless (statistics_player team_db_id season_db_id player_stat acc).
Proof.
  intros Hv. destruct acc as [self stat_id]. unfold statistics_player.
  shape_walk.
Qed.

Lemma transform_player_statistics_shape (season_stats_data : value)
  (year : Z) (season_type : string) (self : t) :
  benign season_stats_data = true ->
  harmless
    (transform_player_statistics season_stats_data year season_type self).
Proof.
  intros Hv. unfold transform_player_statistics. shape_walk.
  apply sat_items_benign; [exact Hv | now right |]. intros teams_stats Hall.
  apply sat_bind. apply sat_mono with (P := fun _ => True); [auto |].
  apply sat_for_each; [exact I |].
  intros [team_api_id stats] acc Hin _.
  assert (Hstats : benign stats = true)
    by exact (proj1 (forallb_forall _ _) Hall _ Hin).
  unfold statistics_team. shape_walk.
  shape_loop statistics_player_shape.
Qed.

Lemma rankings_item_shape (rankings_data : value) (poll_id : string)
  (poll_name season_db_id : option string) (week : option Z)
  (acc : t * Z) (rank_item : value) :
  benign rank_item = true ->
  harmless (rankings_item rankings_data poll_id poll_name season_db_id week
              rank_item acc).
Proof.
  intros Hv. destruct acc as [self ranking_id]. unfold rankings_item.
  shape_walk.
Qed.

Lemma transform_rankings_shape (rankings_data : value)
  (rankings_type : string) (year : Z) (week : option Z) (self : t) :
  benign rankings_data = true ->
  harmless (transform_rankings rankings_data rankings_type year week self).
Proof.
  intros Hv. unfold transform_rankings.
  destruct (negb (Py.truthy rankings_data)); [exact I |].
  apply sat_bind. apply sat_mono with (P := fun _ => True);
    [| destruct (truthy_str _); [exact I | intros u; exact I]].
  intros poll_id _. apply sat_bind.
  apply sat_mono with (P := fun _ => True);
    [| destruct week; [exact I | apply sat_int_benign; [benign_solve | auto]]].
  intros week' _. apply sat_bind.
  apply sat_iter_benign; [benign_solve | now left |].
  intros items Hitems. apply sat_bind.
  apply sat_mono with (P := fun _ => True); [auto |].
  apply sat_for_each; [exact I |].
  intros x acc Hx _. apply rankings_item_shape.
  exact (benign_in _ _ Hitems Hx).
Qed.

Lemma transform_schedule_shape (schedule_data : value) (year : Z)
  (self : t) :
  harmless (transform_schedule schedule_data year self).
Proof.
  unfold transform_schedule, harmless.
  destruct (negb (Py.truthy schedule_data)); [exact I |].
  apply sat_bind, sat_get; [now right |]. intros list1.
  apply sat_bind, sat_get; [now right |]. intros list2.
  apply sat_bind, sat_iter; [now left |]. intros items.
  apply sat_bind. apply sat_mono with (P := fun _ => True); [auto |].
  apply sat_for_each; [exact I |].
  intros item [games game_id] _ _. unfold schedule_item, schedule_game.
  apply sat_bind.
  repeat (apply sat_bind, sat_get; [now right | intros ?]). exact I.
Qed.

Lemma stage_shape {A : Type} (all_api_data : value) (key : string)
  (f : value -> t -> prog t) (self : t) (rest : t -> prog A) :
  benign all_api_data = true ->
  (forall data s, benign data = true -> harmless (f data s)) ->
  (forall s, harmless (rest s)) ->
  harmless (s <- stage all_api_data key f self ;; rest s).
Proof.
  intros Hall Hf Hrest. unfold harmless, stage. apply sat_bind, sat_bind.
  apply sat_get_benign; [exact Hall | now right |]. intros data Hdata.
  apply sat_mono with (P := fun _ => True); [intros s _; apply Hrest |].
  destruct (Py.truthy data); [now apply Hf | exact I].
Qed.

(** X16. On a snapshot whose numbers convert and whose strings, of code
    points below 256, hold no superscript digit and are no longer than
    the 4300 digits [int] reads, the stages return or fail on the shape
    of the snapshot alone: TypeError where a value that cannot be
    iterated stands for a list, AttributeError where a value that is no
    object is read as one. Neither OverflowError nor ValueError is
    raised. *)
Theorem only_shape_errors (all_api_data : value) (year : Z)
  (season_type : string) (self : t) :
  benign all_api_data = true ->
  harmless (run_stages all_api_data year season_type self).
Proof.
  intros Hall. unfold run_stages.
  apply stage_shape; [exact Hall | | clear self; intros self].
  { intros. now apply transform_hierarchy_shape. }
  apply stage_shape; [exact Hall | | clear self; intros self].
  { intros data s Hdata. unfold harmless. apply sat_bind.
    apply sat_mono with (P := fun _ => True);
      [| now apply transform_venues_shape].
    intros s1 _. apply sat_bind, sat_get; [now right |]. intros hierarchy.
    now apply transform_teams_shape. }
  apply stage_shape; [exact Hall | | clear self; intros self].
  { intros. now apply transform_seasons_shape. }
  apply stage_shape; [exact Hall | | clear self; intros self].
  { intros data s Hdata. unfold harmless. apply sat_bind.
    apply sat_mono with (P := fun _ => True);
      [| now apply transform_players_shape].
    intros s1 _. now apply transform_coaches_shape. }
  apply stage_shape; [exact Hall | | clear self; intros self].
  { intros. now apply transform_player_statistics_shape. }
  apply stage_shape; [exact Hall | | clear self; intros self].
  { intros. now apply transform_rankings_shape. }
  apply stage_shape; [exact Hall | | clear self; intros self].
  { intros. now apply transform_rankings_shape. }
  unfold harmless, stage. apply sat_bind.
  apply sat_get_benign; [exact Hall | now right |]. intros data Hdata.
  destruct (Py.truthy data); [apply transform_schedule_shape | exact I].
Qed.

Lemma only_shape_errors_witness :
  benign snapshot_with_ids = true
  /\ harmless (run_stages snapshot_with_ids 2025 "REG" init).
Proof.
  split; [reflexivity |]. apply only_shape_errors. reflexivity.
Defined.
End ShapeErrors.

(** * The populator and the sequential transformer *)

Section Populator.
Import DatabasePopulator.

Lemma unquote_doubled (s : string) :
  unquote_body (double_quotes s ++ "'") = Some s.
Proof.
  induction s as [| c r IH]; [reflexivity |].
  cbn [double_quotes]. destruct (Ascii.eqb_spec c "'") as [-> | Hne].
  - cbn [append unquote_body]. rewrite Ascii.eqb_refl, IH. reflexivity.
  - cbn [append unquote_body].
    apply Ascii.eqb_neq in Hne. rewrite Hne, IH. reflexivity.
Qed.

(** X20. The INSERT statement of a record with one string value holds
    that value as a quoted literal which, by the rule of SQL that a
    doubled quote stands for one, reads back as the string: single quotes
    inside a value do not end the literal. *)
Theorem string_literal_reads_back (table_name column s : string) :
  exists literal,
    _generate_insert_statement table_name [(column, VStr s)]
    = "INSERT INTO " ++ table_name ++ " (" ++ column ++ ") VALUES ("
        ++ literal ++ ");"
    /\ sql_unquote literal = Some s.
Proof.
  exists (format_value (VStr s)). split; [reflexivity |].
  unfold format_value, sql_unquote. cbn [append].
  rewrite Ascii.eqb_refl. apply unquote_doubled.
Qed.

Lemma drop_last_snoc (stem : string) (c : ascii) :
  drop_last (stem ++ String c "") = stem.
Proof.
  induction stem as [| x stem IH]; [reflexivity |].
  cbn [append drop_last]. rewrite IH.
  destruct stem; reflexivity.
Qed.

(** X21. The key column of an upsert: for a table named by a stem and
    one more character, the column of the stem followed by [_id] is the
    key whenever the record has it, and a key that is found is a column
    of the record. For the tables of the pipeline, with the columns the
    transformer emits, a key is found for all but [coaches] and
    [player_statistics], whose INSERT therefore falls back to
    [ON CONFLICT DO NOTHING]. *)
Theorem upsert_key_columns :
  (forall stem c columns,
      mem (stem ++ "_id") columns = true ->
      pk_column (stem ++ String c "") columns = Some (stem ++ "_id"))
  /\ (forall table_name columns k,
         pk_column table_name columns = Some k -> mem k columns = true)
  /\ map (fun table_name => pk_column table_name (columns_of table_name))
       insertion_order
     = [Some "conference_id"; Some "division_id"; Some "venue_id";
        Some "season_id"; Some "team_id"; Some "player_id"; None; None;
        Some "ranking_id"].
Proof.
  split; [| split].
  - intros stem c columns Hmem. unfold pk_column.
    now rewrite drop_last_snoc, Hmem.
  - intros table_name columns k. unfold pk_column.
    destruct (mem (drop_last table_name ++ "_id") columns) eqn:H1;
      [now intros [= <-] |].
    destruct (mem "id" columns) eqn:H2; [now intros [= <-] |].
    destruct (mem (table_name ++ "_id") columns) eqn:H3;
      [now intros [= <-] | discriminate].
  - reflexivity.
Qed.

Lemma upsert_key_columns_witness :
  pk_column ("team" ++ "s") (columns_of "teams") = Some ("team" ++ "_id").
Proof.
  apply (proj1 upsert_key_columns "team" "s"%char). reflexivity.
Defined.
End Populator.

Section SequentialSchedule.
Import Helpers.

Lemma id_of_get_of (x : value) :
  DataTransformer.id_of x = normalize_uuid (Sequential.get_of x "id").
Proof. destruct x; reflexivity. Qed.

Lemma name_of_get_of (x : value) :
  DataTransformer.name_of x = normalize_string (Sequential.get_of x "name").
Proof. destruct x; reflexivity. Qed.

(** The game of one entry: the transformer with UUIDs stores what the
    sequential one stores, normalised. *)
Lemma schedule_game_normalized (game_id : Z) (item : value) :
  DataTransformer.schedule_game game_id item
  = (g <- Sequential.schedule_game game_id item ;; Ret (normalized_game g)).
Proof.
  destruct item; try reflexivity.
  unfold DataTransformer.schedule_game, Sequential.schedule_game.
  cbn [Py.get bind]. unfold normalized_game.
  cbn [Sequential.Game.game_id Sequential.Game.home_team_api_id
       Sequential.Game.away_team_api_id Sequential.Game.scheduled
       Sequential.Game.venue_name].
  now rewrite !id_of_get_of, name_of_get_of.
Qed.

Lemma schedule_game_cases (game_id : Z) (item : value) :
  (exists g, Sequential.schedule_game game_id item = Ret g)
  \/ Sequential.schedule_game game_id item = Raise AttributeError.
Proof. destruct item; try (now right). left. eexists. reflexivity. Qed.

Lemma schedule_loops_agree (items : list value)
  (games : list Sequential.Game.t) (game_id : Z) :
  match for_each items Sequential.schedule_item (games, game_id) with
  | Ret acc =>
      for_each items DataTransformer.schedule_item
        (map normalized_game games, game_id)
      = Ret (map normalized_game (fst acc), snd acc)
  | Raise e =>
      for_each items DataTransformer.schedule_item
        (map normalized_game games, game_id)
      = Raise e
  | Uuid4 _ => False
  end.
Proof.
  revert games game_id. induction items as [| item items IH];
    intros games game_id; [reflexivity |].
  assert (Hstep :
            for_each (item :: items) DataTransformer.schedule_item
              (map normalized_game games, game_id)
            = (g <- Sequential.schedule_game game_id item ;;
               for_each items DataTransformer.schedule_item
                 (map normalized_game (games ++ [g]), game_id + 1))).
  { cbn [for_each]. unfold DataTransformer.schedule_item at 1.
    rewrite schedule_game_normalized.
    destruct (schedule_game_cases game_id item) as [[g ->] | ->];
      cbn [bind]; [now rewrite map_app | reflexivity]. }
  rewrite Hstep. cbn [for_each]. unfold Sequential.schedule_item at 1.
  destruct (schedule_game_cases game_id item) as [[g ->] | ->]; cbn [bind].
  - apply IH.
  - reflexivity.
Qed.

(** X17. The two transformers agree on the schedule. Wherever the
    sequential transformer returns, the transformer with UUIDs returns,
    and its games are those of the sequential one with the team
    identifiers passed through [normalize_uuid] and the venue name
    through [normalize_string]; wherever the one raises, the other raises
    the same exception. *)
Theorem schedule_versions_agree (schedule_data : value) (year : Z)
  (uuids : DataTransformer.t) (sequential : Sequential.t) :
  DataTransformer.clean_schedule uuids
  = map normalized_game (Sequential.clean_schedule sequential) ->
  match Sequential.transform_schedule schedule_data year sequential with
  | Ret sequential' =>
      exists uuids',
        DataTransformer.transform_schedule schedule_data year uuids
        = Ret uuids'
        /\ DataTransformer.clean_schedule uuids'
           = map normalized_game (Sequential.clean_schedule sequential')
        /\ DataTransformer.tables uuids' = DataTransformer.tables uuids
  | Raise e =>
      DataTransformer.transform_schedule schedule_data year uuids = Raise e
  | Uuid4 _ => False
  end.
Proof.
  intros Hsame.
  unfold Sequential.transform_schedule, DataTransformer.transform_schedule.
  destruct (negb (Py.truthy schedule_data)).
  { exists uuids. now repeat split. }
  destruct schedule_data; try reflexivity. cbn [Py.get bind].
  destruct (Py.iter _) as [items | e | k] eqn:Hiter; cbn [bind].
  - assert (Hloop := schedule_loops_agree items [] 1). cbn [map] in Hloop.
    destruct (for_each items Sequential.schedule_item ([], 1))
      as [acc | e | k]; cbn [bind]; rewrite ?Hloop; cbn [bind];
      [| reflexivity | contradiction].
    eexists. split; [reflexivity |]. now split.
  - reflexivity.
  - exfalso. destruct (Py.or _ _); discriminate Hiter.
Qed.

Lemma schedule_versions_agree_witness :
  exists uuids',
    DataTransformer.transform_schedule
      (VDict [("games", VList [VDict [("home", VDict [("id", VStr "7")])]])])
      2025 DataTransformer.init
    = Ret uuids'
    /\ DataTransformer.clean_schedule uuids'
       = [Game.mk 1 None None VNone None].
Proof.
  destruct (schedule_versions_agree
              (VDict [("games",
                       VList [VDict [("home", VDict [("id", VStr "7")])]])])
              2025 DataTransformer.init Sequential.init eq_refl)
    as (uuids' & Hrun & Hgames & _).
  exists uuids'. split; [exact Hrun | exact Hgames].
Defined.
End SequentialSchedule.

Ltac seq_fields :=
  cbn [Sequential.conferences Sequential.venues Sequential.seasons
       Sequential.conference_id_map Sequential.division_id_map
       Sequential.venue_id_map Sequential.season_id_map
       Sequential.clean_schedule Sequential.set_conferences
       Sequential.set_venues Sequential.set_seasons
       Sequential.set_conference_id_map Sequential.set_division_id_map
       Sequential.set_venue_id_map Sequential.set_season_id_map
       Sequential.set_clean_schedule fst snd] in *.

Section SequentialIds.
Import Helpers Sequential.

Lemma counted_start {R : Type} (id : R -> Z) (base : list R) :
  counted id base base 1.
Proof. exists []. rewrite app_nil_r. repeat split. Qed.

Lemma counted_next {R : Type} (id : R -> Z) (base table : list R)
  (counter : Z) (r : R) :
  counted id base table counter -> id r = counter ->
  counted id base (table ++ [r]) (counter + 1).
Proof.
  intros (recs & -> & Hn & ->) Hr. exists (recs ++ [r])%list.
  rewrite <- app_assoc. split; [reflexivity |]. split.
  - now apply numbered_snoc.
  - rewrite length_app, Nat2Z.inj_add. cbn [List.length]. lia.
Qed.

Lemma counted_done {R : Type} (id : R -> Z) (base table : list R)
  (counter : Z) :
  counted id base table counter ->
  exists recs, table = (base ++ recs)%list /\ numbered id recs.
Proof. intros (recs & H1 & H2 & _). now exists recs. Qed.

Lemma hierarchy_division_conferences (conf_name : string) (div : value)
  (acc : t * Z) :
  wp (hierarchy_division conf_name div acc)
    (fun acc' => conferences (fst acc') = conferences (fst acc)).
Proof.
  destruct acc as [self division_id]. unfold hierarchy_division.
  wp_walk; reflexivity.
Qed.

(** X18. The sequential transformer numbers the conferences, the venues
    and the seasons a call appends 1, 2, ... in their order, whatever
    the table held before the call. *)
Theorem sequential_ids_restart (self : t) :
  (forall hierarchy_data,
      wp (transform_hierarchy hierarchy_data self)
        (fun self' =>
           exists recs,
             conferences self' = (conferences self ++ recs)%list
             /\ numbered Conference.conference_id recs))
  /\ (forall teams_data,
         wp (transform_venues teams_data self)
           (fun self' =>
              exists recs,
                venues self' = (venues self ++ recs)%list
                /\ numbered Venue.venue_id recs))
  /\ (forall seasons_data,
         wp (transform_seasons seasons_data self)
           (fun self' =>
              exists recs,
                seasons self' = (seasons self ++ recs)%list
                /\ numbered Season.season_id recs)).
Proof.
  split; [| split].
  - intros data. unfold transform_hierarchy.
    destruct (negb _); [apply (counted_done _ _ _ 1), counted_start |].
    destruct (negb _); [apply (counted_done _ _ _ 1), counted_start |].
    unfold wp. apply sat_bind, sat_iter; [exact I |]. intros items.
    apply sat_bind.
    apply sat_mono with
      (P := fun acc : t * Z * Z =>
              counted Conference.conference_id (conferences self)
                (conferences (fst (fst acc))) (snd (fst acc))).
    { intros acc Hacc. cbn [sat]. exact (counted_done _ _ _ _ Hacc). }
    apply sat_for_each; [apply counted_start |].
    intros conf [[s cid] did] _ Hacc. cbn [fst snd] in Hacc.
    unfold hierarchy_conference.
    destruct (DataTransformer.truthy_str _) as [conf_name |];
      [| exact Hacc].
    apply sat_bind, sat_iter; [exact I |]. intros divisions_list.
    apply sat_bind.
    eapply sat_mono;
      [| apply sat_for_each with
           (I := fun acc : t * Z =>
                   conferences (fst acc)
                   = (conferences s
                      ++ [Conference.mk cid conf_name
                            (normalize_string (field conf "alias"))])%list);
         [reflexivity |]].
    + intros [s' did'] Hs'. cbn [sat fst snd] in *. rewrite Hs'.
      now apply counted_next.
    + intros div acc _ Hacc'.
      eapply sat_mono; [| apply hierarchy_division_conferences].
      intros acc' Hsame. cbn beta in Hsame. congruence.
  - intros data. unfold transform_venues.
    destruct (negb _); [apply (counted_done _ _ _ 1), counted_start |].
    unfold wp. apply sat_bind, sat_iter; [exact I |]. intros items.
    apply sat_bind.
    apply sat_mono with
      (P := fun acc : t * Z =>
              counted Venue.venue_id (venues self) (venues (fst acc))
                (snd acc)).
    { intros acc Hacc. cbn [sat]. exact (counted_done _ _ _ _ Hacc). }
    apply sat_for_each; [apply counted_start |].
    intros team [s vid] _ Hacc. cbn [fst snd] in Hacc.
    unfold venues_team. wp_walk; seq_fields; try exact Hacc.
    now apply counted_next.
  - intros data. unfold transform_seasons.
    destruct (negb _); [apply (counted_done _ _ _ 1), counted_start |].
    unfold wp. apply sat_bind, sat_iter; [exact I |]. intros items.
    apply sat_bind.
    apply sat_mono with
      (P := fun acc : t * Z =>
              counted Season.season_id (seasons self) (seasons (fst acc))
                (snd acc)).
    { intros acc Hacc. cbn [sat]. exact (counted_done _ _ _ _ Hacc). }
    apply sat_for_each; [apply counted_start |].
    intros season [s sid] _ Hacc. cbn [fst snd] in Hacc.
    unfold seasons_season. wp_walk; seq_fields; try exact Hacc.
    now apply counted_next.
Qed.

Lemma separator_unique (x : ascii) (a a' r r' : string) :
  PyStr.contains x a = false -> PyStr.contains x a' = false ->
  a ++ String x r = a' ++ String x r' -> a = a' /\ r = r'.
Proof.
  unfold PyStr.contains. revert a'.
  induction a as [| c a IH]; intros [| c' a']; cbn [append PyStr.existsb_str].
  - intros _ _ [= ->]. now split.
  - intros _ H [= <- _]. rewrite Ascii.eqb_refl in H. discriminate H.
  - intros H _ [= -> _]. rewrite Ascii.eqb_refl in H. discriminate H.
  - intros H H' [= <- Heq].
    apply orb_false_elim in H as [_ H]. apply orb_false_elim in H' as [_ H'].
    destruct (IH a' H H' Heq) as [-> ->]. now split.
Qed.

(** X19. The sequential transformer keys a division by the name of the
    conference, an underscore and the name of the division. The key
    tells two divisions apart when the names of their conferences hold no
    underscore; with an underscore it need not: a hierarchy with the
    division East of Big_Ten and the division Ten_East of Big leaves one
    entry in [division_id_map]. *)
Theorem division_key_ambiguity :
  (forall conf_name conf_name' div_name div_name',
      PyStr.contains "_" conf_name = false ->
      PyStr.contains "_" conf_name' = false ->
      division_key conf_name div_name = division_key conf_name' div_name' ->
      conf_name = conf_name' /\ div_name = div_name')
  /\ exists self',
       transform_hierarchy underscore_hierarchy init = Ret self'
       /\ map Conference.name (conferences self') = ["Big_Ten"; "Big"]
       /\ division_id_map self' = [("Big_Ten_East", 2)].
Proof.
  split.
  - intros c c' d d' Hc Hc'. unfold division_key.
    change ("_" ++ d) with (String "_" d).
    change ("_" ++ d') with (String "_" d').
    now apply separator_unique.
  - eexists. repeat split.
Qed.

Lemma division_key_ambiguity_witness :
  division_key "SEC" "East" = "SEC_East"
  /\ ("SEC" = "SEC" /\ "East" = "East").
Proof.
  split; [reflexivity |].
  exact (proj1 division_key_ambiguity "SEC" "SEC" "East" "East"
           eq_refl eq_refl eq_refl).
Defined.
End SequentialIds.

(** * Names of players *)

Section NamePrecedence.
Import Helpers DataTransformer.

Lemma str_or_some (a b : option string) (s : string) :
  truthy_str a = Some s -> str_or a b = Some s.
Proof.
  intros H. unfold str_or. rewrite H. now apply truthy_str_some in H.
Qed.

Lemma str_or_none (b : option string) : str_or None b = b.
Proof. reflexivity. Qed.

Lemma player_names_given (player : value) (first : option string)
  (l : string) :
  str_or (normalize_string (field player "last_name"))
    (normalize_string (safe_get player ["name"; "last"] VNone)) = Some l ->
  l <> "" ->
  str_or (normalize_string (field player "first_name"))
    (normalize_string (safe_get player ["name"; "first"] VNone)) = first ->
  player_names player = (first, l).
Proof.
  intros Hlast Hne Hfirst. unfold player_names. rewrite Hlast, Hfirst.
  assert (Ht : truthy_str (Some l) = Some l)
    by (destruct l; [congruence | reflexivity]).
  now rewrite !Ht.
Qed.

(** X6. The names of a player: a [last_name] field of the entry wins
    over the [last] field of the nested [name] object, which is used when
    the entry has none, together with the first name found in the same
    order; and the last name is never empty. *)
Theorem player_names_precedence (player : value) (l : string) :
  (normalize_string (field player "last_name") = Some l ->
   snd (player_names player) = l)
  /\ (normalize_string (field player "last_name") = None ->
      normalize_string (safe_get player ["name"; "last"] VNone) = Some l ->
      player_names player
      = (str_or (normalize_string (field player "first_name"))
           (normalize_string (safe_get player ["name"; "first"] VNone)), l))
  /\ snd (player_names player) <> "".
Proof.
  split; [| split].
  - intros Hlast. assert (Ht := normalize_string_truthy _ _ Hlast).
    erewrite player_names_given; [reflexivity | | | reflexivity].
    + rewrite Hlast. now apply str_or_some.
    + now apply truthy_str_nonempty in Ht.
  - intros Hnone Hlast. assert (Ht := normalize_string_truthy _ _ Hlast).
    apply player_names_given; [| | reflexivity].
    + rewrite Hnone, Hlast. apply str_or_none.
    + now apply truthy_str_nonempty in Ht.
  - apply player_names_last.
Qed.

Lemma player_names_precedence_witness :
  snd (player_names player_named_thrice) = "Jackson".
Proof.
  apply (proj1 (player_names_precedence player_named_thrice "Jackson")).
  reflexivity.
Defined.
End NamePrecedence.
